(** * Parkezy backend: booking lifecycle, disputes and proximity search

    A shallow embedding of the view functions of
    [backend/bookings/views.py] and [backend/parking/views.py], of the
    serializers they select and of the model rows they load and save,
    followed by the properties the specification states about them and
    by further properties of the same code: the list actions, the
    creation of disputes, the facilities and their slots.

    Conventions of the embedding:
    - a [datetime] is a number of microseconds since the epoch;
    - a Python [float] is a binary64 number ([PrimFloat.float]); a
      [Decimal] is the rational it denotes;
    - a view returns an [outcome]: either a [Response] or the exception
      that escapes the view; next to it stands the store (or the row) as
      it is persisted once the request is over.  An exception raised
      before [save()] leaves the persisted row as it was loaded;
    - [timezone.now()] is read once per request and is an argument. *)

From Stdlib Require Import ZArith QArith Qround String List Bool Floats Reals Lra Lia Sorted.
From stdpp Require Import gmap strings pretty.

Set Default Proof Using "Type".

(** ** Python values *)

Module Py.

Inductive exn : Type :=
| TypeError
| AttributeError
| ValueError
| ValidationError
| IntegrityError
| ZeroDivisionError.

Inductive outcome (A : Type) : Type :=
| Return (a : A)
| Raise (e : exn).
Arguments Return {A} a.
Arguments Raise {A} e.

Definition bind {A B} (m : outcome A) (k : A -> outcome B) : outcome B :=
  match m with
  | Return a => k a
  | Raise e => Raise e
  end.

Definition datetime := Z.
Definition timedelta := Z.
Definition Decimal := Q.
Definition uuid := Z.

(** The numbers a model attribute can hold while a view runs. *)
Inductive pynum : Type :=
| PyDecimal (d : Decimal)
| PyFloat (x : float)
| PyInt (n : Z).

(** Values of a decoded request body. *)
#[warnings="-register-all"] Inductive json : Type :=
| JNull
| JBool (b : bool)
| JNum (q : Q)
| JStr (s : string)
| JList (items : list json).

(** [float(n)] on an integer: the nearest double. *)
Definition float_of_Z (z : Z) : float :=
  SF2Prim (binary_normalize prec emax z 0 false).

(** The rational a finite double denotes. *)
Definition Q_of_float (x : float) : option Q :=
  match Prim2SF x with
  | S754_zero _ => Some 0%Q
  | S754_finite s m e =>
      Some (Qmult (inject_Z (if s then Z.neg m else Z.pos m)) (Qpower 2 e))
  | S754_infinity _ => None
  | S754_nan => None
  end.

(** [x + y] and [x += y] on numbers: [Decimal] refuses to mix with
    [float] in either position. *)
Definition py_add (x y : pynum) : outcome pynum :=
  match x, y with
  | PyDecimal a, PyDecimal b => Return (PyDecimal (Qplus a b))
  | PyDecimal a, PyInt n => Return (PyDecimal (Qplus a (inject_Z n)))
  | PyInt n, PyDecimal b => Return (PyDecimal (Qplus (inject_Z n) b))
  | PyFloat a, PyFloat b => Return (PyFloat (a + b)%float)
  | PyFloat a, PyInt n => Return (PyFloat (a + float_of_Z n)%float)
  | PyInt n, PyFloat b => Return (PyFloat (float_of_Z n + b)%float)
  | PyInt n, PyInt m => Return (PyInt (n + m)%Z)
  | PyDecimal _, PyFloat _ => Raise TypeError
  | PyFloat _, PyDecimal _ => Raise TypeError
  end.

(** [x // y] on floats.  On finite operands CPython takes the exact
    remainder off [x], divides and floors: the floor of the exact
    quotient (as the nearest double, should it exceed 2^53), with the
    sign of [x / y] when it is zero.  An infinite [y] gives [-1] or a
    zero, according to the signs; an infinite [x] or a NaN gives NaN. *)
Definition py_floordiv (x y : float) : outcome float :=
  if (y =? 0)%float then Raise ZeroDivisionError
  else
    Return
      match Q_of_float x, Q_of_float y with
      | Some a, Some b =>
          let q := Qfloor (Qdiv a b) in
          if (q =? 0)%Z then (0 * (x / y))%float else float_of_Z q
      | Some a, None =>
          if negb (y =? y)%float then nan
          else if (x =? 0)%float then (0 * (x / y))%float
          else if (1 / (x / y) <? 0)%float then (-1)%float
          else 0%float
      | None, _ => nan
      end.

(** [timedelta.total_seconds()]: the microseconds over [10**6], a true
    division of integers.  A span between two datetimes stays below
    2^59 microseconds; below 2^53 the conversion is exact and the
    quotient is the correctly rounded one CPython returns. *)
Definition total_seconds (td : timedelta) : float :=
  (float_of_Z td / 1000000)%float.

(** What a [DecimalField] stores for an attribute value; a NaN or an
    infinity is refused by the field. *)
Definition to_decimal (v : pynum) : outcome Decimal :=
  match v with
  | PyDecimal d => Return d
  | PyInt n => Return (inject_Z n)
  | PyFloat x =>
      match Q_of_float x with
      | Some q => Return q
      | None => Raise ValidationError
      end
  end.

(** Truth value of a request value, as [if not v] tests it. *)
Definition truthy (v : option json) : bool :=
  match v with
  | None => false
  | Some JNull => false
  | Some (JBool b) => b
  | Some (JNum q) => negb (Qeq_bool q 0)
  | Some (JStr s) => negb (String.eqb s "")
  | Some (JList []) => false
  | Some (JList (_ :: _)) => true
  end.

(** Truth value of a query parameter ([None] or a string). *)
Definition truthy_str (v : option string) : bool :=
  match v with
  | None => false
  | Some s => negb (String.eqb s "")
  end.

End Py.
Import Py.

(** ** HTTP responses *)

Inductive Response (A : Type) : Type :=
| Ok (body : A)
| Created (body : A)
| BadRequest (error : string)
| Forbidden (error : string)
| NotFound.
Arguments Ok {A} body.
Arguments Created {A} body.
Arguments BadRequest {A} error.
Arguments Forbidden {A} error.
Arguments NotFound {A}.

Definition is_success {A} (r : outcome (Response A)) : bool :=
  match r with
  | Return (Ok _) => true
  | Return (Created _) => true
  | _ => false
  end.

(** The error text handed to the caller, when the view rejects. *)
Definition error_of {A} (r : outcome (Response A)) : option string :=
  match r with
  | Return (BadRequest e) => Some e
  | Return (Forbidden e) => Some e
  | _ => None
  end.

Record User : Type := {
  user_pk : uuid;
  is_staff : bool;
  is_host : bool
}.

(** A request as the views read it: the authenticated caller, the query
    string, the decoded body, the clock, and the identifier [uuid4()]
    hands out if the request creates a row. *)
Record Request : Type := {
  req_user : User;
  query_params : gmap string string;
  data : gmap string json;
  now : datetime;
  fresh_uuid : uuid
}.

(** Field-level parsing done by the serializer fields and by the ORM
    lookups, which the repository configures but does not implement.
    [None] stands for a value the field refuses. *)
Class FieldParsers : Type := {
  parse_uuid : json -> option uuid;
  parse_datetime : json -> option datetime;
  parse_decimal : forall (max_digits decimal_places : nat), json -> option Decimal;
  parse_char : forall (max_length : nat) (allow_blank : bool), json -> option string;
  (* [float(s)] on a query parameter *)
  float_of_string : string -> option float;
  (* the ORM's conversion of a lookup value to a [Decimal] *)
  decimal_of_string : string -> option Decimal;
  (* [float(d)] on a [Decimal] *)
  float_of_decimal : Decimal -> float;
  (* [str(v)], as a text column stores a value that is not a string *)
  str_of_json : json -> string
}.

(** The view sets declare [filter_backends] ([DjangoFilterBackend],
    [SearchFilter], [OrderingFilter]); [get_object()] passes the query
    set through them, and what they keep depends on the query string.
    [filter_queryset req row] tells whether they keep [row]. *)
Class FilterBackends (Row : Type) : Type := {
  filter_queryset : Request -> Row -> bool
}.

(** Values of a serializer's [validated_data]. *)
Inductive pyval : Type :=
| VNone
| VStr (s : string)
| VUuid (u : uuid)
| VDateTime (t : datetime)
| VDecimal (d : Decimal)
| VUser (u : User).

(** ** Bookings: [bookings/models.py], [bookings/serializers.py],
    [bookings/views.py] *)

Module Bookings.

Definition STATUS_CHOICES : list string :=
  ["pending"; "confirmed"; "active"; "completed"; "cancelled"; "disputed"]%string.

Record BookingSession : Type := {
  id : uuid;
  user : uuid;
  spot_id : uuid;
  spot_type : string;
  booking_time : datetime;
  scheduled_start_time : datetime;
  actual_start_time : option datetime;
  scheduled_end_time : datetime;
  actual_end_time : option datetime;
  duration : Decimal;
  total_cost : Decimal;
  overstay_fee : option Decimal;
  status : string;
  access_code : option string;
  created_at : datetime;
  updated_at : datetime
}.

Definition set_actual_start_time (v : option datetime) (b : BookingSession) :=
  {| id := id b; user := user b; spot_id := spot_id b; spot_type := spot_type b;
     booking_time := booking_time b; scheduled_start_time := scheduled_start_time b;
     actual_start_time := v;
     scheduled_end_time := scheduled_end_time b; actual_end_time := actual_end_time b;
     duration := duration b; total_cost := total_cost b; overstay_fee := overstay_fee b;
     status := status b; access_code := access_code b;
     created_at := created_at b; updated_at := updated_at b |}.

Definition set_actual_end_time (v : option datetime) (b : BookingSession) :=
  {| id := id b; user := user b; spot_id := spot_id b; spot_type := spot_type b;
     booking_time := booking_time b; scheduled_start_time := scheduled_start_time b;
     actual_start_time := actual_start_time b;
     scheduled_end_time := scheduled_end_time b; actual_end_time := v;
     duration := duration b; total_cost := total_cost b; overstay_fee := overstay_fee b;
     status := status b; access_code := access_code b;
     created_at := created_at b; updated_at := updated_at b |}.

Definition set_total_cost (v : Decimal) (b : BookingSession) :=
  {| id := id b; user := user b; spot_id := spot_id b; spot_type := spot_type b;
     booking_time := booking_time b; scheduled_start_time := scheduled_start_time b;
     actual_start_time := actual_start_time b;
     scheduled_end_time := scheduled_end_time b; actual_end_time := actual_end_time b;
     duration := duration b; total_cost := v; overstay_fee := overstay_fee b;
     status := status b; access_code := access_code b;
     created_at := created_at b; updated_at := updated_at b |}.

Definition set_overstay_fee (v : option Decimal) (b : BookingSession) :=
  {| id := id b; user := user b; spot_id := spot_id b; spot_type := spot_type b;
     booking_time := booking_time b; scheduled_start_time := scheduled_start_time b;
     actual_start_time := actual_start_time b;
     scheduled_end_time := scheduled_end_time b; actual_end_time := actual_end_time b;
     duration := duration b; total_cost := total_cost b; overstay_fee := v;
     status := status b; access_code := access_code b;
     created_at := created_at b; updated_at := updated_at b |}.

Definition set_status (v : string) (b : BookingSession) :=
  {| id := id b; user := user b; spot_id := spot_id b; spot_type := spot_type b;
     booking_time := booking_time b; scheduled_start_time := scheduled_start_time b;
     actual_start_time := actual_start_time b;
     scheduled_end_time := scheduled_end_time b; actual_end_time := actual_end_time b;
     duration := duration b; total_cost := total_cost b; overstay_fee := overstay_fee b;
     status := v; access_code := access_code b;
     created_at := created_at b; updated_at := updated_at b |}.

(** [booking.save()]: the row written is the object, with [updated_at]
    (declared [auto_now=True]) refreshed. *)
Definition save (t : datetime) (b : BookingSession) : BookingSession :=
  {| id := id b; user := user b; spot_id := spot_id b; spot_type := spot_type b;
     booking_time := booking_time b; scheduled_start_time := scheduled_start_time b;
     actual_start_time := actual_start_time b;
     scheduled_end_time := scheduled_end_time b; actual_end_time := actual_end_time b;
     duration := duration b; total_cost := total_cost b; overstay_fee := overstay_fee b;
     status := status b; access_code := access_code b;
     created_at := created_at b; updated_at := t |}.

(** The result of a view body on a loaded row: what the caller gets,
    and the row written by [save()], if [save()] was reached. *)
Definition effect : Type :=
  (outcome (Response BookingSession) * option BookingSession)%type.

(** *** The lifecycle actions, on the object [get_object()] returned *)

Definition start_booking (t : datetime) (booking : BookingSession) : effect :=
  if negb (String.eqb (status booking) "confirmed") then
    (Return (BadRequest "Only confirmed bookings can be started"), None)
  else
    let booking := set_actual_start_time (Some t) booking in
    let booking := set_status "active" booking in
    let booking := save t booking in
    (Return (Ok booking), Some booking).

(** The fee of lines 104-105: minutes late, in whole blocks of 15, at 20
    a block; a [float]. *)
Definition overstay_fee_of (actual_end scheduled_end : datetime) : outcome float :=
  let overstay_duration := (total_seconds (actual_end - scheduled_end)%Z / 60)%float in
  bind (py_floordiv overstay_duration 15) (fun blocks =>
  Return (blocks * 20)%float).

Definition end_booking (t : datetime) (booking : BookingSession) : effect :=
  if negb (String.eqb (status booking) "active") then
    (Return (BadRequest "Only active bookings can be ended"), None)
  else
    let booking := set_actual_end_time (Some t) booking in
    let booking := set_status "completed" booking in
    if (scheduled_end_time booking <? t)%Z then
      match
        bind (overstay_fee_of t (scheduled_end_time booking)) (fun fee =>
        bind (py_add (PyDecimal (total_cost booking)) (PyFloat fee)) (fun total =>
        bind (to_decimal (PyFloat fee)) (fun fee_col =>
        bind (to_decimal total) (fun total_col =>
        Return (set_total_cost total_col (set_overstay_fee (Some fee_col) booking))))))
      with
      | Raise e => (Raise e, None)
      | Return booking =>
          let booking := save t booking in
          (Return (Ok booking), Some booking)
      end
    else
      let booking := save t booking in
      (Return (Ok booking), Some booking).

Definition cancel_booking (t : datetime) (booking : BookingSession) : effect :=
  if existsb (String.eqb (status booking)) ["completed"; "cancelled"]%string then
    (Return (BadRequest "Cannot cancel completed or already cancelled bookings"), None)
  else
    let booking := set_status "cancelled" booking in
    let booking := save t booking in
    (Return (Ok booking), Some booking).

(** The row as persisted once the action is over. *)
Definition persisted (b : BookingSession) (e : effect) : BookingSession :=
  match snd e with
  | Some b' => b'
  | None => b
  end.

(** *** Serializers *)

Section Serializers.
Context `{FieldParsers}.

(** A declared field that is absent from the body is an error when
    it is required, and is left out of [validated_data] otherwise. *)
Definition field (name : string) (required : bool)
    (parse : json -> option pyval)
    (data : gmap string json) (acc : gmap string pyval)
  : option (gmap string pyval) :=
  match data !! name with
  | None => if required then None else Some acc
  | Some v =>
      match parse v with
      | Some x => Some (<[name := x]> acc)
      | None => None
      end
  end.

Definition nullable (parse : json -> option pyval) (v : json) : option pyval :=
  match v with
  | JNull => Some VNone
  | _ => parse v
  end.

Definition uuid_field (v : json) : option pyval := VUuid <$> parse_uuid v.
Definition datetime_field (v : json) : option pyval := VDateTime <$> parse_datetime v.
Definition decimal_field (m d : nat) (v : json) : option pyval :=
  VDecimal <$> parse_decimal m d v.
Definition char_field (n : nat) (blank : bool) (v : json) : option pyval :=
  VStr <$> parse_char n blank v.
Definition choice_field (choices : list string) (v : json) : option pyval :=
  match v with
  | JStr s => if existsb (String.eqb s) choices then Some (VStr s) else None
  | _ => None
  end.

(** [BookingSessionCreateSerializer]: only the seven declared fields
    are read from the body. *)
Definition create_validated_data (data : gmap string json)
  : option (gmap string pyval) :=
  acc ← field "spot_id" true uuid_field data ∅;
  acc ← field "spot_type" true (char_field 50 false) data acc;
  acc ← field "scheduled_start_time" true datetime_field data acc;
  acc ← field "scheduled_end_time" true datetime_field data acc;
  acc ← field "duration" true (decimal_field 6 2) data acc;
  acc ← field "total_cost" true (decimal_field 10 2) data acc;
  field "access_code" false (nullable (char_field 10 true)) data acc.

(** [BookingSession.objects.create] on the validated data: a column that
    is not given takes the default of [models.py]; a column that
    has none and may not be null makes the insert fail. *)
Definition objects_create (req : Request) (kw : gmap string pyval)
  : outcome BookingSession :=
  match kw !! "user", kw !! "spot_id",
        kw !! "scheduled_start_time", kw !! "scheduled_end_time",
        kw !! "duration", kw !! "total_cost" with
  | Some (VUser u), Some (VUuid sid),
    Some (VDateTime sst), Some (VDateTime set_),
    Some (VDecimal dur), Some (VDecimal cost) =>
      Return
        {| id := fresh_uuid req;
           user := user_pk u;
           spot_id := sid;
           spot_type := match kw !! "spot_type" with
                        | Some (VStr s) => s
                        | _ => ""
                        end;
           booking_time := now req;
           scheduled_start_time := sst;
           actual_start_time := match kw !! "actual_start_time" with
                                | Some (VDateTime x) => Some x
                                | _ => None
                                end;
           scheduled_end_time := set_;
           actual_end_time := match kw !! "actual_end_time" with
                              | Some (VDateTime x) => Some x
                              | _ => None
                              end;
           duration := dur;
           total_cost := cost;
           overstay_fee := match kw !! "overstay_fee" with
                           | Some (VDecimal x) => Some x
                           | _ => None
                           end;
           status := match kw !! "status" with
                     | Some (VStr s) => s
                     | _ => "pending"
                     end;
           access_code := match kw !! "access_code" with
                          | Some (VStr s) => Some s
                          | _ => None
                          end;
           created_at := now req;
           updated_at := now req |}
  | _, _, _, _, _, _ => Raise IntegrityError
  end.

(** [BookingSessionCreateSerializer.create]. *)
Definition create (req : Request) (validated_data : gmap string pyval)
  : outcome BookingSession :=
  let validated_data := <["user" := VUser (req_user req)]> validated_data in
  let validated_data := <["status" := VStr "confirmed"]> validated_data in
  objects_create req validated_data.

(** [BookingSessionUpdateSerializer]: five writable fields; on a
    [PUT] ([partial = false]) [total_cost], the one without a default
    or a null, is required. *)
Definition update_validated_data (partial : bool) (data : gmap string json)
  : option (gmap string pyval) :=
  acc ← field "actual_start_time" false (nullable datetime_field) data ∅;
  acc ← field "actual_end_time" false (nullable datetime_field) data acc;
  acc ← field "status" false (choice_field STATUS_CHOICES) data acc;
  acc ← field "overstay_fee" false (nullable (decimal_field 10 2)) data acc;
  field "total_cost" (negb partial) (decimal_field 10 2) data acc.

(** [ModelSerializer.update]: each validated attribute is set on the
    instance, which is then saved. *)
Definition update (t : datetime) (instance : BookingSession)
    (validated_data : gmap string pyval) : BookingSession :=
  let instance :=
    match validated_data !! "actual_start_time" with
    | Some (VDateTime x) => set_actual_start_time (Some x) instance
    | Some VNone => set_actual_start_time None instance
    | _ => instance
    end in
  let instance :=
    match validated_data !! "actual_end_time" with
    | Some (VDateTime x) => set_actual_end_time (Some x) instance
    | Some VNone => set_actual_end_time None instance
    | _ => instance
    end in
  let instance :=
    match validated_data !! "status" with
    | Some (VStr s) => set_status s instance
    | _ => instance
    end in
  let instance :=
    match validated_data !! "overstay_fee" with
    | Some (VDecimal x) => set_overstay_fee (Some x) instance
    | Some VNone => set_overstay_fee None instance
    | _ => instance
    end in
  let instance :=
    match validated_data !! "total_cost" with
    | Some (VDecimal x) => set_total_cost x instance
    | _ => instance
    end in
  save t instance.

(** The generic [update] / [partial_update] action on a loaded row. *)
Definition update_booking (partial : bool) (req : Request)
    (booking : BookingSession) : effect :=
  match update_validated_data partial (data req) with
  | None => (Return (BadRequest "invalid"), None)
  | Some validated_data =>
      let booking := update (now req) booking validated_data in
      (Return (Ok booking), Some booking)
  end.

End Serializers.

(** *** The view set over the table *)

Abbreviation table := (gmap uuid BookingSession).

Section ViewSet.
Context `{FieldParsers} {backends : FilterBackends BookingSession}.
(** Identifiers of the spots and slots a host owns, read from the
    parking tables (lines 39-48). *)
Variable all_owned_ids : User -> list uuid.

Definition visible (req : Request) (b : BookingSession) : bool :=
  (is_staff (req_user req) || Z.eqb (user b) (user_pk (req_user req)))
  && (if bool_decide (query_params req !! "host_spots" = Some "true"%string)
         && is_host (req_user req)
      then existsb (Z.eqb (spot_id b)) (all_owned_ids (req_user req))
      else true).

Definition get_queryset (req : Request) (db : table) : table :=
  filter (fun kb => visible req (snd kb) = true) db.

Definition get_object (req : Request) (pk : uuid) (db : table)
  : option BookingSession :=
  filter (fun kb => filter_queryset req (snd kb) = true) (get_queryset req db) !! pk.

(** A detail action: load the object, run the body, write the row
    the body saved. *)
Definition detail (body : BookingSession -> effect)
    (req : Request) (pk : uuid) (db : table)
  : outcome (Response BookingSession) * table :=
  match get_object req pk db with
  | None => (Return NotFound, db)
  | Some booking =>
      match body booking with
      | (r, Some saved) => (r, <[pk := saved]> db)
      | (r, None) => (r, db)
      end
  end.

Definition start (req : Request) := detail (start_booking (now req)) req.
Definition end_ (req : Request) := detail (end_booking (now req)) req.
Definition cancel (req : Request) := detail (cancel_booking (now req)) req.
Definition partial_update (req : Request) := detail (update_booking true req) req.

(** The generic [create] action with [BookingSessionCreateSerializer]. *)
Definition viewset_create (req : Request) (db : table)
  : outcome (Response BookingSession) * table :=
  match create_validated_data (data req) with
  | None => (Return (BadRequest "invalid"), db)
  | Some validated_data =>
      match create req validated_data with
      | Raise e => (Raise e, db)
      | Return booking => (Return (Created booking), <[id booking := booking]> db)
      end
  end.

End ViewSet.

(** *** Vocabulary of the specification *)

(** The three lifecycle operations and the transition table of the
    specification: precondition on the status, text of the rejection. *)
Inductive action : Type := Start | End_ | Cancel.

Definition run (a : action) : datetime -> BookingSession -> effect :=
  match a with
  | Start => start_booking
  | End_ => end_booking
  | Cancel => cancel_booking
  end.

Definition precondition (a : action) (st : string) : bool :=
  match a with
  | Start => String.eqb st "confirmed"
  | End_ => String.eqb st "active"
  | Cancel => negb (String.eqb st "completed") && negb (String.eqb st "cancelled")
  end.

Definition rejection (a : action) : string :=
  match a with
  | Start => "Only confirmed bookings can be started"
  | End_ => "Only active bookings can be ended"
  | Cancel => "Cannot cancel completed or already cancelled bookings"
  end.

(** The view of an operation. *)
Definition view {backends : FilterBackends BookingSession}
    (all_owned_ids : User -> list uuid) (a : action) (req : Request) :=
  detail all_owned_ids (run a (now req)) req.

(** [contains needle hay]: [needle] occurs in [hay]. *)
Fixpoint contains (needle hay : string) : bool :=
  if String.prefix needle hay then true
  else match hay with
       | EmptyString => false
       | String _ rest => contains needle rest
       end.

(** Statuses at or past [active] on the way to [completed]. *)
Definition reached_active (st : string) : bool :=
  String.eqb st "active" || String.eqb st "completed".

(** The invariant of the data model as the specification words it. *)
Definition stated_invariant (b : BookingSession) : Prop :=
  (is_Some (actual_start_time b) <-> reached_active (status b) = true) /\
  (is_Some (actual_end_time b) <-> status b = "completed"%string).

(** What the lifecycle operations keep. *)
Definition lifecycle_invariant (b : BookingSession) : Prop :=
  (is_Some (actual_end_time b) <-> status b = "completed"%string) /\
  (reached_active (status b) = true -> is_Some (actual_start_time b)) /\
  (status b = "confirmed"%string -> actual_start_time b = None).

Section Reachable.
Context `{FieldParsers}.

(** The rows the operations can produce: created by the create
    serializer, then moved by [start], [end], [cancel] and, when
    [with_update] is set, by the generic update. *)
Inductive reachable (with_update : bool) : BookingSession -> Prop :=
| reach_create req validated_data b :
    create_validated_data (data req) = Some validated_data ->
    create req validated_data = Return b ->
    reachable with_update b
| reach_action a t b :
    reachable with_update b ->
    reachable with_update (persisted b (run a t b))
| reach_update partial req b :
    with_update = true ->
    reachable with_update b ->
    reachable with_update (persisted b (update_booking partial req b)).
End Reachable.

End Bookings.

(** ** Disputes: [DisputeReport], [DisputeReportSerializer],
    [DisputeReportViewSet] *)

Module Disputes.

Definition STATUS_CHOICES : list string :=
  ["pending"; "under_review"; "resolved"; "rejected"]%string.

Record DisputeReport : Type := {
  id : uuid;
  booking : uuid;
  reason : string;
  description : string;
  photo_urls : json;
  status : string;
  created_at : datetime;
  resolved_at : option datetime;
  resolution : option string
}.

Abbreviation table := (gmap uuid DisputeReport).

Section ViewSet.
Context `{FieldParsers} {backends : FilterBackends DisputeReport}.

(** [queryset.filter(booking__user=user)] for a caller who is not
    staff. *)
Definition visible (req : Request) (bookings : Bookings.table)
    (d : DisputeReport) : bool :=
  is_staff (req_user req)
  || match bookings !! booking d with
     | Some b => Z.eqb (Bookings.user b) (user_pk (req_user req))
     | None => false
     end.

Definition get_queryset (req : Request) (bookings : Bookings.table)
    (db : table) : table :=
  filter (fun kd => visible req bookings (snd kd) = true) db.

Definition get_object (req : Request) (bookings : Bookings.table)
    (pk : uuid) (db : table) : option DisputeReport :=
  filter (fun kd => filter_queryset req (snd kd) = true)
    (get_queryset req bookings db) !! pk.

Definition text (v : json) : string :=
  match v with
  | JStr s => s
  | _ => str_of_json v
  end.

Definition resolve (req : Request) (bookings : Bookings.table)
    (pk : uuid) (db : table)
  : outcome (Response DisputeReport) * table :=
  if negb (is_staff (req_user req)) then
    (Return (Forbidden "Only staff can resolve disputes"), db)
  else
    match get_object req bookings pk db with
    | None => (Return NotFound, db)
    | Some dispute =>
        let resolution := data req !! "resolution" in
        if negb (truthy resolution) then
          (Return (BadRequest "Resolution text required"), db)
        else
          let dispute :=
            {| id := id dispute; booking := booking dispute;
               reason := reason dispute; description := description dispute;
               photo_urls := photo_urls dispute;
               status := "resolved";
               created_at := created_at dispute;
               resolved_at := Some (now req);
               resolution := text <$> resolution |} in
          (Return (Ok dispute), <[pk := dispute]> db)
    end.

(** [DisputeReportSerializer]: every model field, with [id],
    [created_at] and [resolved_at] read-only; [booking] must name an
    existing booking. *)
Definition booking_field (bookings : Bookings.table) (v : json) : option pyval :=
  u ← parse_uuid v;
  if bool_decide (is_Some (bookings !! u)) then Some (VUuid u) else None.

Definition json_field (v : json) : option pyval :=
  Some (VStr (str_of_json v)).

Definition update_validated_data (partial : bool) (bookings : Bookings.table)
    (data : gmap string json) : option (gmap string pyval * option json) :=
  let required := negb partial in
  acc ← Bookings.field "booking" required (booking_field bookings) data ∅;
  acc ← Bookings.field "reason" required (Bookings.char_field 255 false) data acc;
  (* a [TextField] has no [max_length]: written 0 here *)
  acc ← Bookings.field "description" required (Bookings.char_field 0 false) data acc;
  acc ← Bookings.field "status" false (Bookings.choice_field STATUS_CHOICES) data acc;
  acc ← Bookings.field "resolution" false
          (Bookings.nullable (Bookings.char_field 0 true)) data acc;
  Some (acc, data !! "photo_urls").

Definition update (instance : DisputeReport)
    (validated : gmap string pyval * option json) : DisputeReport :=
  let '(validated_data, photos) := validated in
  {| id := id instance;
     booking := match validated_data !! "booking" with
                | Some (VUuid u) => u
                | _ => booking instance
                end;
     reason := match validated_data !! "reason" with
               | Some (VStr s) => s
               | _ => reason instance
               end;
     description := match validated_data !! "description" with
                    | Some (VStr s) => s
                    | _ => description instance
                    end;
     photo_urls := match photos with
                   | Some v => v
                   | None => photo_urls instance
                   end;
     status := match validated_data !! "status" with
               | Some (VStr s) => s
               | _ => status instance
               end;
     created_at := created_at instance;
     resolved_at := resolved_at instance;
     resolution := match validated_data !! "resolution" with
                   | Some (VStr s) => Some s
                   | Some VNone => None
                   | _ => resolution instance
                   end |}.

(** The generic [update] / [partial_update] action. *)
Definition viewset_update (partial : bool) (req : Request)
    (bookings : Bookings.table) (pk : uuid) (db : table)
  : outcome (Response DisputeReport) * table :=
  match get_object req bookings pk db with
  | None => (Return NotFound, db)
  | Some dispute =>
      match update_validated_data partial bookings (data req) with
      | None => (Return (BadRequest "invalid"), db)
      | Some validated =>
          let dispute := update dispute validated in
          (Return (Ok dispute), <[pk := dispute]> db)
      end
  end.

End ViewSet.

End Disputes.

(** ** Great-circle distance: [calculate_distance] of [parking/views.py] *)

Module Geo.

(** The arithmetic lines 23-30 use, over a carrier [F]: the doubles the
    program computes with, or the real numbers its formula denotes.
    [sqrt] and [asin] raise [ValueError] outside their domain. *)
Class Arith (F : Type) : Type := {
  of_Z : Z -> F;
  add : F -> F -> F;
  sub : F -> F -> F;
  mul : F -> F -> F;
  div : F -> F -> F;
  sqr : F -> F;
  radians : F -> F;
  sin : F -> F;
  cos : F -> F;
  asin : F -> outcome F;
  sqrt : F -> outcome F
}.

Section Formula.
Context {F : Type} `{Arith F}.

(** Lines 23-30, on arguments that line 22 has converted. *)
Definition haversine (lat1 lon1 lat2 lon2 : F) : outcome F :=
  let lat1 := radians lat1 in
  let lon1 := radians lon1 in
  let lat2 := radians lat2 in
  let lon2 := radians lon2 in
  let dlon := sub lon2 lon1 in
  let dlat := sub lat2 lat1 in
  let a := add (sqr (sin (div dlat (of_Z 2))))
               (mul (mul (cos lat1) (cos lat2)) (sqr (sin (div dlon (of_Z 2))))) in
  bind (sqrt a) (fun root =>
  bind (asin root) (fun angle =>
  let c := mul (of_Z 2) angle in
  let km := mul (of_Z 6371) c in
  Return (mul km (of_Z 1000)))).
End Formula.

(** The real numbers. *)
#[export] Instance Arith_R : Arith R := {
  of_Z := IZR;
  add := Rplus;
  sub := Rminus;
  mul := Rmult;
  div := Rdiv;
  sqr := fun x => Rmult x x;
  radians := fun x => Rmult x (Rdiv PI 180);
  sin := Rtrigo_def.sin;
  cos := Rtrigo_def.cos;
  asin := fun x =>
    if Rle_dec (-1) x then
      if Rle_dec x 1 then Return (Ratan.asin x) else Raise ValueError
    else Raise ValueError;
  sqrt := fun x =>
    if Rle_dec 0 x then Return (R_sqrt.sqrt x) else Raise ValueError
}.

(** The doubles.  The C library supplies the transcendental functions;
    the rest is IEEE arithmetic. *)
Class Libm : Type := {
  libm_sin : float -> float;
  libm_cos : float -> float;
  libm_asin : float -> float;
  libm_pow : float -> float -> float
}.

Definition degToRad : float := (0x1.921fb54442d18p+1 / 180)%float.

#[export] Instance Arith_float `{Libm} : Arith float := {
  of_Z := float_of_Z;
  add := PrimFloat.add;
  sub := PrimFloat.sub;
  mul := PrimFloat.mul;
  div := PrimFloat.div;
  sqr := fun x => libm_pow x 2;
  radians := fun x => (x * degToRad)%float;
  sin := libm_sin;
  cos := libm_cos;
  asin := fun x =>
    if ((x <? -1) || (1 <? x))%float then Raise ValueError
    else Return (libm_asin x);
  sqrt := fun x =>
    if (x <? 0)%float then Raise ValueError else Return (PrimFloat.sqrt x)
}.

(** [calculate_distance] as the views call it: two query parameters
    and the two [Decimal] columns of a row. *)
Definition calculate_distance `{FieldParsers} `{Libm}
    (lat1 lon1 : string) (lat2 lon2 : Decimal) : outcome float :=
  match float_of_string lat1, float_of_string lon1 with
  | Some lat1, Some lon1 =>
      haversine lat1 lon1 (float_of_decimal lat2) (float_of_decimal lon2)
  | _, _ => Raise ValueError
  end.

End Geo.

(** ** Parking spots: [ParkingSpot], [ParkingSpotViewSet] *)

Module Parking.

Record ParkingSpot : Type := {
  id : uuid;
  owner : uuid;
  address : string;
  latitude : Decimal;
  longitude : Decimal;
  spot_type : string;
  price_per_hour : Decimal;
  daily_rate : option Decimal;
  monthly_rate : option Decimal;
  has_cctv : bool;
  is_covered : bool;
  has_ev_charging : bool;
  is_accessible : bool;
  is_24_hours : bool;
  has_insurance : bool;
  has_valet_service : bool;
  has_car_wash : bool;
  has_security_guard : bool;
  has_water_access : bool;
  is_occupied : bool;
  is_disabled : bool;
  rating : Decimal;
  review_count : Z;
  access_pin : option string;
  created_at : datetime;
  updated_at : datetime
}.

Definition set_is_occupied (v : bool) (s : ParkingSpot) : ParkingSpot :=
  {| id := id s; owner := owner s; address := address s;
     latitude := latitude s; longitude := longitude s; spot_type := spot_type s;
     price_per_hour := price_per_hour s; daily_rate := daily_rate s;
     monthly_rate := monthly_rate s;
     has_cctv := has_cctv s; is_covered := is_covered s;
     has_ev_charging := has_ev_charging s; is_accessible := is_accessible s;
     is_24_hours := is_24_hours s; has_insurance := has_insurance s;
     has_valet_service := has_valet_service s; has_car_wash := has_car_wash s;
     has_security_guard := has_security_guard s;
     has_water_access := has_water_access s;
     is_occupied := v; is_disabled := is_disabled s;
     rating := rating s; review_count := review_count s;
     access_pin := access_pin s;
     created_at := created_at s; updated_at := updated_at s |}.

(** [spot.save()], refreshing [updated_at] ([auto_now=True]). *)
Definition save (t : datetime) (s : ParkingSpot) : ParkingSpot :=
  {| id := id s; owner := owner s; address := address s;
     latitude := latitude s; longitude := longitude s; spot_type := spot_type s;
     price_per_hour := price_per_hour s; daily_rate := daily_rate s;
     monthly_rate := monthly_rate s;
     has_cctv := has_cctv s; is_covered := is_covered s;
     has_ev_charging := has_ev_charging s; is_accessible := is_accessible s;
     is_24_hours := is_24_hours s; has_insurance := has_insurance s;
     has_valet_service := has_valet_service s; has_car_wash := has_car_wash s;
     has_security_guard := has_security_guard s;
     has_water_access := has_water_access s;
     is_occupied := is_occupied s; is_disabled := is_disabled s;
     rating := rating s; review_count := review_count s;
     access_pin := access_pin s;
     created_at := created_at s; updated_at := t |}.

Abbreviation table := (gmap uuid ParkingSpot).

(** A spot carrying the [distance] attribute the views attach. *)
Definition annotated : Type := (ParkingSpot * float)%type.
Definition distance (x : annotated) : float := snd x.

(** What [get_queryset] hands back: a query set, which has [.filter],
    or a Python list, which has not. *)
Inductive collection : Type :=
| QuerySet (rows : table)
| PyList (items : list annotated).

Definition where_ (keep : ParkingSpot -> bool) (rows : table) : table :=
  filter (fun kv => keep (snd kv) = true) rows.

(** [.filter(...)] on either. *)
Definition filter_ (keep : ParkingSpot -> bool) (c : collection)
  : outcome table :=
  match c with
  | QuerySet rows => Return (where_ keep rows)
  | PyList _ => Raise AttributeError
  end.

(** The rows of a query set, in the order the database yields them. *)
Definition iterate (rows : table) : list ParkingSpot :=
  snd <$> map_to_list rows.

(** [list.sort(key=lambda x: x.distance)]: a stable sort that compares
    keys with [<] only.  On keys that [<] orders totally (no NaN) the
    result is the one stable ordering, which this insertion sort
    computes. *)
Fixpoint insert_by_distance (x : annotated) (l : list annotated) : list annotated :=
  match l with
  | [] => [x]
  | y :: l' =>
      if (distance y <? distance x)%float
      then y :: insert_by_distance x l'
      else x :: y :: l'
  end.

Fixpoint sort_by_distance (l : list annotated) : list annotated :=
  match l with
  | [] => []
  | x :: l' => insert_by_distance x (sort_by_distance l')
  end.

(** Non-decreasing in the distance attribute, neighbour by neighbour. *)
Fixpoint nondecreasing (l : list annotated) : Prop :=
  match l with
  | x :: (y :: _) as rest =>
      (distance x <=? distance y)%float = true /\ nondecreasing rest
  | _ => True
  end.

Definition available (s : ParkingSpot) : bool :=
  negb (is_occupied s) && negb (is_disabled s).

Section ViewSet.
Context `{FieldParsers} `{Geo.Libm} {backends : FilterBackends ParkingSpot}.

(** The loop of lines 66-70. *)
Fixpoint with_distance (lat lon : string) (spots : list ParkingSpot)
  : outcome (list annotated) :=
  match spots with
  | [] => Return []
  | spot :: rest =>
      bind (Geo.calculate_distance lat lon (latitude spot) (longitude spot))
        (fun d =>
      bind (with_distance lat lon rest) (fun tail =>
      Return ((spot, d) :: tail)))
  end.

(** The loop of lines 93-97. *)
Fixpoint within_radius (lat lon : string) (radius : float)
    (spots : list ParkingSpot) : outcome (list annotated) :=
  match spots with
  | [] => Return []
  | spot :: rest =>
      bind (Geo.calculate_distance lat lon (latitude spot) (longitude spot))
        (fun d =>
      bind (within_radius lat lon radius rest) (fun tail =>
      Return (if (d <=? radius)%float then (spot, d) :: tail else tail)))
  end.

Definition get_queryset (req : Request) (db : table) : outcome collection :=
  let queryset := db in
  let max_price := query_params req !! "max_price" in
  bind
    (match max_price with
     | Some p =>
         if truthy_str max_price then
           match decimal_of_string p with
           | Some bound =>
               Return (where_ (fun s => Qle_bool (price_per_hour s) bound) queryset)
           | None => Raise ValidationError
           end
         else Return queryset
     | None => Return queryset
     end) (fun queryset =>
  let available_only := query_params req !! "available_only" in
  let queryset :=
    if bool_decide (available_only = Some "true"%string)
    then where_ available queryset
    else queryset in
  let user_lat := query_params req !! "lat" in
  let user_lon := query_params req !! "lon" in
  match user_lat, user_lon with
  | Some lat, Some lon =>
      if truthy_str user_lat && truthy_str user_lon then
        bind (with_distance lat lon (iterate queryset)) (fun spots_with_distance =>
        Return (PyList (sort_by_distance spots_with_distance)))
      else Return (QuerySet queryset)
  | _, _ => Return (QuerySet queryset)
  end).

Definition nearby (req : Request) (db : table)
  : outcome (Response (list annotated)) :=
  let lat := query_params req !! "lat" in
  let lon := query_params req !! "lon" in
  bind
    (match query_params req !! "radius" with
     | Some r =>
         match float_of_string r with
         | Some x => Return x
         | None => Raise ValueError
         end
     | None => Return (float_of_Z 5000)
     end) (fun radius =>
  match lat, lon with
  | Some lat_, Some lon_ =>
      if negb (truthy_str lat) || negb (truthy_str lon) then
        Return (BadRequest "Latitude and longitude required")
      else
        bind (get_queryset req db) (fun queryset =>
        bind (filter_ available queryset) (fun spots =>
        bind (within_radius lat_ lon_ radius (iterate spots)) (fun nearby_spots =>
        Return (Ok (sort_by_distance nearby_spots)))))
  | _, _ => Return (BadRequest "Latitude and longitude required")
  end).

(** [self.get_object()]: the row of that key in what the filter
    backends keep of what [get_queryset] returns, which has to be a
    query set. *)
Definition get_object (req : Request) (pk : uuid) (db : table)
  : outcome (option ParkingSpot) :=
  bind (get_queryset req db) (fun c =>
  match c with
  | QuerySet rows =>
      Return (filter (fun kv => filter_queryset req (snd kv) = true) rows !! pk)
  | PyList _ => Raise AttributeError
  end).

Definition toggle_occupancy (req : Request) (pk : uuid) (db : table)
  : outcome (Response string) * table :=
  match get_object req pk db with
  | Raise e => (Raise e, db)
  | Return None => (Return NotFound, db)
  | Return (Some spot) =>
      let spot := set_is_occupied (negb (is_occupied spot)) spot in
      let spot := save (now req) spot in
      (Return (Ok (if is_occupied spot then "occupied" else "available")%string),
       <[pk := spot]> db)
  end.

End ViewSet.

End Parking.

(** ** Concrete requests and rows, used to run the definitions *)

Module Fixtures.
Local Open Scope Z_scope.

(** Field parsers that read numbers as they stand; enough to run the
    serializers on a concrete body. *)
Definition parsers : FieldParsers :=
  {| parse_uuid := fun v => match v with JNum q => Some (Qfloor q) | _ => None end;
     parse_datetime := fun v => match v with JNum q => Some (Qfloor q) | _ => None end;
     parse_decimal := fun _ _ v => match v with JNum q => Some q | _ => None end;
     parse_char := fun _ _ v => match v with JStr s => Some s | _ => None end;
     float_of_string := fun s =>
     if String.eqb s "28.6139" then Some 0x1.c9d288ce703bp+4%float
     else if String.eqb s "77.2090" then Some 0x1.34d604189374cp+6%float
     else if String.eqb s "5000" then Some 5000%float
     else None;
     decimal_of_string := fun _ => None;
     float_of_decimal := fun _ => 0%float;
     str_of_json := fun _ => ""%string |}.

Definition driver : User := {| user_pk := 7; is_staff := false; is_host := false |}.
Definition staff : User := {| user_pk := 1; is_staff := true; is_host := false |}.

Definition request (u : User) (t : datetime) : Request :=
  {| req_user := u; query_params := ∅; data := ∅; now := t; fresh_uuid := 100 |}.

Definition no_spots : User -> list uuid := fun _ => [].

(** Filter backends that find nothing to filter on. *)
Definition no_filters {Row : Type} : FilterBackends Row :=
  {| filter_queryset := fun _ _ => true |}.

(** A booking of two hours, from 1000 s to 8200 s. *)
Definition booking (st : string) : Bookings.BookingSession :=
  {| Bookings.id := 42; Bookings.user := 7; Bookings.spot_id := 3;
     Bookings.spot_type := "parking_spot";
     Bookings.booking_time := 0;
     Bookings.scheduled_start_time := 1000000000;
     Bookings.actual_start_time := None;
     Bookings.scheduled_end_time := 8200000000;
     Bookings.actual_end_time := None;
     Bookings.duration := 2%Q; Bookings.total_cost := 118%Q;
     Bookings.overstay_fee := None;
     Bookings.status := st; Bookings.access_code := Some "123456"%string;
     Bookings.created_at := 0; Bookings.updated_at := 0 |}.

Definition bookings (st : string) : Bookings.table := {[ 42%Z := booking st ]}.

(** A body for the create action, with a [status] of the client's. *)
Definition create_request : Request :=
  {| req_user := driver;
     query_params := ∅;
     data := {[ "spot_id"%string := JNum 3;
                "spot_type"%string := JStr "parking_spot";
                "scheduled_start_time"%string := JNum 1000000000;
                "scheduled_end_time"%string := JNum 8200000000;
                "duration"%string := JNum 2;
                "total_cost"%string := JNum 118;
                "access_code"%string := JStr "123456";
                "status"%string := JStr "completed" ]};
     now := 0;
     fresh_uuid := 42 |}.

(** A [PATCH] that writes a status and nulls both actual times. *)
Definition patch_request (st : string) (t : datetime) : Request :=
  {| req_user := driver;
     query_params := ∅;
     data := {[ "status"%string := JStr st;
                "actual_start_time"%string := JNull;
                "actual_end_time"%string := JNull ]};
     now := t;
     fresh_uuid := 0 |}.

(** A C library that is never asked anything interesting. *)
Definition libm : Geo.Libm :=
  {| Geo.libm_sin := fun x => x;
     Geo.libm_cos := fun _ => 1%float;
     Geo.libm_asin := fun x => x;
     Geo.libm_pow := fun x _ => (x * x)%float |}.

Definition dispute (st : string) : Disputes.DisputeReport :=
  {| Disputes.id := 9; Disputes.booking := 42;
     Disputes.reason := "blocked"; Disputes.description := "the spot was taken";
     Disputes.photo_urls := JList [];
     Disputes.status := st;
     Disputes.created_at := 0;
     Disputes.resolved_at := None;
     Disputes.resolution := None |}.

Definition disputes (st : string) : Disputes.table := {[ 9%Z := dispute st ]}.

(** Staff resolving with a text. *)
Definition resolve_request (t : datetime) : Request :=
  {| req_user := staff;
     query_params := ∅;
     data := {[ "resolution"%string := JStr "refunded" ]};
     now := t;
     fresh_uuid := 0 |}.

(** The driver of the booking patching the status of the dispute. *)
Definition dispute_patch (st : string) (t : datetime) : Request :=
  {| req_user := driver;
     query_params := ∅;
     data := {[ "status"%string := JStr st ]};
     now := t;
     fresh_uuid := 0 |}.

Definition spot : Parking.ParkingSpot :=
  {| Parking.id := 5; Parking.owner := 8;
     Parking.address := "Connaught Place";
     Parking.latitude := 285285 # 10000; Parking.longitude := 772182 # 10000;
     Parking.spot_type := "mall";
     Parking.price_per_hour := 40%Q;
     Parking.daily_rate := None; Parking.monthly_rate := None;
     Parking.has_cctv := true; Parking.is_covered := false;
     Parking.has_ev_charging := false; Parking.is_accessible := false;
     Parking.is_24_hours := true; Parking.has_insurance := false;
     Parking.has_valet_service := false; Parking.has_car_wash := false;
     Parking.has_security_guard := false; Parking.has_water_access := false;
     Parking.is_occupied := false; Parking.is_disabled := false;
     Parking.rating := 0%Q; Parking.review_count := 0;
     Parking.access_pin := None;
     Parking.created_at := 0; Parking.updated_at := 0 |}.

Definition spots : Parking.table := {[ 5%Z := spot ]}.

(** [GET .../nearby/?lat=28.6139&lon=77.2090&radius=5000], the request of
    [quick_api_test.py]. *)
Definition nearby_request : Request :=
  {| req_user := driver;
     query_params := {[ "lat"%string := "28.6139"%string;
                        "lon"%string := "77.2090"%string;
                        "radius"%string := "5000"%string ]};
     data := ∅;
     now := 0;
     fresh_uuid := 0 |}.

End Fixtures.

(** ** The list actions of [BookingSessionViewSet]: [active], [history] *)

Module BookingQueries.
Import Bookings.

(** The rows of a query set, in the order the database yields them. *)
Definition iterate (rows : table) : list BookingSession :=
  snd <$> map_to_list rows.

(** [.filter(status='active', actual_end_time__isnull=True)]. *)
Definition open_session (b : BookingSession) : bool :=
  String.eqb (status b) "active"
  && match actual_end_time b with None => true | Some _ => false end.

(** [.filter(status__in=['completed', 'cancelled'])]. *)
Definition finished (b : BookingSession) : bool :=
  existsb (String.eqb (status b)) ["completed"; "cancelled"]%string.

(** [.order_by('-booking_time')]: latest first; rows of equal
    [booking_time] are left in the order they come. *)
Fixpoint insert_latest_first (x : BookingSession) (l : list BookingSession)
  : list BookingSession :=
  match l with
  | [] => [x]
  | y :: l' =>
      if (booking_time x <? booking_time y)%Z
      then y :: insert_latest_first x l'
      else x :: y :: l'
  end.

Fixpoint latest_first (l : list BookingSession) : list BookingSession :=
  match l with
  | [] => []
  | x :: l' => insert_latest_first x (latest_first l')
  end.

(** [b'] is the reservation [b]: same identifier, owner, spot, booking
    time, scheduled window, duration, access code and creation time. *)
Definition same_reservation (b b' : BookingSession) : Prop :=
  id b' = id b /\ user b' = user b /\ spot_id b' = spot_id b /\
  spot_type b' = spot_type b /\ booking_time b' = booking_time b /\
  scheduled_start_time b' = scheduled_start_time b /\
  scheduled_end_time b' = scheduled_end_time b /\
  duration b' = duration b /\ access_code b' = access_code b /\
  created_at b' = created_at b.

Section Actions.
Variable all_owned_ids : User -> list uuid.

Definition active (req : Request) (db : table) : list BookingSession :=
  iterate (filter (fun kb => open_session (snd kb) = true)
             (get_queryset all_owned_ids req db)).

Definition history (req : Request) (db : table) : list BookingSession :=
  latest_first
    (iterate (filter (fun kb => finished (snd kb) = true)
                (get_queryset all_owned_ids req db))).

End Actions.

End BookingQueries.

(** ** Filing a dispute: [DisputeReportCreateSerializer] and the generic
    [create] action of [DisputeReportViewSet] *)

Module DisputeCreation.
Import Disputes.

Section Create.
Context `{FieldParsers}.

(** The four declared fields: [booking] must name a row of the bookings
    table (any row: the related field searches all bookings), [reason]
    and [description] are required, [photo_urls] is any JSON value but
    [null] and may be left out. *)
Definition create_validated_data (bookings : Bookings.table)
    (data : gmap string json) : option (gmap string pyval * option json) :=
  acc ← Bookings.field "booking" true (booking_field bookings) data ∅;
  acc ← Bookings.field "reason" true (Bookings.char_field 255 false) data acc;
  (* a [TextField] has no [max_length]: written 0 here *)
  acc ← Bookings.field "description" true (Bookings.char_field 0 false) data acc;
  match data !! "photo_urls" with
  | Some JNull => None
  | photos => Some (acc, photos)
  end.

(** [DisputeReport.objects.create] on the validated data, with the
    defaults of [models.py] for the other columns. *)
Definition objects_create (req : Request)
    (validated : gmap string pyval * option json) : outcome DisputeReport :=
  let '(kw, photos) := validated in
  match kw !! "booking", kw !! "reason", kw !! "description" with
  | Some (VUuid b), Some (VStr r), Some (VStr d) =>
      Return
        {| id := fresh_uuid req;
           booking := b;
           reason := r;
           description := d;
           photo_urls := match photos with
                         | Some v => v
                         | None => JList []
                         end;
           status := "pending";
           created_at := now req;
           resolved_at := None;
           resolution := None |}
  | _, _, _ => Raise IntegrityError
  end.

Definition viewset_create (req : Request) (bookings : Bookings.table)
    (db : table) : outcome (Response DisputeReport) * table :=
  match create_validated_data bookings (data req) with
  | None => (Return (BadRequest "invalid"), db)
  | Some validated =>
      match objects_create req validated with
      | Raise e => (Raise e, db)
      | Return dispute => (Return (Created dispute), <[id dispute := dispute]> db)
      end
  end.

End Create.

End DisputeCreation.

(** ** What [ParkingSpotViewSet.get_queryset] selects *)

Module ParkingSelection.
Import Parking.

Section Selection.
Context `{FieldParsers}.

(** [rows] holds the rows of [db] that pass the price bound and the
    availability flag of the query string (lines 52-60). *)
Definition selected (req : Request) (db rows : table) : Prop :=
  forall k s,
    rows !! k = Some s <->
    db !! k = Some s /\
    (forall p bound,
       query_params req !! "max_price" = Some p -> p <> ""%string ->
       decimal_of_string p = Some bound ->
       Qle_bool (price_per_hour s) bound = true) /\
    (query_params req !! "available_only" = Some "true"%string ->
     is_occupied s = false /\ is_disabled s = false).

End Selection.

(** No entry of the list carries a NaN as its distance. *)
Definition comparable (l : list annotated) : Prop :=
  Forall (fun x => (distance x =? distance x)%float = true) l.

End ParkingSelection.

(** ** Commercial facilities and their slots: [parking/models.py],
    [CommercialParkingFacilityViewSet] *)

Module CommercialSlots.

Definition SLOT_TYPE_CHOICES : list string :=
  ["regular"; "compact"; "ev"; "handicap"; "vip"]%string.

Record CommercialParkingSlot : Type := {
  id : uuid;
  facility : uuid;
  slot_number : string;
  floor : Z;
  slot_type : string;
  is_occupied : bool;
  is_disabled : bool;
  created_at : datetime;
  updated_at : datetime
}.

Abbreviation table := (gmap uuid CommercialParkingSlot).

Definition where_ (keep : CommercialParkingSlot -> bool) (rows : table) : table :=
  filter (fun kv => keep (snd kv) = true) rows.

(** The rows of a query set, in the order the database yields them. *)
Definition iterate (rows : table) : list CommercialParkingSlot :=
  snd <$> map_to_list rows.

(** [.count()]. *)
Definition count (rows : table) : Z := Z.of_nat (size rows).

(** The keyword arguments of one [CommercialParkingSlot(...)] call of
    [create_slots]; [slot_type] is whatever the body carried. *)
Record unsaved : Type := {
  new_facility : uuid;
  new_floor : Z;
  new_slot_type : json;
  new_slot_number : string
}.

(** [CommercialParkingSlot.objects.bulk_create(slots)]: the database
    stores the whole batch or raises and stores none of it. *)
Class BulkCreate : Type := {
  bulk_create : Request -> table -> list unsaved -> outcome table
}.

End CommercialSlots.

Module Facilities.
Import CommercialSlots.

Definition FACILITY_TYPE_CHOICES : list string :=
  ["mall"; "office"; "apartment"; "hospital"; "airport"; "stadium"]%string.

Record CommercialParkingFacility : Type := {
  id : uuid;
  owner : uuid;
  name : string;
  address : string;
  latitude : Decimal;
  longitude : Decimal;
  facility_type : string;
  default_hourly_rate : Decimal;
  flat_day_rate : option Decimal;
  has_cctv : bool;
  has_ev_charging : bool;
  has_valet_service : bool;
  has_car_wash : bool;
  is_24_hours : bool;
  rating : Decimal;
  review_count : Z;
  created_at : datetime;
  updated_at : datetime
}.

Abbreviation table := (gmap uuid CommercialParkingFacility).

(** [facility.slots]: the slots whose foreign key is this facility. *)
Definition slots_of (f : CommercialParkingFacility) (sdb : CommercialSlots.table)
  : CommercialSlots.table :=
  where_ (fun s => (facility s =? id f)%Z) sdb.

Definition free (s : CommercialParkingSlot) : bool :=
  negb (is_occupied s) && negb (is_disabled s).

(** The property [total_slots]. *)
Definition total_slots (f : CommercialParkingFacility)
    (sdb : CommercialSlots.table) : Z :=
  count (slots_of f sdb).

(** The property [available_slots]. *)
Definition available_slots (f : CommercialParkingFacility)
    (sdb : CommercialSlots.table) : Z :=
  count (where_ free (slots_of f sdb)).

(** A facility carrying the [distance] attribute [get_queryset] attaches. *)
Definition annotated : Type := (CommercialParkingFacility * float)%type.
Definition distance (x : annotated) : float := snd x.

Inductive collection : Type :=
| QuerySet (rows : table)
| PyList (items : list annotated).

Definition iterate (rows : table) : list CommercialParkingFacility :=
  snd <$> map_to_list rows.

(** [list.sort(key=lambda x: x.distance)], as for the parking spots. *)
Fixpoint insert_by_distance (x : annotated) (l : list annotated) : list annotated :=
  match l with
  | [] => [x]
  | y :: l' =>
      if (distance y <? distance x)%float
      then y :: insert_by_distance x l'
      else x :: y :: l'
  end.

Fixpoint sort_by_distance (l : list annotated) : list annotated :=
  match l with
  | [] => []
  | x :: l' => insert_by_distance x (sort_by_distance l')
  end.

(** [int(s)] on a string, which the repository calls but does not
    implement; [None] where it raises [ValueError]. *)
Class IntOfString : Type := {
  int_of_string : string -> option Z
}.

(** [int(v)] on a value of the body: a number is truncated towards
    zero, a string is parsed, [None] and lists are refused with a
    [TypeError]. *)
Definition int_ `{IntOfString} (v : json) : outcome Z :=
  match v with
  | JNull => Raise TypeError
  | JBool b => Return (if b then 1 else 0)%Z
  | JNum q => Return (Z.quot (Qnum q) (Z.pos (Qden q)))
  | JStr s =>
      match int_of_string s with
      | Some n => Return n
      | None => Raise ValueError
      end
  | JList _ => Raise TypeError
  end.

(** [f"F{floor}-{n}"]. *)
Definition label (floor n : Z) : string :=
  "F" +:+ pretty floor +:+ "-" +:+ pretty n.

(** The loop of lines 180-186. *)
Definition new_slots (f : CommercialParkingFacility) (floor : Z)
    (slot_type : json) (existing_count count : Z) : list unsaved :=
  (fun i : nat =>
     {| new_facility := id f;
        new_floor := floor;
        new_slot_type := slot_type;
        new_slot_number := label floor (existing_count + Z.of_nat i + 1) |})
  <$> seq 0 (Z.to_nat count).

Section ViewSet.
Context `{FieldParsers} `{Geo.Libm} `{IntOfString} `{BulkCreate}
        {backends : FilterBackends CommercialParkingFacility}.

(** The loop of lines 135-138. *)
Fixpoint with_distance (lat lon : string) (facilities : list CommercialParkingFacility)
  : outcome (list annotated) :=
  match facilities with
  | [] => Return []
  | f :: rest =>
      bind (Geo.calculate_distance lat lon (latitude f) (longitude f)) (fun d =>
      bind (with_distance lat lon rest) (fun tail =>
      Return ((f, d) :: tail)))
  end.

Definition get_queryset (req : Request) (db : table) : outcome collection :=
  let queryset := db in
  let user_lat := query_params req !! "lat" in
  let user_lon := query_params req !! "lon" in
  match user_lat, user_lon with
  | Some lat, Some lon =>
      if truthy_str user_lat && truthy_str user_lon then
        bind (with_distance lat lon (iterate queryset))
          (fun facilities_with_distance =>
        Return (PyList (sort_by_distance facilities_with_distance)))
      else Return (QuerySet queryset)
  | _, _ => Return (QuerySet queryset)
  end.

(** [self.get_object()], as for the parking spots. *)
Definition get_object (req : Request) (pk : uuid) (db : table)
  : outcome (option CommercialParkingFacility) :=
  bind (get_queryset req db) (fun c =>
  match c with
  | QuerySet rows =>
      Return (filter (fun kv => filter_queryset req (snd kv) = true) rows !! pk)
  | PyList _ => Raise AttributeError
  end).

(** The action [slots]. *)
Definition slots (req : Request) (pk : uuid) (db : table)
    (sdb : CommercialSlots.table)
  : outcome (Response (list CommercialParkingSlot)) :=
  bind (get_object req pk db) (fun found =>
  match found with
  | None => Return NotFound
  | Some facility =>
      let slots := slots_of facility sdb in
      let floor_ := query_params req !! "floor" in
      bind
        (match floor_ with
         | Some fl =>
             if truthy_str floor_ then
               match int_of_string fl with
               | Some n => Return (where_ (fun s => (floor s =? n)%Z) slots)
               | None => Raise ValueError
               end
             else Return slots
         | None => Return slots
         end) (fun slots =>
      let slot_type_ := query_params req !! "slot_type" in
      let slots :=
        match slot_type_ with
        | Some ty =>
            if truthy_str slot_type_
            then where_ (fun s => String.eqb (slot_type s) ty) slots
            else slots
        | None => slots
        end in
      let available_only := query_params req !! "available_only" in
      let slots :=
        if bool_decide (available_only = Some "true"%string)
        then where_ free slots
        else slots in
      Return (Ok (CommercialSlots.iterate slots)))
  end).

(** The action [create_slots]. *)
Definition create_slots (req : Request) (pk : uuid) (db : table)
    (sdb : CommercialSlots.table)
  : outcome (Response string) * CommercialSlots.table :=
  match get_object req pk db with
  | Raise e => (Raise e, sdb)
  | Return None => (Return NotFound, sdb)
  | Return (Some facility) =>
      match
        bind (int_ (default (JNum 0) (data req !! "count"))) (fun count =>
        bind (int_ (default (JNum 1) (data req !! "floor"))) (fun floor =>
        Return (count, floor)))
      with
      | Raise ValueError => (Return (BadRequest "Invalid number format"), sdb)
      | Raise e => (Raise e, sdb)
      | Return (count_, floor_) =>
          let slot_type := default (JStr "regular") (data req !! "slot_type") in
          let existing_count :=
            count (where_ (fun s => (floor s =? floor_)%Z) (slots_of facility sdb)) in
          let slots := new_slots facility floor_ slot_type existing_count count_ in
          match bulk_create req sdb slots with
          | Raise e => (Raise e, sdb)
          | Return sdb' =>
              (Return (Created (pretty count_ +:+ " slots created")), sdb')
          end
      end
  end.

End ViewSet.

End Facilities.

(** ** Private listings: the property [available_slots] *)

Module PrivateSlots.

Record PrivateParkingSlot : Type := {
  id : uuid;
  listing : uuid;
  slot_number : Z;
  is_occupied : bool;
  is_disabled : bool;
  created_at : datetime;
  updated_at : datetime
}.

Abbreviation table := (gmap uuid PrivateParkingSlot).

Definition where_ (keep : PrivateParkingSlot -> bool) (rows : table) : table :=
  filter (fun kv => keep (snd kv) = true) rows.

Definition count (rows : table) : Z := Z.of_nat (size rows).

(** [slot.is_disabled = v]. *)
Definition set_is_disabled (v : bool) (s : PrivateParkingSlot) : PrivateParkingSlot :=
  {| id := id s; listing := listing s; slot_number := slot_number s;
     is_occupied := is_occupied s; is_disabled := v;
     created_at := created_at s; updated_at := updated_at s |}.

End PrivateSlots.

Module Listings.
Import PrivateSlots.

Definition DURATION_LIMIT_CHOICES : list string :=
  ["hourly"; "daily"; "weekly"; "monthly"; "unlimited"]%string.

Record PrivateParkingListing : Type := {
  id : uuid;
  owner : uuid;
  title : string;
  address : string;
  latitude : Decimal;
  longitude : Decimal;
  description : string;
  total_slots : Z;
  hourly_rate : Decimal;
  daily_rate : Decimal;
  monthly_rate : Decimal;
  flat_full_booking_rate : option Decimal;
  auto_accept_bookings : bool;
  instant_booking_discount : option Decimal;
  has_cctv : bool;
  is_covered : bool;
  has_ev_charging : bool;
  has_security_guard : bool;
  has_water_access : bool;
  is_24_hours : bool;
  available_from : option Z;
  available_to : option Z;
  rating : Decimal;
  review_count : Z;
  max_booking_duration : string;
  suggested_hourly_rate : option Decimal;
  created_at : datetime;
  updated_at : datetime
}.

(** [listing.slots]. *)
Definition slots_of (l : PrivateParkingListing) (sdb : PrivateSlots.table)
  : PrivateSlots.table :=
  where_ (fun s => (listing s =? id l)%Z) sdb.

(** The property [available_slots]. *)
Definition available_slots (l : PrivateParkingListing)
    (sdb : PrivateSlots.table) : Z :=
  let occupied := count (where_ is_occupied (slots_of l sdb)) in
  total_slots l - occupied.

End Listings.

(** ** More requests and rows, used to run the list, dispute and
    facility definitions *)

Module Scenarios.
Local Open Scope Z_scope.

(** A driver who owns none of the rows below. *)
Definition stranger : User := {| user_pk := 8; is_staff := false; is_host := false |}.

(** [POST /disputes/] about booking 42. *)
Definition dispute_request (u : User) : Request :=
  {| req_user := u;
     query_params := ∅;
     data := {[ "booking"%string := JNum 42;
                "reason"%string := JStr "blocked";
                "description"%string := JStr "the spot was taken" ]};
     now := 50;
     fresh_uuid := 9 |}.

Definition facility : Facilities.CommercialParkingFacility :=
  {| Facilities.id := 11; Facilities.owner := 8;
     Facilities.name := "Select Citywalk";
     Facilities.address := "Saket";
     Facilities.latitude := 285285 # 10000; Facilities.longitude := 772182 # 10000;
     Facilities.facility_type := "mall";
     Facilities.default_hourly_rate := 60%Q;
     Facilities.flat_day_rate := None;
     Facilities.has_cctv := true; Facilities.has_ev_charging := false;
     Facilities.has_valet_service := false; Facilities.has_car_wash := false;
     Facilities.is_24_hours := false;
     Facilities.rating := 0%Q; Facilities.review_count := 0;
     Facilities.created_at := 0; Facilities.updated_at := 0 |}.

Definition facilities : Facilities.table := {[ 11%Z := facility ]}.

(** A slot of that facility on floor 1. *)
Definition slot (pk : uuid) (number : string) (occupied : bool)
  : CommercialSlots.CommercialParkingSlot :=
  {| CommercialSlots.id := pk; CommercialSlots.facility := 11;
     CommercialSlots.slot_number := number;
     CommercialSlots.floor := 1;
     CommercialSlots.slot_type := "regular";
     CommercialSlots.is_occupied := occupied;
     CommercialSlots.is_disabled := false;
     CommercialSlots.created_at := 0; CommercialSlots.updated_at := 0 |}.

(** Floor 1 after its first slot, [F1-1], has been deleted. *)
Definition slots : CommercialSlots.table := {[ 22%Z := slot 22 "F1-2" false ]}.

(** [int] on the few strings the requests below carry. *)
Definition digits : Facilities.IntOfString :=
  {| Facilities.int_of_string := fun s =>
       if String.eqb s "1" then Some 1
       else if String.eqb s "2" then Some 2
       else None |}.

Definition clashes (sdb : CommercialSlots.table) (u : CommercialSlots.unsaved) : bool :=
  existsb (fun s =>
             (CommercialSlots.facility s =? CommercialSlots.new_facility u)
             && String.eqb (CommercialSlots.slot_number s)
                           (CommercialSlots.new_slot_number u))
          (CommercialSlots.iterate sdb).

Definition saved (req : Request) (i : nat) (u : CommercialSlots.unsaved)
  : CommercialSlots.CommercialParkingSlot :=
  {| CommercialSlots.id := fresh_uuid req + Z.of_nat i;
     CommercialSlots.facility := CommercialSlots.new_facility u;
     CommercialSlots.slot_number := CommercialSlots.new_slot_number u;
     CommercialSlots.floor := CommercialSlots.new_floor u;
     CommercialSlots.slot_type :=
       match CommercialSlots.new_slot_type u with
       | JStr ty => ty
       | _ => "regular"
       end;
     CommercialSlots.is_occupied := false;
     CommercialSlots.is_disabled := false;
     CommercialSlots.created_at := now req; CommercialSlots.updated_at := now req |}.

(** A database that enforces [unique_together] on facility and slot
    number, and numbers the new rows from [fresh_uuid] on. *)
Definition store : CommercialSlots.BulkCreate :=
  {| CommercialSlots.bulk_create := fun req sdb batch =>
       if existsb (clashes sdb) batch then Raise IntegrityError
       else Return (fold_right
                      (fun iu acc => <[fresh_uuid req + Z.of_nat (fst iu)
                                       := saved req (fst iu) (snd iu)]> acc)
                      sdb (imap pair batch)) |}.

(** [POST .../create_slots/] with the given [count] and [floor]. *)
Definition create_slots_request (count floor : json) : Request :=
  {| req_user := stranger;
     query_params := ∅;
     data := {[ "count"%string := count; "floor"%string := floor ]};
     now := 60;
     fresh_uuid := 30 |}.

(** [GET .../slots/?floor=1&available_only=true]. *)
Definition slots_request : Request :=
  {| req_user := stranger;
     query_params := {[ "floor"%string := "1"%string;
                        "available_only"%string := "true"%string ]};
     data := ∅;
     now := 60;
     fresh_uuid := 0 |}.

End Scenarios.


(** ** Properties of the booking life cycle *)

Module BookingFacts.
Import Bookings.
Local Open Scope Z_scope.
Local Open Scope string_scope.

Section Views.
Context {backends : FilterBackends BookingSession}.
Variable all_owned_ids : User -> list uuid.

Lemma booking_get_object_Some req pk db b :
  get_object all_owned_ids req pk db = Some b <->
  db !! pk = Some b /\ visible all_owned_ids req b = true
  /\ filter_queryset req b = true.
Proof.
  unfold get_object, get_queryset.
  rewrite !map_lookup_filter_Some. simpl. tauto.
Qed.

Lemma detail_saved body req pk db b r b' :
  get_object all_owned_ids req pk db = Some b ->
  body b = (r, Some b') ->
  detail all_owned_ids body req pk db = (r, <[pk := b']> db).
Proof. intros Hget Hbody. unfold detail. rewrite Hget, Hbody. reflexivity. Qed.

Lemma detail_unsaved body req pk db b r :
  get_object all_owned_ids req pk db = Some b ->
  body b = (r, None) ->
  detail all_owned_ids body req pk db = (r, db).
Proof. intros Hget Hbody. unfold detail. rewrite Hget, Hbody. reflexivity. Qed.

Lemma start_booking_confirmed t b :
  status b = "confirmed" ->
  let b' := save t (set_status "active" (set_actual_start_time (Some t) b)) in
  start_booking t b = (Return (Ok b'), Some b').
Proof. intros E. unfold start_booking. rewrite E. reflexivity. Qed.

Lemma start_booking_rejected t b :
  status b <> "confirmed" ->
  start_booking t b =
    (Return (BadRequest "Only confirmed bookings can be started"), None).
Proof.
  intros E. unfold start_booking.
  destruct (String.eqb_spec (status b) "confirmed") as [E'|_]; [contradiction|].
  reflexivity.
Qed.

(** C3: [start] on a booking the caller can reach succeeds exactly when
    its status is [confirmed]; it then stamps [actual_start_time] with
    the current time, sets the status to [active] and saves that row.
    On any other status (so on [pending], [active] and [completed]) it
    answers 400 and the table, hence the status and
    [actual_start_time] of the booking, is what it was. *)
Theorem start_succeeds_iff_confirmed req pk db b :
  get_object all_owned_ids req pk db = Some b ->
  (is_success (fst (start all_owned_ids req pk db)) = true
     <-> status b = "confirmed") /\
  (status b = "confirmed" ->
     let b' := save (now req)
                 (set_status "active"
                    (set_actual_start_time (Some (now req)) b)) in
     start all_owned_ids req pk db = (Return (Ok b'), <[pk := b']> db) /\
     actual_start_time b' = Some (now req) /\ status b' = "active") /\
  (status b <> "confirmed" ->
     start all_owned_ids req pk db =
       (Return (BadRequest "Only confirmed bookings can be started"), db)).
Proof.
  intros Hget.
  assert (Hyes : status b = "confirmed" ->
            start all_owned_ids req pk db =
              (Return (Ok (save (now req) (set_status "active"
                 (set_actual_start_time (Some (now req)) b)))),
               <[pk := save (now req) (set_status "active"
                 (set_actual_start_time (Some (now req)) b))]> db)).
  { intros E. unfold start. eapply detail_saved; [exact Hget|].
    apply start_booking_confirmed, E. }
  assert (Hno : status b <> "confirmed" ->
            start all_owned_ids req pk db =
              (Return (BadRequest "Only confirmed bookings can be started"), db)).
  { intros E. unfold start. eapply detail_unsaved; [exact Hget|].
    apply start_booking_rejected, E. }
  split; [|split].
  - destruct (String.eqb_spec (status b) "confirmed") as [E|E].
    + rewrite (Hyes E). simpl. tauto.
    + rewrite (Hno E). simpl. split; [discriminate|contradiction].
  - intros E. cbv zeta. split; [exact (Hyes E)|]. split; reflexivity.
  - exact Hno.
Qed.

Lemma view_actions :
  view all_owned_ids Start = start all_owned_ids /\
  view all_owned_ids End_ = end_ all_owned_ids /\
  view all_owned_ids Cancel = cancel all_owned_ids.
Proof. repeat split. Qed.

Lemma run_rejected a t b :
  precondition a (status b) = false ->
  run a t b = (Return (BadRequest (rejection a)), None).
Proof.
  destruct a; simpl; unfold start_booking, end_booking, cancel_booking; simpl.
  - intros ->. reflexivity.
  - intros ->. reflexivity.
  - destruct (String.eqb (status b) "completed"),
             (String.eqb (status b) "cancelled"); simpl;
      (discriminate || reflexivity).
Qed.

(** C5, as the code has it: an operation invoked on a booking whose
    status fails its precondition answers 400 with a text fixed per
    operation (it does not depend on the booking), and the table is
    left as it was. *)
Theorem rejected_operation_mutates_nothing a req pk db b :
  get_object all_owned_ids req pk db = Some b ->
  precondition a (status b) = false ->
  view all_owned_ids a req pk db = (Return (BadRequest (rejection a)), db).
Proof.
  intros Hget Hpre. unfold view.
  eapply detail_unsaved; [exact Hget|]. apply run_rejected, Hpre.
Qed.

Lemma cancel_booking_open t b :
  status b <> "completed" -> status b <> "cancelled" ->
  let b' := save t (set_status "cancelled" b) in
  cancel_booking t b = (Return (Ok b'), Some b').
Proof.
  intros E1 E2. unfold cancel_booking. simpl.
  destruct (String.eqb_spec (status b) "completed"); [contradiction|].
  destruct (String.eqb_spec (status b) "cancelled"); [contradiction|].
  reflexivity.
Qed.

(** C6: on a booking that is neither [completed] nor [cancelled] the
    first [cancel] succeeds and saves it as [cancelled].  Any [cancel]
    that follows, whoever sends it, fails and leaves the table as the
    first call left it, the booking [cancelled]; when it reaches the
    booking, the answer is the 400 of the status guard. *)
Theorem cancel_twice req pk db b :
  get_object all_owned_ids req pk db = Some b ->
  status b <> "completed" -> status b <> "cancelled" ->
  let b' := save (now req) (set_status "cancelled" b) in
  let db' := <[pk := b']> db in
  cancel all_owned_ids req pk db = (Return (Ok b'), db') /\
  status b' = "cancelled" /\
  (forall req',
     is_success (fst (cancel all_owned_ids req' pk db')) = false /\
     snd (cancel all_owned_ids req' pk db') = db' /\
     (is_Some (get_object all_owned_ids req' pk db') ->
      fst (cancel all_owned_ids req' pk db') =
        Return (BadRequest "Cannot cancel completed or already cancelled bookings"))) /\
  db' !! pk = Some b'.
Proof.
  intros Hget E1 E2 b' db'.
  split; [|split; [reflexivity|split; [|apply lookup_insert_eq]]].
  - unfold cancel. eapply detail_saved; [exact Hget|].
    apply cancel_booking_open; assumption.
  - intros req'. unfold cancel, detail.
    destruct (get_object all_owned_ids req' pk db') as [b2|] eqn:Hget2.
    + apply booking_get_object_Some in Hget2 as [Hb2 _].
      unfold db' in Hb2. rewrite lookup_insert_eq in Hb2. injection Hb2 as <-.
      change (cancel_booking (now req') b') with (run Cancel (now req') b').
      rewrite (run_rejected Cancel (now req') b' eq_refl). simpl.
      repeat split; reflexivity.
    + simpl. repeat split; try reflexivity. intros [x Hx]. discriminate.
Qed.

Lemma py_floordiv_15 x : exists q, py_floordiv x 15 = Return q.
Proof.
  unfold py_floordiv.
  change (15 =? 0)%float with false. cbv iota. eauto.
Qed.

(** Lines 104-105 always yield a fee. *)
Lemma overstay_fee_of_returns t s : exists fee, overstay_fee_of t s = Return fee.
Proof.
  unfold overstay_fee_of.
  destruct (py_floordiv_15 (total_seconds (t - s)%Z / 60)%float) as [q ->].
  simpl. eauto.
Qed.

(** Line 107 on a [Decimal] cost and a [float] fee. *)
Lemma decimal_plus_float d x : py_add (PyDecimal d) (PyFloat x) = Raise TypeError.
Proof. reflexivity. Qed.

Lemma end_booking_overstay t b :
  status b = "active" ->
  (scheduled_end_time b < t)%Z ->
  end_booking t b = (Raise TypeError, None).
Proof.
  intros E Hlate. unfold end_booking. rewrite E.
  cbn -[overstay_fee_of py_add].
  apply Z.ltb_lt in Hlate. rewrite Hlate.
  destruct (overstay_fee_of_returns t (scheduled_end_time b)) as [fee ->].
  cbn -[py_add]. rewrite decimal_plus_float. reflexivity.
Qed.

Lemma end_booking_on_time t b :
  status b = "active" ->
  (t <= scheduled_end_time b)%Z ->
  let b' := save t (set_status "completed" (set_actual_end_time (Some t) b)) in
  end_booking t b = (Return (Ok b'), Some b').
Proof.
  intros E Hlate. unfold end_booking. rewrite E. simpl.
  apply Z.ltb_ge in Hlate. rewrite Hlate. reflexivity.
Qed.

(** C1, what the code does: on an [active] booking ended after its
    scheduled end, the fee is computed as a [float] and
    [booking.total_cost += overstay_fee] adds it to a [Decimal]: the
    view raises [TypeError] before [save()], whatever the length of
    the overstay, and the table is left as it was. *)
Theorem end_after_scheduled_end_raises req pk db b :
  get_object all_owned_ids req pk db = Some b ->
  status b = "active" ->
  (scheduled_end_time b < now req)%Z ->
  end_ all_owned_ids req pk db = (Raise TypeError, db).
Proof.
  intros Hget E Hlate. unfold end_.
  eapply detail_unsaved; [exact Hget|]. apply end_booking_overstay; assumption.
Qed.

End Views.

Section Creation.
Context `{FieldParsers}.
Variable all_owned_ids : User -> list uuid.

Lemma field_required_inv name parse data acc acc' :
  field name true parse data acc = Some acc' ->
  exists v x, data !! name = Some v /\ parse v = Some x /\ acc' = <[name := x]> acc.
Proof.
  unfold field. destruct (data !! name) as [v|]; [|discriminate].
  destruct (parse v) as [x|] eqn:Hp; [|discriminate].
  intros [= <-]. exists v, x. auto.
Qed.

Lemma field_lookup_ne name required parse data acc acc' k :
  field name required parse data acc = Some acc' ->
  k <> name -> acc' !! k = acc !! k.
Proof.
  unfold field. intros Hf Hk.
  destruct (data !! name) as [v|].
  - destruct (parse v) as [x|]; [|discriminate].
    injection Hf as <-. apply lookup_insert_ne. congruence.
  - destruct required; [discriminate|]. injection Hf as <-. reflexivity.
Qed.

Lemma fmap_field_inv {A} (inj : A -> pyval) (o : option A) x :
  inj <$> o = Some x -> exists a, o = Some a /\ x = inj a.
Proof. destruct o; simpl; [intros [= <-]; eauto | discriminate]. Qed.

(** What the create serializer validates: the six required columns,
    typed, and none of the columns it does not declare. *)
Lemma create_validated_data_inv data vd :
  create_validated_data data = Some vd ->
  (exists sid sst set_ dur cost,
     vd !! "spot_id" = Some (VUuid sid) /\
     vd !! "scheduled_start_time" = Some (VDateTime sst) /\
     vd !! "scheduled_end_time" = Some (VDateTime set_) /\
     vd !! "duration" = Some (VDecimal dur) /\
     vd !! "total_cost" = Some (VDecimal cost)) /\
  vd !! "actual_start_time" = None /\
  vd !! "actual_end_time" = None /\
  vd !! "overstay_fee" = None.
Proof.
  unfold create_validated_data. intros Hvd.
  destruct (field "spot_id" _ _ _ _) as [a1|] eqn:E1; [|discriminate].
  simpl in Hvd.
  destruct (field "spot_type" _ _ _ _) as [a2|] eqn:E2; [|discriminate].
  simpl in Hvd.
  destruct (field "scheduled_start_time" _ _ _ _) as [a3|] eqn:E3; [|discriminate].
  simpl in Hvd.
  destruct (field "scheduled_end_time" _ _ _ _) as [a4|] eqn:E4; [|discriminate].
  simpl in Hvd.
  destruct (field "duration" _ _ _ _) as [a5|] eqn:E5; [|discriminate].
  simpl in Hvd.
  destruct (field "total_cost" _ _ _ _) as [a6|] eqn:E6; [|discriminate].
  simpl in Hvd.
  assert (Hne : forall k, k <> "spot_id" -> k <> "spot_type" ->
            k <> "scheduled_start_time" -> k <> "scheduled_end_time" ->
            k <> "duration" -> k <> "total_cost" -> k <> "access_code" ->
            vd !! k = None).
  { intros k ? ? ? ? ? ? ?.
    rewrite (field_lookup_ne _ _ _ _ _ _ k Hvd) by assumption.
    rewrite (field_lookup_ne _ _ _ _ _ _ k E6) by assumption.
    rewrite (field_lookup_ne _ _ _ _ _ _ k E5) by assumption.
    rewrite (field_lookup_ne _ _ _ _ _ _ k E4) by assumption.
    rewrite (field_lookup_ne _ _ _ _ _ _ k E3) by assumption.
    rewrite (field_lookup_ne _ _ _ _ _ _ k E2) by assumption.
    rewrite (field_lookup_ne _ _ _ _ _ _ k E1) by assumption.
    apply lookup_empty. }
  apply field_required_inv in E1 as (v1 & x1 & _ & P1 & ->).
  apply fmap_field_inv in P1 as (sid & _ & ->).
  pose proof (field_lookup_ne _ _ _ _ _ _ "spot_id" E2 ltac:(discriminate)) as L2.
  pose proof (field_lookup_ne _ _ _ _ _ _ "spot_id" E3 ltac:(discriminate)) as L3.
  pose proof (field_lookup_ne _ _ _ _ _ _ "spot_id" E4 ltac:(discriminate)) as L4.
  pose proof (field_lookup_ne _ _ _ _ _ _ "spot_id" E5 ltac:(discriminate)) as L5.
  pose proof (field_lookup_ne _ _ _ _ _ _ "spot_id" E6 ltac:(discriminate)) as L6.
  pose proof (field_lookup_ne _ _ _ _ _ _ "spot_id" Hvd ltac:(discriminate)) as L7.
  apply field_required_inv in E3 as (v3 & x3 & _ & P3 & ->).
  apply fmap_field_inv in P3 as (sst & _ & ->).
  pose proof (field_lookup_ne _ _ _ _ _ _ "scheduled_start_time" E4
                ltac:(discriminate)) as M4.
  pose proof (field_lookup_ne _ _ _ _ _ _ "scheduled_start_time" E5
                ltac:(discriminate)) as M5.
  pose proof (field_lookup_ne _ _ _ _ _ _ "scheduled_start_time" E6
                ltac:(discriminate)) as M6.
  pose proof (field_lookup_ne _ _ _ _ _ _ "scheduled_start_time" Hvd
                ltac:(discriminate)) as M7.
  apply field_required_inv in E4 as (v4 & x4 & _ & P4 & ->).
  apply fmap_field_inv in P4 as (set_ & _ & ->).
  pose proof (field_lookup_ne _ _ _ _ _ _ "scheduled_end_time" E5
                ltac:(discriminate)) as N5.
  pose proof (field_lookup_ne _ _ _ _ _ _ "scheduled_end_time" E6
                ltac:(discriminate)) as N6.
  pose proof (field_lookup_ne _ _ _ _ _ _ "scheduled_end_time" Hvd
                ltac:(discriminate)) as N7.
  apply field_required_inv in E5 as (v5 & x5 & _ & P5 & ->).
  apply fmap_field_inv in P5 as (dur & _ & ->).
  pose proof (field_lookup_ne _ _ _ _ _ _ "duration" E6 ltac:(discriminate)) as O6.
  pose proof (field_lookup_ne _ _ _ _ _ _ "duration" Hvd ltac:(discriminate)) as O7.
  apply field_required_inv in E6 as (v6 & x6 & _ & P6 & ->).
  apply fmap_field_inv in P6 as (cost & _ & ->).
  pose proof (field_lookup_ne _ _ _ _ _ _ "total_cost" Hvd ltac:(discriminate)) as Q7.
  split; [|repeat split; apply Hne; discriminate].
  exists sid, sst, set_, dur, cost.
  rewrite L7, L6, L5, L4, L3, L2, M7, M6, M5, M4, N7, N6, N5, O7, O6, Q7.
  rewrite !lookup_insert_eq. repeat split; reflexivity.
Qed.

Lemma create_returns req validated_data :
  create_validated_data (data req) = Some validated_data ->
  exists b,
    create req validated_data = Return b /\
    status b = "confirmed" /\
    actual_start_time b = None /\
    actual_end_time b = None /\
    overstay_fee b = None.
Proof.
  intros Hvd.
  apply create_validated_data_inv in Hvd
    as ((sid & sst & set_ & dur & cost & H1 & H2 & H3 & H4 & H5) & A1 & A2 & A3).
  unfold create, objects_create.
  rewrite !lookup_insert_eq.
  rewrite (lookup_insert_ne _ "status" "user") by discriminate.
  rewrite lookup_insert_eq.
  repeat (rewrite (lookup_insert_ne _ "status") by discriminate;
          rewrite (lookup_insert_ne _ "user") by discriminate).
  rewrite H1, H2, H3, H4, H5, A1, A2, A3.
  eexists. split; [reflexivity|]. simpl. repeat split; reflexivity.
Qed.

(** C9: on a body the create serializer accepts, the create action
    answers 201 with a row whose status is [confirmed] and whose
    [actual_start_time], [actual_end_time] and [overstay_fee] are
    null, whatever else the body carries (a [status] of the client's
    included); the row is stored under its fresh identifier. *)
Theorem created_booking_is_confirmed req db validated_data :
  create_validated_data (data req) = Some validated_data ->
  exists b,
    viewset_create req db = (Return (Created b), <[id b := b]> db) /\
    status b = "confirmed" /\
    actual_start_time b = None /\
    actual_end_time b = None /\
    overstay_fee b = None.
Proof.
  intros Hvd. unfold viewset_create. rewrite Hvd.
  destruct (create_returns req _ Hvd) as (b & -> & Hb).
  exists b. split; [reflexivity|exact Hb].
Qed.

Lemma step_keeps_invariant a t b :
  lifecycle_invariant b -> lifecycle_invariant (persisted b (run a t b)).
Proof.
  intros Hinv. pose proof Hinv as (Hend & Hstart & Hconf).
  destruct a.
  - destruct (String.eqb_spec (status b) "confirmed") as [E|E].
    + change (run Start t b) with (start_booking t b).
      rewrite (start_booking_confirmed t b E). simpl.
      split; [|split].
      * split; [|discriminate]. intros Hs. apply Hend in Hs. congruence.
      * intros _. eexists; reflexivity.
      * discriminate.
    + change (run Start t b) with (start_booking t b).
      rewrite (start_booking_rejected t b E). exact Hinv.
  - destruct (String.eqb_spec (status b) "active") as [E|E].
    + destruct (Z.lt_ge_cases (scheduled_end_time b) t) as [Hlate|Hearly].
      * change (run End_ t b) with (end_booking t b).
        rewrite (end_booking_overstay t b E Hlate). exact Hinv.
      * change (run End_ t b) with (end_booking t b).
        rewrite (end_booking_on_time t b E Hearly). simpl.
        split; [|split].
        -- split; [reflexivity|]. intros _. eexists; reflexivity.
        -- intros _. apply Hstart. rewrite E. reflexivity.
        -- discriminate.
    + rewrite (run_rejected End_ t b); [exact Hinv|].
      simpl. apply String.eqb_neq, E.
  - destruct (String.eqb_spec (status b) "completed") as [E1|E1].
    { rewrite (run_rejected Cancel t b); [exact Hinv|].
      simpl. rewrite E1. reflexivity. }
    destruct (String.eqb_spec (status b) "cancelled") as [E2|E2].
    { rewrite (run_rejected Cancel t b); [exact Hinv|].
      simpl. rewrite E2. reflexivity. }
    change (run Cancel t b) with (cancel_booking t b).
    rewrite (cancel_booking_open t b E1 E2). simpl.
    split; [|split].
    * split; [|discriminate]. intros Hs. apply Hend in Hs. contradiction.
    * discriminate.
    * discriminate.
Qed.

(** C4, as the code has it: every row reachable through create,
    start, end and cancel has [actual_end_time] set exactly when its
    status is [completed], has [actual_start_time] set when its status
    is [active] or [completed], and has it null when its status is
    [confirmed]. *)
Theorem lifecycle_keeps_invariant b :
  reachable false b -> lifecycle_invariant b.
Proof.
  induction 1 as [req vd b Hvd Hb | a t b _ IH | partial req b Hu _ _].
  - destruct (create_returns req vd Hvd) as (b' & Hb' & Hs & Ha & He & _).
    rewrite Hb in Hb'. injection Hb' as <-.
    split; [|split].
    + rewrite He, Hs. split; [intros [x Hx]; discriminate | discriminate].
    + rewrite Hs. discriminate.
    + intros _. exact Ha.
  - apply step_keeps_invariant, IH.
  - discriminate.
Qed.

(** A [PATCH] to [completed] with both actual times null: no parser
    is consulted, and the row saved is [completed] with no actual
    time. *)
Lemma patch_completed t b :
  persisted b (update_booking true (Fixtures.patch_request "completed" t) b)
  = save t (set_status "completed"
              (set_actual_end_time None (set_actual_start_time None b))).
Proof. vm_compute. reflexivity. Qed.

(** With the generic update, whatever has been reached leads to a row
    that is [completed] and has neither actual time. *)
Lemma update_breaks_invariant b0 :
  reachable true b0 ->
  exists b, reachable true b /\ status b = "completed" /\
            actual_start_time b = None /\ actual_end_time b = None.
Proof.
  intros Hb0.
  exists (persisted b0 (update_booking true (Fixtures.patch_request "completed" 0) b0)).
  split; [apply reach_update; [reflexivity|exact Hb0]|].
  rewrite patch_completed. repeat split; reflexivity.
Qed.

End Creation.

(** The fee lines 104-105 compute for overstays of 10, 16 and 46
    minutes: 0, 20 and 60. *)
Lemma overstay_fee_examples :
  overstay_fee_of (8200000000 + 600000000) 8200000000 = Return 0%float /\
  overstay_fee_of (8200000000 + 960000000) 8200000000 = Return 20%float /\
  overstay_fee_of (8200000000 + 2760000000) 8200000000 = Return 60%float.
Proof. repeat split; vm_compute; reflexivity. Qed.

Lemma start_succeeds_iff_confirmed_witness :
  let req := Fixtures.request Fixtures.driver 5 in
  let db := Fixtures.bookings "confirmed" in
  get_object (backends := Fixtures.no_filters) Fixtures.no_spots req 42 db = Some (Fixtures.booking "confirmed") /\
  start (backends := Fixtures.no_filters) Fixtures.no_spots req 42 db =
    (Return (Ok (save 5 (set_status "active"
                   (set_actual_start_time (Some 5) (Fixtures.booking "confirmed"))))),
     <[42 := save 5 (set_status "active"
                   (set_actual_start_time (Some 5) (Fixtures.booking "confirmed")))]> db).
Proof.
  intros req db.
  assert (Hget : get_object (backends := Fixtures.no_filters) Fixtures.no_spots req 42 db
                 = Some (Fixtures.booking "confirmed")) by (vm_compute; reflexivity).
  split; [exact Hget|].
  apply (start_succeeds_iff_confirmed (backends := Fixtures.no_filters) Fixtures.no_spots req 42 db _ Hget).
  reflexivity.
Defined.

(** [start] on a [pending] booking: the text of the 400 does not name
    the status the booking is in. *)
Lemma start_rejection_omits_status :
  let req := Fixtures.request Fixtures.driver 5 in
  let db := Fixtures.bookings "pending" in
  let r := fst (start (backends := Fixtures.no_filters) Fixtures.no_spots req 42 db) in
  get_object (backends := Fixtures.no_filters) Fixtures.no_spots req 42 db = Some (Fixtures.booking "pending") /\
  precondition Start (status (Fixtures.booking "pending")) = false /\
  error_of r = Some "Only confirmed bookings can be started" /\
  ~ (exists e, error_of r = Some e /\
               contains (status (Fixtures.booking "pending")) e = true).
Proof.
  repeat split; try (vm_compute; reflexivity).
  intros (e & He & Hc). vm_compute in He. injection He as <-.
  vm_compute in Hc. discriminate.
Qed.

Lemma rejected_operation_mutates_nothing_witness :
  view (backends := Fixtures.no_filters) Fixtures.no_spots End_ (Fixtures.request Fixtures.driver 5) 42
       (Fixtures.bookings "confirmed")
  = (Return (BadRequest "Only active bookings can be ended"),
     Fixtures.bookings "confirmed").
Proof.
  apply (rejected_operation_mutates_nothing (backends := Fixtures.no_filters) Fixtures.no_spots End_
           (Fixtures.request Fixtures.driver 5) 42
           (Fixtures.bookings "confirmed") (Fixtures.booking "confirmed")).
  - vm_compute; reflexivity.
  - reflexivity.
Defined.

Lemma cancel_twice_witness :
  let req := Fixtures.request Fixtures.driver 5 in
  let b' := save 5 (set_status "cancelled" (Fixtures.booking "pending")) in
  let db' := <[42 := b']> (Fixtures.bookings "pending") in
  cancel (backends := Fixtures.no_filters) Fixtures.no_spots req 42
    (Fixtures.bookings "pending") = (Return (Ok b'), db') /\
  status b' = "cancelled" /\
  (forall req',
     is_success (fst (cancel (backends := Fixtures.no_filters)
                        Fixtures.no_spots req' 42 db')) = false /\
     snd (cancel (backends := Fixtures.no_filters)
            Fixtures.no_spots req' 42 db') = db' /\
     (is_Some (get_object (backends := Fixtures.no_filters)
                 Fixtures.no_spots req' 42 db') ->
      fst (cancel (backends := Fixtures.no_filters)
             Fixtures.no_spots req' 42 db') =
        Return (BadRequest "Cannot cancel completed or already cancelled bookings"))) /\
  db' !! 42 = Some b'.
Proof.
  apply (cancel_twice (backends := Fixtures.no_filters) Fixtures.no_spots
           (Fixtures.request Fixtures.driver 5) 42
           (Fixtures.bookings "pending") (Fixtures.booking "pending")).
  - vm_compute; reflexivity.
  - discriminate.
  - discriminate.
Defined.

(** An [active] booking ended 16 minutes after its scheduled end. *)
Lemma end_after_scheduled_end_raises_witness :
  end_ (backends := Fixtures.no_filters) Fixtures.no_spots (Fixtures.request Fixtures.driver 9160000000) 42
       (Fixtures.bookings "active")
  = (Raise TypeError, Fixtures.bookings "active").
Proof.
  apply (end_after_scheduled_end_raises (backends := Fixtures.no_filters) Fixtures.no_spots
           (Fixtures.request Fixtures.driver 9160000000) 42
           (Fixtures.bookings "active") (Fixtures.booking "active")).
  - vm_compute; reflexivity.
  - reflexivity.
  - vm_compute; reflexivity.
Defined.

Lemma create_request_valid :
  { vd | create_validated_data (H := Fixtures.parsers)
           (data Fixtures.create_request) = Some vd }.
Proof. eexists. vm_compute. reflexivity. Defined.

(** The create action on a body that asks for the status [completed]. *)
Lemma created_booking_is_confirmed_witness :
  exists b,
    viewset_create (H := Fixtures.parsers) Fixtures.create_request ∅
      = (Return (Created b), <[id b := b]> ∅) /\
    status b = "confirmed" /\
    actual_start_time b = None /\
    actual_end_time b = None /\
    overstay_fee b = None.
Proof.
  apply (created_booking_is_confirmed (H := Fixtures.parsers)
           Fixtures.create_request ∅ (proj1_sig create_request_valid)).
  exact (proj2_sig create_request_valid).
Defined.

(** The booking [Fixtures.create_request] creates. *)
Lemma created_reachable (with_update : bool) :
  reachable (H := Fixtures.parsers) with_update (Fixtures.booking "confirmed").
Proof.
  apply (reach_create with_update Fixtures.create_request
           (proj1_sig create_request_valid)).
  - exact (proj2_sig create_request_valid).
  - vm_compute. reflexivity.
Defined.

Lemma lifecycle_keeps_invariant_witness :
  lifecycle_invariant
    (persisted (Fixtures.booking "confirmed")
       (run Start 5 (Fixtures.booking "confirmed"))).
Proof.
  apply (lifecycle_keeps_invariant (H := Fixtures.parsers)).
  apply reach_action. apply created_reachable.
Defined.

(** C4 as stated fails once the generic update is among the
    operations: a created booking patched to [completed] is reachable,
    is [completed], and has neither [actual_start_time] nor
    [actual_end_time]. *)
Lemma stated_invariant_broken_by_update :
  ~ (forall b, reachable (H := Fixtures.parsers) true b -> stated_invariant b).
Proof.
  intros Hc.
  destruct (update_breaks_invariant (H := Fixtures.parsers) _ (created_reachable true))
    as (b & Hb & Hs & _ & He).
  destruct (Hc b Hb) as [_ [_ Hend]].
  destruct (Hend Hs) as [x Hx]. rewrite He in Hx. discriminate.
Qed.

(** Without the update, a cancelled booking may or may not have been
    started: [actual_start_time] is not determined by the status. *)
Lemma cancelled_with_and_without_start :
  exists b1 b2,
    reachable (H := Fixtures.parsers) false b1 /\
    reachable (H := Fixtures.parsers) false b2 /\
    status b1 = "cancelled" /\ status b2 = "cancelled" /\
    actual_start_time b1 = None /\ actual_start_time b2 = Some 5.
Proof.
  pose (b0 := Fixtures.booking "confirmed").
  pose (started := persisted b0 (run Start 5 b0)).
  exists (persisted b0 (run Cancel 9 b0)).
  exists (persisted started (run Cancel 9 started)).
  split; [apply reach_action, created_reachable|].
  split; [apply reach_action, reach_action, created_reachable|].
  repeat split; reflexivity.
Qed.

End BookingFacts.

(** ** Properties of dispute resolution *)

Module DisputeFacts.
Import Disputes.
Local Open Scope Z_scope.
Local Open Scope string_scope.

Section Views.
Context `{FieldParsers} {backends : FilterBackends DisputeReport}.

Lemma dispute_get_object_Some req bookings pk db d :
  get_object req bookings pk db = Some d -> db !! pk = Some d.
Proof.
  unfold get_object, get_queryset. rewrite !map_lookup_filter_Some. tauto.
Qed.


End Views.



End DisputeFacts.

(** ** Properties of the proximity search and of the occupancy toggle *)

Module ParkingFacts.
Import Parking.
Local Open Scope Z_scope.
Local Open Scope string_scope.

(** *** Order of the doubles *)

Lemma SFcompare_antisym x y :
  SFcompare y x = option_map CompOpp (SFcompare x y).
Proof.
  destruct x as [s1|s1| |s1 m1 e1], y as [s2|s2| |s2 m2 e2]; simpl;
    try reflexivity;
    try (destruct s1; reflexivity); try (destruct s2; reflexivity);
    try (destruct s1, s2; reflexivity).
  pose proof (Pos.compare_cont_antisym m1 m2 Eq) as Hm. simpl in Hm.
  destruct s1, s2; simpl; try reflexivity;
    rewrite (Z.compare_antisym e1 e2);
    destruct (e1 ?= e2)%Z; simpl; try reflexivity;
    rewrite <- Hm;
    destruct (Pos.compare_cont Eq m1 m2); reflexivity.
Qed.

Lemma float_lt_le (x y : float) :
  (x <? y)%float = true -> (x <=? y)%float = true.
Proof.
  rewrite ltb_spec, leb_spec. unfold SFltb, SFleb.
  destruct (SFcompare _ _) as [[]|]; congruence.
Qed.

Lemma SFcompare_None x y :
  SFcompare x y = None -> x = S754_nan \/ y = S754_nan.
Proof.
  destruct x, y; simpl; intros Hc; try discriminate Hc; auto.
Qed.

Lemma leb_not_nan (x r : float) :
  (x <=? r)%float = true -> Prim2SF x <> S754_nan.
Proof.
  rewrite leb_spec. unfold SFleb. intros Hx E. rewrite E in Hx.
  simpl in Hx. discriminate.
Qed.

(** Two doubles that are each below some bound are comparable. *)
Lemma float_not_lt_le (x y r : float) :
  (x <=? r)%float = true -> (y <=? r)%float = true ->
  (y <? x)%float = false -> (x <=? y)%float = true.
Proof.
  intros Hx Hy. apply leb_not_nan in Hx, Hy.
  rewrite leb_spec, ltb_spec. unfold SFltb, SFleb.
  rewrite (SFcompare_antisym (Prim2SF y) (Prim2SF x)).
  destruct (SFcompare (Prim2SF y) (Prim2SF x)) as [[]|] eqn:Ec; simpl;
    try reflexivity; try discriminate.
  apply SFcompare_None in Ec as [E|E]; contradiction.
Qed.

(** *** The sort *)

Lemma insert_by_distance_perm x l :
  Permutation (insert_by_distance x l) (x :: l).
Proof.
  induction l as [|y l IH]; simpl; [reflexivity|].
  destruct (distance y <? distance x)%float; [|reflexivity].
  rewrite IH. apply perm_swap.
Qed.

Lemma sort_by_distance_perm l : Permutation (sort_by_distance l) l.
Proof.
  induction l as [|x l IH]; simpl; [reflexivity|].
  rewrite insert_by_distance_perm. apply perm_skip, IH.
Qed.

Lemma insert_by_distance_nondecreasing r x l :
  (distance x <=? r)%float = true ->
  Forall (fun y => (distance y <=? r)%float = true) l ->
  nondecreasing l ->
  nondecreasing (insert_by_distance x l).
Proof.
  intros Hx. induction l as [|y l IH]; intros Hl Hs; simpl; [exact I|].
  inversion Hl as [|? ? Hy Hl']; subst.
  destruct (distance y <? distance x)%float eqn:Hlt.
  - destruct l as [|z l]; simpl.
    + split; [apply float_lt_le, Hlt|exact I].
    + simpl in Hs. destruct Hs as [Hyz Hs].
      specialize (IH Hl' Hs). simpl in IH.
      destruct (distance z <? distance x)%float.
      * split; [exact Hyz|exact IH].
      * split; [apply float_lt_le, Hlt|exact IH].
  - split; [|exact Hs]. apply (float_not_lt_le _ _ r); assumption.
Qed.

(** Sorting keys that are all below a bound (so none is a NaN) leaves
    them non-decreasing. *)
Lemma sort_by_distance_nondecreasing r l :
  Forall (fun y => (distance y <=? r)%float = true) l ->
  nondecreasing (sort_by_distance l).
Proof.
  induction l as [|x l IH]; intros Hl; simpl; [exact I|].
  inversion Hl as [|? ? Hx Hl']; subst.
  apply (insert_by_distance_nondecreasing r); [exact Hx| |apply IH, Hl'].
  eapply Permutation_Forall; [symmetry; apply sort_by_distance_perm|exact Hl'].
Qed.

(** *** The views *)

Section Views.
Context `{FieldParsers} `{Geo.Libm} {backends : FilterBackends ParkingSpot}.

(** The loop of lines 93-97 on a list of rows: what it keeps is within
    the radius, and it keeps every row that is. *)
Lemma within_radius_spec lat lon radius spots l :
  within_radius lat lon radius spots = Return l ->
  Forall (fun x => (distance x <=? radius)%float = true) l /\
  (forall spot d, In (spot, d) l <->
     In spot spots /\
     Geo.calculate_distance lat lon (latitude spot) (longitude spot) = Return d /\
     (d <=? radius)%float = true).
Proof.
  revert l. induction spots as [|s0 spots IH]; simpl; intros l Hl.
  - injection Hl as <-. split; [constructor|]. intros spot d. simpl. tauto.
  - destruct (Geo.calculate_distance lat lon (latitude s0) (longitude s0))
      as [d0|e] eqn:Hd; simpl in Hl; [|discriminate].
    destruct (within_radius lat lon radius spots) as [tail|e] eqn:Ht;
      simpl in Hl; [|discriminate].
    injection Hl as <-.
    destruct (IH tail eq_refl) as [Hb Hc].
    destruct (d0 <=? radius)%float eqn:Hle.
    + split; [constructor; assumption|].
      intros spot d. simpl. rewrite Hc. split.
      * intros [[= <- <-]|(Hin & Hcd & Hr)]; [auto|auto].
      * intros ([<-|Hin] & Hcd & Hr).
        -- left. rewrite Hd in Hcd. injection Hcd as <-. reflexivity.
        -- right. auto.
    + split; [assumption|].
      intros spot d. rewrite Hc. split.
      * intros (Hin & Hcd & Hr). auto.
      * intros ([<-|Hin] & Hcd & Hr); [|auto].
        rewrite Hd in Hcd. injection Hcd as <-. congruence.
Qed.

(** Lines 93-99 on a list of rows do what the specification asks of the
    search: the result is non-decreasing in the distance, holds nothing
    beyond the radius, and holds every row within it. *)
Lemma loop_and_sort_correct lat lon radius spots l :
  within_radius lat lon radius spots = Return l ->
  nondecreasing (sort_by_distance l) /\
  Forall (fun x => (distance x <=? radius)%float = true) (sort_by_distance l) /\
  (forall spot d, In (spot, d) (sort_by_distance l) <->
     In spot spots /\
     Geo.calculate_distance lat lon (latitude spot) (longitude spot) = Return d /\
     (d <=? radius)%float = true).
Proof.
  intros Hl. destruct (within_radius_spec _ _ _ _ _ Hl) as [Hb Hc].
  split; [exact (sort_by_distance_nondecreasing radius l Hb)|]. split.
  - eapply Permutation_Forall; [symmetry; apply sort_by_distance_perm|exact Hb].
  - intros spot d. rewrite <- Hc. split; apply Permutation_in.
    + apply sort_by_distance_perm.
    + symmetry. apply sort_by_distance_perm.
Qed.

(** With [lat] and [lon] in the query string, [get_queryset] returns a
    Python list (or raises on the way). *)
Lemma get_queryset_located req db lat lon :
  query_params req !! "lat" = Some lat ->
  query_params req !! "lon" = Some lon ->
  truthy_str (Some lat) && truthy_str (Some lon) = true ->
  (exists e, get_queryset req db = Raise e) \/
  (exists l, get_queryset req db = Return (PyList l)).
Proof.
  intros Hlat Hlon Ht. unfold get_queryset.
  match goal with
  | |- context [bind ?m _] => destruct m as [qs|e]; simpl; [|left; eauto]
  end.
  rewrite Hlat, Hlon, Ht.
  match goal with
  | |- context [bind ?m _] => destruct m as [l|e]; simpl; [right|left]; eauto
  end.
Qed.

(** C2, what the code does: [nearby] never answers with a list.  Either
    it answers 400 (no [lat] or no [lon]) or an exception escapes it:
    when both are given, [get_queryset] has already turned the rows
    into a Python list, on which [.filter] raises [AttributeError]. *)
Theorem nearby_never_succeeds req db :
  is_success (nearby req db) = false.
Proof.
  unfold nearby.
  match goal with
  | |- context [bind ?m _] => destruct m as [radius|e]; simpl; [|reflexivity]
  end.
  destruct (query_params req !! "lat") as [lat|] eqn:Hlat; [|reflexivity].
  destruct (query_params req !! "lon") as [lon|] eqn:Hlon; [|reflexivity].
  destruct (truthy_str (Some lat)) eqn:T1; [|reflexivity].
  destruct (truthy_str (Some lon)) eqn:T2; [|reflexivity].
  simpl negb. simpl orb. cbv iota.
  destruct (get_queryset_located req db lat lon Hlat Hlon) as [[e ->]|[l ->]];
    [rewrite T1, T2; reflexivity|reflexivity|reflexivity].
Qed.

(** Given [lat], [lon] and a radius that parses, on a table whose rows
    all get a distance: [AttributeError]. *)
Lemma nearby_raises req db lat lon r radius spots_with_distance :
  query_params req !! "lat" = Some lat ->
  query_params req !! "lon" = Some lon ->
  truthy_str (Some lat) && truthy_str (Some lon) = true ->
  query_params req !! "radius" = Some r ->
  float_of_string r = Some radius ->
  query_params req !! "max_price" = None ->
  with_distance lat lon
    (iterate (if bool_decide (query_params req !! "available_only" = Some "true")
              then where_ available db else db)) = Return spots_with_distance ->
  nearby req db = Raise AttributeError.
Proof.
  intros Hlat Hlon Ht Hr Hf Hp Hw. unfold nearby.
  rewrite Hr, Hf, Hlat, Hlon. cbn [bind].
  apply andb_true_iff in Ht as Ht'. destruct Ht' as [T1 T2].
  rewrite T1, T2. cbn [negb orb].
  unfold get_queryset. rewrite Hp, Hlat, Hlon. cbn [bind].
  rewrite Ht, Hw. reflexivity.
Qed.

Lemma where_subseteq keep (rows : table) : where_ keep rows ⊆ rows.
Proof. unfold where_. apply map_filter_subseteq. Qed.

(** A query set [get_queryset] returns holds rows of the table only. *)
Lemma get_queryset_rows req db rows :
  get_queryset req db = Return (QuerySet rows) -> rows ⊆ db.
Proof.
  unfold get_queryset.
  match goal with
  | |- context [bind ?m _] => destruct m as [qs|e] eqn:Hm; cbn [bind]; [|discriminate]
  end.
  assert (Hqs : qs ⊆ db).
  { destruct (query_params req !! "max_price") as [p|]; [|injection Hm as <-; done].
    destruct (truthy_str (Some p)); [|injection Hm as <-; done].
    destruct (decimal_of_string p); [|discriminate].
    injection Hm as <-. apply where_subseteq. }
  set (qs2 := if bool_decide (query_params req !! "available_only" = Some "true")
              then where_ available qs else qs).
  assert (Hqs2 : qs2 ⊆ db).
  { subst qs2. destruct (bool_decide _); [|exact Hqs].
    etrans; [apply where_subseteq|exact Hqs]. }
  destruct (query_params req !! "lat") as [lat|];
    [|intros [= <-]; exact Hqs2].
  destruct (query_params req !! "lon") as [lon|];
    [|intros [= <-]; exact Hqs2].
  destruct (truthy_str (Some lat) && truthy_str (Some lon));
    [|intros [= <-]; exact Hqs2].
  destruct (with_distance lat lon (iterate qs2)); cbn [bind]; discriminate.
Qed.

Lemma spot_get_object_Some req pk db spot :
  get_object req pk db = Return (Some spot) -> db !! pk = Some spot.
Proof.
  unfold get_object.
  destruct (get_queryset req db) as [[rows|items]|e] eqn:Hq; cbn [bind];
    [|discriminate|discriminate].
  intros [= Hrow]. apply get_queryset_rows in Hq.
  apply map_lookup_filter_Some in Hrow as [Hrow _].
  eapply lookup_weaken; eassumption.
Qed.

Lemma toggle_occupancy_success req pk db r db' :
  toggle_occupancy req pk db = (r, db') ->
  is_success r = true ->
  exists spot,
    db !! pk = Some spot /\
    r = Return (Ok (if negb (is_occupied spot) then "occupied" else "available")) /\
    db' = <[pk := save (now req) (set_is_occupied (negb (is_occupied spot)) spot)]> db.
Proof.
  unfold toggle_occupancy.
  destruct (get_object req pk db) as [[spot|]|e] eqn:Hget.
  - intros [= <- <-] _. exists spot. split; [exact (spot_get_object_Some _ _ _ _ Hget)|].
    split; reflexivity.
  - intros [= <- <-]. discriminate.
  - intros [= <- <-]. discriminate.
Qed.

Lemma toggle_back t1 t2 spot :
  save t2 (set_is_occupied
             (negb (is_occupied (save t1 (set_is_occupied (negb (is_occupied spot)) spot))))
             (save t1 (set_is_occupied (negb (is_occupied spot)) spot)))
  = save t2 spot.
Proof. destruct spot. unfold save, set_is_occupied. simpl. rewrite negb_involutive. reflexivity. Qed.

(** C10, as the code has it: two successful calls of [toggle_occupancy]
    on a spot each flip [is_occupied] and report the state they leave;
    after the second the table is the original one except that the row
    of the spot carries the [updated_at] of the second [save()]. *)
Theorem toggle_occupancy_twice req1 req2 pk db r1 db1 r2 db2 :
  toggle_occupancy req1 pk db = (r1, db1) ->
  toggle_occupancy req2 pk db1 = (r2, db2) ->
  is_success r1 = true ->
  is_success r2 = true ->
  exists spot,
    db !! pk = Some spot /\
    r1 = Return (Ok (if negb (is_occupied spot) then "occupied" else "available")) /\
    (exists s1, db1 !! pk = Some s1 /\ is_occupied s1 = negb (is_occupied spot)) /\
    r2 = Return (Ok (if is_occupied spot then "occupied" else "available")) /\
    db2 = <[pk := save (now req2) spot]> db /\
    is_occupied (save (now req2) spot) = is_occupied spot.
Proof.
  intros H1 H2 S1 S2.
  destruct (toggle_occupancy_success _ _ _ _ _ H1 S1) as (spot & Hs & -> & ->).
  destruct (toggle_occupancy_success _ _ _ _ _ H2 S2) as (s1 & Hs1 & -> & ->).
  rewrite lookup_insert_eq in Hs1. injection Hs1 as <-.
  exists spot. split; [exact Hs|]. split; [reflexivity|]. split.
  { eexists. split; [apply lookup_insert_eq|reflexivity]. }
  split.
  { simpl. rewrite negb_involutive. reflexivity. }
  split; [|reflexivity].
  rewrite insert_insert_eq. rewrite toggle_back. reflexivity.
Qed.

End Views.

Lemma toggle_occupancy_twice_witness :
  let req1 := Fixtures.request Fixtures.driver 10 in
  let req2 := Fixtures.request Fixtures.driver 20 in
  let step1 := toggle_occupancy (H := Fixtures.parsers) (H0 := Fixtures.libm)
                 (backends := Fixtures.no_filters)
                 req1 5 Fixtures.spots in
  let step2 := toggle_occupancy (H := Fixtures.parsers) (H0 := Fixtures.libm)
                 (backends := Fixtures.no_filters)
                 req2 5 (snd step1) in
  exists spot,
    Fixtures.spots !! 5 = Some spot /\
    fst step1 = Return (Ok (if negb (is_occupied spot) then "occupied" else "available")) /\
    (exists s1, snd step1 !! 5 = Some s1 /\ is_occupied s1 = negb (is_occupied spot)) /\
    fst step2 = Return (Ok (if is_occupied spot then "occupied" else "available")) /\
    snd step2 = <[5 := save 20 spot]> Fixtures.spots /\
    is_occupied (save 20 spot) = is_occupied spot.
Proof.
  intros req1 req2 step1 step2.
  apply (toggle_occupancy_twice (H := Fixtures.parsers) (H0 := Fixtures.libm)
           (backends := Fixtures.no_filters)
           req1 req2 5 Fixtures.spots (fst step1) (snd step1) (fst step2) (snd step2)).
  - vm_compute; reflexivity.
  - vm_compute; reflexivity.
  - vm_compute; reflexivity.
  - vm_compute; reflexivity.
Defined.

(** C10 as stated fails on "no other field": after two toggles the spot
    is free again, but its [updated_at] is that of the second call. *)
Lemma toggle_twice_changes_updated_at :
  let req1 := Fixtures.request Fixtures.driver 10 in
  let req2 := Fixtures.request Fixtures.driver 20 in
  let db1 := snd (toggle_occupancy (H := Fixtures.parsers) (H0 := Fixtures.libm)
                 (backends := Fixtures.no_filters)
                    req1 5 Fixtures.spots) in
  let db2 := snd (toggle_occupancy (H := Fixtures.parsers) (H0 := Fixtures.libm)
                 (backends := Fixtures.no_filters)
                    req2 5 db1) in
  exists after,
    db2 !! 5 = Some after /\
    is_occupied after = is_occupied Fixtures.spot /\
    updated_at Fixtures.spot = 0 /\
    updated_at after = 20 /\
    after <> Fixtures.spot.
Proof.
  eexists. split; [vm_compute; reflexivity|].
  repeat split; try reflexivity. discriminate.
Qed.

(** The request of [quick_api_test.py], on a table of one free spot and
    on an empty table. *)
Lemma nearby_request_raises :
  nearby (H := Fixtures.parsers) (H0 := Fixtures.libm)
    Fixtures.nearby_request Fixtures.spots = Raise AttributeError /\
  nearby (H := Fixtures.parsers) (H0 := Fixtures.libm)
    Fixtures.nearby_request ∅ = Raise AttributeError.
Proof. split; vm_compute; reflexivity. Qed.

End ParkingFacts.

(** ** The distance formula over the real numbers *)

Module GeoFacts.
Local Open Scope R_scope.

(** *** Bounds on the functions the formula uses *)

Lemma PI_bounds : 31415 / 10000 < PI < 31421 / 10000.
Proof.
  pose proof (PI_2_3_7_ineq 1) as [Hlo Hhi].
  unfold PI_2_3_7_tg, tg_alt, Ratan_seq in Hlo, Hhi. simpl in Hlo, Hhi.
  lra.
Qed.

Lemma sin_lower x : 0 <= x -> x <= PI -> x - x * x * x / 6 <= sin x.
Proof.
  intros H0 H1. pose proof (sin_bound x 0 H0 H1) as [Hs _].
  unfold sin_approx, sin_term in Hs. simpl in Hs. lra.
Qed.

Lemma cos_lower x : - PI / 2 <= x -> x <= PI / 2 -> 1 - x * x / 2 <= cos x.
Proof.
  intros H0 H1. pose proof (cos_bound x 0 H0 H1) as [Hs _].
  unfold cos_approx, cos_term in Hs. simpl in Hs. lra.
Qed.

Lemma sin_sqr_upper x : 0 <= x -> sin x * sin x <= x * x.
Proof.
  intros H0.
  destruct (Rle_lt_dec x 1) as [H1|H1].
  - destruct (Req_dec x 0) as [->|Hx]; [rewrite sin_0; lra|].
    assert (Hs : sin x < x) by (apply sin_lt_x; lra).
    assert (Hp : 0 <= sin x).
    { apply sin_ge_0; [lra|]. pose proof PI_bounds. lra. }
    nra.
  - pose proof (SIN_bound x) as [Ha Hb]. nra.
Qed.

Lemma asin_lower x : 0 <= x <= 1 -> x <= asin x.
Proof.
  intros Hx.
  pose proof (asin_bound x) as [Hlo Hhi].
  pose proof (sin_asin x ltac:(lra)) as Hs.
  pose proof PI_bounds as HPI.
  destruct (Rle_lt_dec x (asin x)) as [H|H]; [exact H|exfalso].
  destruct (Rtotal_order (asin x) 0) as [Hneg|[Hz|Hpos]].
  - assert (sin (asin x) < 0) by (apply sin_lt_0_var; lra). lra.
  - rewrite Hz, sin_0 in Hs. lra.
  - pose proof (sin_lt_x (asin x) Hpos). lra.
Qed.

Lemma asin_upper x y :
  0 <= x <= 1 -> 0 <= y <= PI / 2 -> x < sin y -> asin x < y.
Proof.
  intros Hx Hy Hlt.
  pose proof (asin_bound x) as [Hlo Hhi].
  pose proof (sin_asin x ltac:(lra)) as Hs.
  destruct (Rlt_le_dec (asin x) y) as [H|H]; [exact H|exfalso].
  assert (sin y <= sin (asin x)) by (apply sin_incr_1; lra).
  lra.
Qed.

Lemma sqrt_between lo hi a :
  0 <= lo -> 0 <= hi -> lo * lo < a -> a < hi * hi -> lo < sqrt a < hi.
Proof.
  intros Hlo Hhi Ha Hb. split.
  - rewrite <- (sqrt_square lo Hlo). apply sqrt_lt_1_alt. nra.
  - rewrite <- (sqrt_square hi Hhi). apply sqrt_lt_1_alt. nra.
Qed.

Lemma sin_small lo hi x :
  0 <= lo -> lo + 1 / 1000000000 <= x -> x <= hi -> hi <= 1 / 1000 ->
  lo <= sin x <= hi.
Proof.
  intros Hlo Hx Hhi Hsmall. pose proof PI_bounds as HPI.
  assert (Hcube : x * x * x / 6 <= 1 / 1000000000).
  { assert (x * x <= 1 / 1000000) by nra. nra. }
  pose proof (sin_lower x ltac:(lra) ltac:(lra)).
  pose proof (sin_lt_x x ltac:(lra)). lra.
Qed.

Lemma cos_half x : 0 <= x <= 1 / 2 -> 7 / 8 <= cos x <= 1.
Proof.
  intros Hx. pose proof PI_bounds as HPI.
  pose proof (cos_lower x ltac:(lra) ltac:(lra)).
  pose proof (COS_bound x). split; [nra|lra].
Qed.

(** *** The example of the specification

    Query point (28.6139, 77.2090), candidate (28.5285, 77.2182). *)

(** The formula is defined there; its value is [6371 * 2 * asin (sqrt a)]
    kilometres, in metres, for an [a] whose root is bracketed. *)
Lemma example_value :
  exists a,
    Geo.haversine (H := Geo.Arith_R)
      (286139 / 10000) (772090 / 10000) (285285 / 10000) (772182 / 10000)
    = Return (6371 * (2 * asin (sqrt a)) * 1000) /\
    95 / 127420 < sqrt a < 7534 / 10000000.
Proof.
  pose proof PI_bounds as HPI.
  unfold Geo.haversine.
  cbn [Geo.radians Geo.sub Geo.add Geo.mul Geo.div Geo.sqr Geo.sin Geo.cos
       Geo.of_Z Geo.asin Geo.sqrt Geo.Arith_R].
  set (u := 427 * PI / 1800000). set (v := 46 * PI / 1800000).
  replace ((285285 / 10000 * (PI / 180) - 286139 / 10000 * (PI / 180)) / 2)
    with (- u) by (unfold u; field).
  replace ((772182 / 10000 * (PI / 180) - 772090 / 10000 * (PI / 180)) / 2)
    with v by (unfold v; field).
  rewrite sin_neg.
  replace (- sin u * - sin u) with (sin u * sin u) by ring.
  assert (Hsu : 7452 / 10000000 <= sin u <= 7454 / 10000000)
    by (apply sin_small; unfold u; lra).
  assert (Hsv : 8028 / 100000000 <= sin v <= 803 / 10000000)
    by (apply sin_small; unfold v; lra).
  assert (Hc1 : 7 / 8 <= cos (286139 / 10000 * (PI / 180)) <= 1)
    by (apply cos_half; lra).
  assert (Hc2 : 7 / 8 <= cos (285285 / 10000 * (PI / 180)) <= 1)
    by (apply cos_half; lra).
  set (su := sin u) in *. set (sv := sin v) in *.
  set (c1 := cos (286139 / 10000 * (PI / 180))) in *.
  set (c2 := cos (285285 / 10000 * (PI / 180))) in *.
  assert (Hsu2 : 7452 / 10000000 * (7452 / 10000000) <= su * su
                 <= 7454 / 10000000 * (7454 / 10000000)) by nra.
  assert (Hsv2 : 8028 / 100000000 * (8028 / 100000000) <= sv * sv
                 <= 803 / 10000000 * (803 / 10000000)) by nra.
  assert (Hc : 49 / 64 <= c1 * c2 <= 1) by nra.
  assert (Hprod : 49 / 64 * (8028 / 100000000 * (8028 / 100000000))
                  <= c1 * c2 * (sv * sv)
                  <= 803 / 10000000 * (803 / 10000000)) by nra.
  set (a := su * su + c1 * c2 * (sv * sv)) in *.
  assert (Ha : 95 / 127420 * (95 / 127420) < a
               /\ a < 7534 / 10000000 * (7534 / 10000000)) by (unfold a; lra).
  destruct (Rle_dec 0 a) as [_|Hneg]; [|exfalso; lra].
  cbn [bind].
  destruct (sqrt_between (95 / 127420) (7534 / 10000000) a
              ltac:(lra) ltac:(lra) (proj1 Ha) (proj2 Ha)) as [Hr1 Hr2].
  destruct (Rle_dec (-1) (sqrt a)) as [_|Hneg]; [|exfalso; lra].
  destruct (Rle_dec (sqrt a) 1) as [_|Hneg]; [|exfalso; lra].
  cbn [bind].
  exists a. split; [reflexivity|lra].
Qed.

Lemma asin_below_9600 r :
  0 <= r < 7534 / 10000000 -> 6371 * (2 * asin r) * 1000 < 9600.
Proof.
  intros Hr. pose proof PI_bounds as HPI.
  assert (Hup : asin r < 96 / 127420).
  { apply asin_upper; [lra|lra|].
    pose proof (sin_small (7534 / 10000000) (7535 / 10000000) (96 / 127420)
                  ltac:(lra) ltac:(lra) ltac:(lra) ltac:(lra)).
    lra. }
  lra.
Qed.

(** C8, corrected: on the example of the specification the formula
    gives a distance between 9,500 and 9,600 metres. *)
Theorem example_distance :
  exists d,
    Geo.haversine (H := Geo.Arith_R)
      (286139 / 10000) (772090 / 10000) (285285 / 10000) (772182 / 10000)
    = Return d /\
    9500 < d < 9600.
Proof.
  destruct example_value as (a & Hv & Hlo & Hhi).
  exists (6371 * (2 * asin (sqrt a)) * 1000). split; [exact Hv|].
  split.
  - pose proof (asin_lower (sqrt a) ltac:(lra)). lra.
  - apply asin_below_9600. lra.
Qed.

(** C8 as stated fails: the distance of the example is not between 9,600
    and 9,700 metres. *)
Lemma example_distance_not_9600_9700 :
  ~ (exists d,
       Geo.haversine (H := Geo.Arith_R)
         (286139 / 10000) (772090 / 10000) (285285 / 10000) (772182 / 10000)
       = Return d /\
       9600 <= d <= 9700).
Proof.
  intros (d & Hd & Hlo & _).
  destruct example_value as (a & Hv & Ha1 & Ha2).
  rewrite Hv in Hd. injection Hd as <-.
  pose proof (asin_below_9600 (sqrt a) ltac:(lra)). lra.
Qed.

End GeoFacts.

(** ** More properties of the booking views *)

Module BookingExtras.
Import Bookings BookingQueries.
Local Open Scope Z_scope.
Local Open Scope string_scope.

Section Views.
Context `{FieldParsers} {backends : FilterBackends BookingSession}.
Variable all_owned_ids : User -> list uuid.

(** X1: on a booking the caller can reach, [end] succeeds exactly when
    the booking is [active] and the clock has not passed its scheduled
    end; it then stores the booking as [completed], ended now, and
    charges nothing: [total_cost] and [overstay_fee] stay as they
    were. *)
Theorem end_succeeds_iff_on_time req pk db b :
  get_object all_owned_ids req pk db = Some b ->
  (is_success (fst (end_ all_owned_ids req pk db)) = true
     <-> status b = "active" /\ now req <= scheduled_end_time b) /\
  (status b = "active" -> now req <= scheduled_end_time b ->
     let b' := save (now req)
                 (set_status "completed" (set_actual_end_time (Some (now req)) b)) in
     end_ all_owned_ids req pk db = (Return (Ok b'), <[pk := b']> db) /\
     total_cost b' = total_cost b /\ overstay_fee b' = overstay_fee b).
Proof.
  intros Hget.
  assert (Hyes : status b = "active" -> now req <= scheduled_end_time b ->
            end_ all_owned_ids req pk db =
              (Return (Ok (save (now req) (set_status "completed"
                             (set_actual_end_time (Some (now req)) b)))),
               <[pk := save (now req) (set_status "completed"
                             (set_actual_end_time (Some (now req)) b))]> db)).
  { intros E Ht. unfold end_. eapply BookingFacts.detail_saved; [exact Hget|].
    apply BookingFacts.end_booking_on_time; assumption. }
  split.
  - split.
    + intros Hs.
      destruct (String.eqb_spec (status b) "active") as [E|E].
      * split; [exact E|].
        destruct (Z.lt_ge_cases (scheduled_end_time b) (now req)) as [Hlate|Hok];
          [|lia].
        unfold end_ in Hs.
        rewrite (BookingFacts.detail_unsaved all_owned_ids _ req pk db b _ Hget
                   (BookingFacts.end_booking_overstay (now req) b E Hlate)) in Hs.
        discriminate.
      * unfold end_ in Hs.
        rewrite (BookingFacts.detail_unsaved all_owned_ids _ req pk db b _ Hget
                   (BookingFacts.run_rejected End_ (now req) b
                      (proj2 (String.eqb_neq _ _) E)
                    : end_booking (now req) b = _)) in Hs.
        discriminate.
    + intros [E Ht]. rewrite (Hyes E Ht). reflexivity.
  - intros E Ht. cbv zeta. split; [exact (Hyes E Ht)|]. split; reflexivity.
Qed.


Lemma field_absent name parse (data : gmap string json) acc :
  data !! name = None -> field name false parse data acc = Some acc.
Proof. intros Hn. unfold field. rewrite Hn. reflexivity. Qed.

Lemma field_present name required parse (data : gmap string json) acc v x :
  data !! name = Some v -> parse v = Some x ->
  field name required parse data acc = Some (<[name := x]> acc).
Proof. intros Hn Hp. unfold field. rewrite Hn, Hp. reflexivity. Qed.

Lemma status_choice st :
  In st STATUS_CHOICES -> existsb (String.eqb st) STATUS_CHOICES = true.
Proof.
  intros Hin. apply existsb_exists. exists st. split; [exact Hin|].
  apply String.eqb_refl.
Qed.

(** X3: a [PATCH] whose body is only a [status] of [STATUS_CHOICES]
    is accepted whatever status the booking is in: the row is saved
    with the new status and nothing else changed but [updated_at]. *)
Theorem patch_status_ignores_lifecycle req pk db b st :
  get_object all_owned_ids req pk db = Some b ->
  data req = {[ "status" := JStr st ]} ->
  In st STATUS_CHOICES ->
  let b' := save (now req) (set_status st b) in
  partial_update all_owned_ids req pk db = (Return (Ok b'), <[pk := b']> db).
Proof.
  intros Hget Hdata Hst b'. unfold partial_update.
  eapply BookingFacts.detail_saved; [exact Hget|].
  unfold update_booking.
  assert (Hvd : update_validated_data true (data req)
                = Some {[ "status" := VStr st ]}).
  { unfold update_validated_data. rewrite Hdata.
    rewrite (field_absent "actual_start_time")
      by (apply lookup_singleton_ne; discriminate).
    cbn [mbind option_bind].
    rewrite (field_absent "actual_end_time")
      by (apply lookup_singleton_ne; discriminate).
    cbn [mbind option_bind].
    rewrite (field_present "status" false _ _ _ (JStr st) (VStr st));
      [|apply lookup_singleton_eq
       |unfold choice_field; rewrite (status_choice st Hst); reflexivity].
    cbn [mbind option_bind].
    rewrite (field_absent "overstay_fee")
      by (apply lookup_singleton_ne; discriminate).
    cbn [mbind option_bind negb].
    rewrite (field_absent "total_cost")
      by (apply lookup_singleton_ne; discriminate).
    rewrite insert_empty. reflexivity. }
  rewrite Hvd. unfold update.
  rewrite !lookup_singleton_ne by discriminate.
  rewrite lookup_singleton_eq. reflexivity.
Qed.

(** What [ModelSerializer.update] leaves alone. *)
Lemma update_same_reservation t b vd : same_reservation b (update t b vd).
Proof.
  unfold update. cbv zeta.
  match goal with |- context [set_actual_end_time _ ?i] => set (i1 := i) end.
  assert (F1 : same_reservation b i1).
  { subst i1. destruct (vd !! "actual_start_time") as [[]|];
      repeat split; reflexivity. }
  clearbody i1.
  match goal with |- context [set_status _ ?i] => set (i2 := i) end.
  assert (F2 : same_reservation b i2).
  { subst i2. destruct (vd !! "actual_end_time") as [[]|]; exact F1. }
  clearbody i2. clear F1 i1.
  match goal with |- context [set_overstay_fee _ ?i] => set (i3 := i) end.
  assert (F3 : same_reservation b i3).
  { subst i3. destruct (vd !! "status") as [[]|]; exact F2. }
  clearbody i3. clear F2 i2.
  match goal with |- context [set_total_cost _ ?i] => set (i4 := i) end.
  assert (F4 : same_reservation b i4).
  { subst i4. destruct (vd !! "overstay_fee") as [[]|]; exact F3. }
  clearbody i4. clear F3 i3.
  destruct (vd !! "total_cost") as [[]|]; exact F4.
Qed.

(** X4: an update ([PUT] or [PATCH]) either answers without success
    and stores nothing, or stores a row that is the same reservation
    (identifier, owner, spot, booking time, scheduled window, duration,
    access code, creation time), stamped [updated_at] now. *)
Theorem update_keeps_reservation partial req pk db b r db' :
  get_object all_owned_ids req pk db = Some b ->
  detail all_owned_ids (update_booking partial req) req pk db = (r, db') ->
  (is_success r = false /\ db' = db) \/
  (exists b', r = Return (Ok b') /\ db' = <[pk := b']> db /\
              same_reservation b b' /\ updated_at b' = now req).
Proof.
  intros Hget. unfold detail. rewrite Hget. unfold update_booking.
  destruct (update_validated_data partial (data req)) as [vd|].
  - intros [= <- <-]. right. eexists. split; [reflexivity|].
    split; [reflexivity|]. split; [apply update_same_reservation|].
    unfold update. reflexivity.
  - intros [= <- <-]. left. split; reflexivity.
Qed.

Lemma update_validated_data_status partial (data : gmap string json) vd v :
  update_validated_data partial data = Some vd ->
  data !! "status" = Some v ->
  exists x, choice_field STATUS_CHOICES v = Some x.
Proof.
  unfold update_validated_data. intros Hvd Hs.
  destruct (field "actual_start_time" _ _ _ _) as [a1|]; [|discriminate].
  cbn [mbind option_bind] in Hvd.
  destruct (field "actual_end_time" _ _ _ _) as [a2|]; [|discriminate].
  cbn [mbind option_bind] in Hvd.
  destruct (field "status" _ _ _ _) as [a3|] eqn:E3; [|discriminate].
  unfold field in E3. rewrite Hs in E3.
  destruct (choice_field STATUS_CHOICES v) as [x|]; [eauto|discriminate].
Qed.

(** X5: an update whose body carries a [status] outside
    [STATUS_CHOICES] (or not a string) is answered 400 and stores
    nothing. *)
Theorem update_rejects_unknown_status partial req pk db b v :
  get_object all_owned_ids req pk db = Some b ->
  data req !! "status" = Some v ->
  (forall st, v = JStr st -> ~ In st STATUS_CHOICES) ->
  detail all_owned_ids (update_booking partial req) req pk db
  = (Return (BadRequest "invalid"), db).
Proof.
  intros Hget Hs Hbad. unfold detail. rewrite Hget. unfold update_booking.
  destruct (update_validated_data partial (data req)) as [vd|] eqn:Hvd;
    [|reflexivity].
  destruct (update_validated_data_status _ _ _ _ Hvd Hs) as [x Hx].
  exfalso. unfold choice_field in Hx.
  destruct v as [| | |st|]; try discriminate.
  destruct (existsb (String.eqb st) STATUS_CHOICES) eqn:Hex; [|discriminate].
  apply existsb_exists in Hex as (st' & Hin & Heq).
  apply String.eqb_eq in Heq. subst st'. exact (Hbad st eq_refl Hin).
Qed.

(** What the create serializer has read when it accepts a body. *)
Lemma create_validated_data_body (data : gmap string json) vd :
  create_validated_data data = Some vd ->
  exists v1 v2 v3 v4 v5 v6 sid sty sst set_ dur cost,
    data !! "spot_id" = Some v1 /\ parse_uuid v1 = Some sid /\
    data !! "spot_type" = Some v2 /\ parse_char 50 false v2 = Some sty /\
    data !! "scheduled_start_time" = Some v3 /\ parse_datetime v3 = Some sst /\
    data !! "scheduled_end_time" = Some v4 /\ parse_datetime v4 = Some set_ /\
    data !! "duration" = Some v5 /\ parse_decimal 6 2 v5 = Some dur /\
    data !! "total_cost" = Some v6 /\ parse_decimal 10 2 v6 = Some cost /\
    vd !! "spot_id" = Some (VUuid sid) /\
    vd !! "spot_type" = Some (VStr sty) /\
    vd !! "scheduled_start_time" = Some (VDateTime sst) /\
    vd !! "scheduled_end_time" = Some (VDateTime set_) /\
    vd !! "duration" = Some (VDecimal dur) /\
    vd !! "total_cost" = Some (VDecimal cost) /\
    vd !! "user" = None /\ vd !! "status" = None /\
    vd !! "actual_start_time" = None /\ vd !! "actual_end_time" = None /\
    vd !! "overstay_fee" = None.
Proof.
  unfold create_validated_data. intros Hvd.
  destruct (field "spot_id" _ _ _ _) as [a1|] eqn:E1; [|discriminate].
  cbn [mbind option_bind] in Hvd.
  destruct (field "spot_type" _ _ _ _) as [a2|] eqn:E2; [|discriminate].
  cbn [mbind option_bind] in Hvd.
  destruct (field "scheduled_start_time" _ _ _ _) as [a3|] eqn:E3; [|discriminate].
  cbn [mbind option_bind] in Hvd.
  destruct (field "scheduled_end_time" _ _ _ _) as [a4|] eqn:E4; [|discriminate].
  cbn [mbind option_bind] in Hvd.
  destruct (field "duration" _ _ _ _) as [a5|] eqn:E5; [|discriminate].
  cbn [mbind option_bind] in Hvd.
  destruct (field "total_cost" _ _ _ _) as [a6|] eqn:E6; [|discriminate].
  cbn [mbind option_bind] in Hvd.
  apply BookingFacts.field_required_inv in E1 as (v1 & x1 & D1 & P1 & ->).
  apply BookingFacts.field_required_inv in E2 as (v2 & x2 & D2 & P2 & ->).
  apply BookingFacts.field_required_inv in E3 as (v3 & x3 & D3 & P3 & ->).
  apply BookingFacts.field_required_inv in E4 as (v4 & x4 & D4 & P4 & ->).
  apply BookingFacts.field_required_inv in E5 as (v5 & x5 & D5 & P5 & ->).
  apply BookingFacts.field_required_inv in E6 as (v6 & x6 & D6 & P6 & ->).
  apply BookingFacts.fmap_field_inv in P1 as (sid & P1 & ->).
  apply BookingFacts.fmap_field_inv in P2 as (sty & P2 & ->).
  apply BookingFacts.fmap_field_inv in P3 as (sst & P3 & ->).
  apply BookingFacts.fmap_field_inv in P4 as (set_ & P4 & ->).
  apply BookingFacts.fmap_field_inv in P5 as (dur & P5 & ->).
  apply BookingFacts.fmap_field_inv in P6 as (cost & P6 & ->).
  exists v1, v2, v3, v4, v5, v6, sid, sty, sst, set_, dur, cost.
  assert (L : forall k, k <> "access_code" ->
            vd !! k = (<["total_cost":=VDecimal cost]>
                        (<["duration":=VDecimal dur]>
                          (<["scheduled_end_time":=VDateTime set_]>
                            (<["scheduled_start_time":=VDateTime sst]>
                              (<["spot_type":=VStr sty]>
                                (<["spot_id":=VUuid sid]> (∅ : gmap string pyval))))))) !! k).
  { intros k Hk. exact (BookingFacts.field_lookup_ne _ _ _ _ _ _ k Hvd Hk). }
  repeat (split; [assumption|]).
  rewrite !L by discriminate.
  repeat split; simplify_map_eq; reflexivity.
Qed.

(** X6: a create whose body the serializer accepts stores one new row
    under the fresh identifier; the row belongs to the caller, is
    booked now, and carries the spot, the scheduled window and the cost
    parsed from the body. *)
Theorem created_booking_belongs_to_caller req db vd :
  create_validated_data (data req) = Some vd ->
  exists b v1 v3 v4 v6,
    viewset_create req db = (Return (Created b), <[fresh_uuid req := b]> db) /\
    id b = fresh_uuid req /\
    user b = user_pk (req_user req) /\
    booking_time b = now req /\
    data req !! "spot_id" = Some v1 /\ parse_uuid v1 = Some (spot_id b) /\
    data req !! "scheduled_start_time" = Some v3 /\
    parse_datetime v3 = Some (scheduled_start_time b) /\
    data req !! "scheduled_end_time" = Some v4 /\
    parse_datetime v4 = Some (scheduled_end_time b) /\
    data req !! "total_cost" = Some v6 /\
    parse_decimal 10 2 v6 = Some (total_cost b).
Proof.
  intros Hvd. unfold viewset_create. rewrite Hvd.
  apply create_validated_data_body in Hvd
    as (v1 & v2 & v3 & v4 & v5 & v6 & sid & sty & sst & set_ & dur & cost
        & D1 & P1 & D2 & P2 & D3 & P3 & D4 & P4 & D5 & P5 & D6 & P6
        & L1 & L2 & L3 & L4 & L5 & L6 & _).
  unfold create, objects_create.
  rewrite !lookup_insert_eq.
  rewrite (lookup_insert_ne _ "status" "user") by discriminate.
  rewrite lookup_insert_eq.
  repeat (rewrite (lookup_insert_ne _ "status") by discriminate;
          rewrite (lookup_insert_ne _ "user") by discriminate).
  rewrite L1, L3, L4, L5, L6.
  eexists. exists v1, v3, v4, v6. split; [reflexivity|]. simpl.
  repeat split; assumption.
Qed.

(** X7: a create whose body lacks one of the six required fields is
    answered 400 and stores nothing. *)
Theorem create_requires_fields req db name :
  In name ["spot_id"; "spot_type"; "scheduled_start_time";
           "scheduled_end_time"; "duration"; "total_cost"] ->
  data req !! name = None ->
  viewset_create req db = (Return (BadRequest "invalid"), db).
Proof.
  intros Hin Hnone. unfold viewset_create.
  destruct (create_validated_data (data req)) as [vd|] eqn:Hvd; [|reflexivity].
  exfalso.
  apply create_validated_data_body in Hvd
    as (v1 & v2 & v3 & v4 & v5 & v6 & sid & sty & sst & set_ & dur & cost
        & D1 & P1 & D2 & P2 & D3 & P3 & D4 & P4 & D5 & P5 & D6 & P6 & _).
  simpl in Hin.
  destruct Hin as [<-|[<-|[<-|[<-|[<-|[<-|[]]]]]]]; congruence.
Qed.

End Views.

Section Lists.
Context {backends : FilterBackends BookingSession}.
Variable all_owned_ids : User -> list uuid.

Lemma elem_of_iterate (rows : table) b :
  b ∈ iterate rows <-> exists k, rows !! k = Some b.
Proof.
  unfold iterate. rewrite list_elem_of_fmap. split.
  - intros ([k b0] & -> & Hin). exists k. apply elem_of_map_to_list in Hin. exact Hin.
  - intros [k Hk]. exists (k, b). split; [reflexivity|].
    apply elem_of_map_to_list. exact Hk.
Qed.

Lemma elem_of_selection (keep : BookingSession -> bool) req db b :
  b ∈ iterate (filter (fun kb => keep (snd kb) = true)
                 (get_queryset all_owned_ids req db)) <->
  exists k, db !! k = Some b /\ visible all_owned_ids req b = true /\ keep b = true.
Proof.
  unfold get_queryset. rewrite elem_of_iterate. split.
  - intros [k Hk]. apply map_lookup_filter_Some in Hk as [Hk Ho].
    apply map_lookup_filter_Some in Hk as [Hk Hv]. eauto.
  - intros (k & Hk & Hv & Ho). exists k.
    apply map_lookup_filter_Some. split; [|exact Ho].
    apply map_lookup_filter_Some. split; [exact Hk|exact Hv].
Qed.

(** X8: [active] lists exactly the rows the caller may see that are
    [active] and have no [actual_end_time]. *)
Theorem active_lists_open_sessions req db b :
  b ∈ active all_owned_ids req db <->
  exists k, db !! k = Some b /\ visible all_owned_ids req b = true /\
            status b = "active" /\ actual_end_time b = None.
Proof.
  unfold active. rewrite elem_of_selection. unfold open_session.
  split.
  - intros (k & Hk & Hv & Ho). exists k. split; [exact Hk|]. split; [exact Hv|].
    apply andb_true_iff in Ho as [Hs He].
    apply String.eqb_eq in Hs. split; [exact Hs|].
    destruct (actual_end_time b); [discriminate|reflexivity].
  - intros (k & Hk & Hv & Hs & He). exists k.
    split; [exact Hk|]. split; [exact Hv|]. rewrite Hs, He. reflexivity.
Qed.

Lemma insert_latest_first_perm x l :
  Permutation (insert_latest_first x l) (x :: l).
Proof.
  induction l as [|y l IH]; simpl; [reflexivity|].
  destruct (booking_time x <? booking_time y)%Z; [|reflexivity].
  rewrite IH. apply perm_swap.
Qed.

Lemma latest_first_perm l : Permutation (latest_first l) l.
Proof.
  induction l as [|x l IH]; simpl; [reflexivity|].
  rewrite insert_latest_first_perm. apply perm_skip, IH.
Qed.

Lemma StronglySorted_lookup {A} (R : A -> A -> Prop) (l : list A) i j a b :
  StronglySorted R l -> (i < j)%nat ->
  l !! i = Some a -> l !! j = Some b -> R a b.
Proof.
  intros Hs. revert i j. induction Hs as [|x l Hs IH Hx]; intros i j Hij Hi Hj.
  - discriminate.
  - destruct j as [|j]; [lia|]. simpl in Hj.
    destruct i as [|i].
    + simpl in Hi. injection Hi as <-.
      rewrite Forall_forall in Hx. apply Hx.
      apply list_elem_of_lookup. eauto.
    + simpl in Hi. apply (IH i j); [lia|assumption|assumption].
Qed.

Lemma insert_latest_first_sorted x l :
  StronglySorted (fun a b => (booking_time b <= booking_time a)%Z) l ->
  StronglySorted (fun a b => (booking_time b <= booking_time a)%Z)
    (insert_latest_first x l).
Proof.
  induction 1 as [|y l Hs IH Hy]; simpl.
  - constructor; constructor.
  - destruct (Z.ltb_spec (booking_time x) (booking_time y)) as [Hlt|Hge].
    + constructor; [exact IH|].
      eapply Permutation_Forall; [symmetry; apply insert_latest_first_perm|].
      constructor; [lia|exact Hy].
    + constructor; [constructor; assumption|].
      constructor; [exact Hge|].
      eapply Forall_impl; [exact Hy|]. simpl. intros z Hz. lia.
Qed.

Lemma latest_first_sorted l :
  StronglySorted (fun a b => (booking_time b <= booking_time a)%Z) (latest_first l).
Proof.
  induction l as [|x l IH]; simpl; [constructor|].
  apply insert_latest_first_sorted, IH.
Qed.

(** X9: [history] lists exactly the rows the caller may see that are
    [completed] or [cancelled], and lists them latest [booking_time]
    first. *)
Theorem history_lists_finished_latest_first req db :
  (forall b, b ∈ history all_owned_ids req db <->
     exists k, db !! k = Some b /\ visible all_owned_ids req b = true /\
               (status b = "completed" \/ status b = "cancelled")) /\
  (forall i j b1 b2,
     (i < j)%nat ->
     history all_owned_ids req db !! i = Some b1 ->
     history all_owned_ids req db !! j = Some b2 ->
     (booking_time b2 <= booking_time b1)%Z).
Proof.
  split.
  - intros b. unfold history.
    rewrite (latest_first_perm _). rewrite elem_of_selection.
    unfold finished. simpl. split.
    + intros (k & Hk & Hv & Ho). exists k. split; [exact Hk|]. split; [exact Hv|].
      destruct (String.eqb_spec (status b) "completed"); [left; assumption|].
      destruct (String.eqb_spec (status b) "cancelled"); [right; assumption|].
      discriminate.
    + intros (k & Hk & Hv & Hs). exists k. split; [exact Hk|]. split; [exact Hv|].
      destruct Hs as [-> | ->]; reflexivity.
  - intros i j b1 b2 Hij H1 H2.
    pose proof (latest_first_sorted
                  (iterate (filter (fun kb => finished (snd kb) = true)
                              (get_queryset all_owned_ids req db)))) as Hs.
    fold (history all_owned_ids req db) in Hs.
    apply (StronglySorted_lookup _ _ i j b1 b2 Hs); assumption.
Qed.

Lemma visible_same_caller req req' b b' :
  req_user req' = req_user req ->
  query_params req' = query_params req ->
  user b' = user b -> spot_id b' = spot_id b ->
  visible all_owned_ids req' b' = visible all_owned_ids req b.
Proof. intros Hu Hq Hb Hs. unfold visible. rewrite Hu, Hq, Hb, Hs. reflexivity. Qed.

(** X10: once [start] has succeeded on a booking that was never
    ended, the same caller finds it in [active] and not in
    [history]. *)
Theorem started_booking_is_listed_active req req' pk db b :
  get_object all_owned_ids req pk db = Some b ->
  status b = "confirmed" ->
  actual_end_time b = None ->
  req_user req' = req_user req ->
  query_params req' = query_params req ->
  exists b',
    start all_owned_ids req pk db = (Return (Ok b'), <[pk := b']> db) /\
    b' ∈ active all_owned_ids req' (<[pk := b']> db) /\
    b' ∉ history all_owned_ids req' (<[pk := b']> db).
Proof.
  intros Hget Hs He Hu Hq.
  exists (save (now req) (set_status "active"
            (set_actual_start_time (Some (now req)) b))).
  split.
  { unfold start. eapply BookingFacts.detail_saved; [exact Hget|].
    apply BookingFacts.start_booking_confirmed, Hs. }
  apply BookingFacts.booking_get_object_Some in Hget as (_ & Hv & _).
  split.
  - unfold active. apply elem_of_selection. exists pk.
    split; [apply lookup_insert_eq|]. split.
    + rewrite <- Hv. apply visible_same_caller; auto.
    + unfold open_session. simpl. rewrite He. reflexivity.
  - unfold history. rewrite (latest_first_perm _).
    intros Hin. apply elem_of_selection in Hin as (k & _ & _ & Hc).
    discriminate.
Qed.

(** X11: once [cancel] has succeeded, the same caller finds the
    booking in [history] and not in [active]. *)
Theorem cancelled_booking_moves_to_history req req' pk db b :
  get_object all_owned_ids req pk db = Some b ->
  status b <> "completed" -> status b <> "cancelled" ->
  req_user req' = req_user req ->
  query_params req' = query_params req ->
  exists b',
    cancel all_owned_ids req pk db = (Return (Ok b'), <[pk := b']> db) /\
    b' ∈ history all_owned_ids req' (<[pk := b']> db) /\
    b' ∉ active all_owned_ids req' (<[pk := b']> db).
Proof.
  intros Hget E1 E2 Hu Hq.
  exists (save (now req) (set_status "cancelled" b)).
  split.
  { unfold cancel. eapply BookingFacts.detail_saved; [exact Hget|].
    apply BookingFacts.cancel_booking_open; assumption. }
  apply BookingFacts.booking_get_object_Some in Hget as (_ & Hv & _).
  split.
  - unfold history. rewrite (latest_first_perm _).
    apply elem_of_selection. exists pk.
    split; [apply lookup_insert_eq|]. split.
    + rewrite <- Hv. apply visible_same_caller; auto.
    + reflexivity.
  - unfold active. intros Hin.
    apply elem_of_selection in Hin as (k & _ & _ & Hc). discriminate.
Qed.

End Lists.

(** An [active] booking ended before its scheduled end. *)
Lemma end_succeeds_iff_on_time_witness :
  let req := Fixtures.request Fixtures.driver 5 in
  let b := Fixtures.booking "active" in
  let b' := save 5 (set_status "completed" (set_actual_end_time (Some 5) b)) in
  end_ (backends := Fixtures.no_filters) Fixtures.no_spots req 42
    (Fixtures.bookings "active")
  = (Return (Ok b'), <[42 := b']> (Fixtures.bookings "active")) /\
  total_cost b' = total_cost b /\ overstay_fee b' = overstay_fee b.
Proof.
  intros req b b'.
  apply (proj2 (end_succeeds_iff_on_time (backends := Fixtures.no_filters)
                  Fixtures.no_spots req 42 (Fixtures.bookings "active") b
                  ltac:(vm_compute; reflexivity))).
  - reflexivity.
  - simpl. lia.
Defined.


(** A [confirmed] booking patched straight to [completed]. *)
Lemma patch_status_ignores_lifecycle_witness :
  let req := Fixtures.dispute_patch "completed" 5 in
  let b' := save 5 (set_status "completed" (Fixtures.booking "confirmed")) in
  partial_update (H := Fixtures.parsers) (backends := Fixtures.no_filters)
    Fixtures.no_spots req 42 (Fixtures.bookings "confirmed")
  = (Return (Ok b'), <[42 := b']> (Fixtures.bookings "confirmed")).
Proof.
  intros req b'.
  apply (patch_status_ignores_lifecycle (H := Fixtures.parsers)
           (backends := Fixtures.no_filters) Fixtures.no_spots req 42
           (Fixtures.bookings "confirmed") (Fixtures.booking "confirmed")
           "completed").
  - vm_compute; reflexivity.
  - reflexivity.
  - simpl. tauto.
Defined.

Lemma update_keeps_reservation_witness :
  let req := Fixtures.patch_request "completed" 5 in
  let out := partial_update (H := Fixtures.parsers)
               (backends := Fixtures.no_filters) Fixtures.no_spots req 42
               (Fixtures.bookings "confirmed") in
  (is_success (fst out) = false /\ snd out = Fixtures.bookings "confirmed") \/
  (exists b', fst out = Return (Ok b') /\
              snd out = <[42 := b']> (Fixtures.bookings "confirmed") /\
              same_reservation (Fixtures.booking "confirmed") b' /\
              updated_at b' = 5).
Proof.
  intros req out.
  apply (update_keeps_reservation (H := Fixtures.parsers)
           (backends := Fixtures.no_filters) Fixtures.no_spots true req 42
           (Fixtures.bookings "confirmed") (Fixtures.booking "confirmed")
           (fst out) (snd out)).
  - vm_compute; reflexivity.
  - vm_compute; reflexivity.
Defined.

Lemma update_rejects_unknown_status_witness :
  partial_update (H := Fixtures.parsers) (backends := Fixtures.no_filters)
    Fixtures.no_spots (Fixtures.dispute_patch "parked" 5) 42
    (Fixtures.bookings "confirmed")
  = (Return (BadRequest "invalid"), Fixtures.bookings "confirmed").
Proof.
  apply (update_rejects_unknown_status (H := Fixtures.parsers)
           (backends := Fixtures.no_filters) Fixtures.no_spots true
           (Fixtures.dispute_patch "parked" 5) 42
           (Fixtures.bookings "confirmed") (Fixtures.booking "confirmed")
           (JStr "parked")).
  - vm_compute; reflexivity.
  - vm_compute; reflexivity.
  - intros st [= <-]. simpl. intuition discriminate.
Defined.

Lemma created_booking_belongs_to_caller_witness :
  exists b v1 v3 v4 v6,
    viewset_create (H := Fixtures.parsers) Fixtures.create_request ∅
      = (Return (Created b), <[42 := b]> ∅) /\
    id b = 42 /\
    user b = 7 /\
    booking_time b = 0 /\
    data Fixtures.create_request !! "spot_id" = Some v1 /\
    parse_uuid (FieldParsers := Fixtures.parsers) v1 = Some (spot_id b) /\
    data Fixtures.create_request !! "scheduled_start_time" = Some v3 /\
    parse_datetime (FieldParsers := Fixtures.parsers) v3
      = Some (scheduled_start_time b) /\
    data Fixtures.create_request !! "scheduled_end_time" = Some v4 /\
    parse_datetime (FieldParsers := Fixtures.parsers) v4
      = Some (scheduled_end_time b) /\
    data Fixtures.create_request !! "total_cost" = Some v6 /\
    parse_decimal (FieldParsers := Fixtures.parsers) 10 2 v6
      = Some (total_cost b).
Proof.
  apply (created_booking_belongs_to_caller (H := Fixtures.parsers)
           Fixtures.create_request ∅
           (proj1_sig BookingFacts.create_request_valid)).
  exact (proj2_sig BookingFacts.create_request_valid).
Defined.

(** A create with an empty body. *)
Lemma create_requires_fields_witness :
  viewset_create (H := Fixtures.parsers) (Fixtures.request Fixtures.driver 5) ∅
  = (Return (BadRequest "invalid"), ∅).
Proof.
  apply (create_requires_fields (H := Fixtures.parsers)
           (Fixtures.request Fixtures.driver 5) ∅ "spot_id").
  - simpl. tauto.
  - reflexivity.
Defined.

Lemma started_booking_is_listed_active_witness :
  let req := Fixtures.request Fixtures.driver 5 in
  exists b',
    start (backends := Fixtures.no_filters) Fixtures.no_spots req 42
      (Fixtures.bookings "confirmed")
    = (Return (Ok b'), <[42 := b']> (Fixtures.bookings "confirmed")) /\
    b' ∈ active Fixtures.no_spots req (<[42 := b']> (Fixtures.bookings "confirmed")) /\
    b' ∉ history Fixtures.no_spots req (<[42 := b']> (Fixtures.bookings "confirmed")).
Proof.
  intros req.
  apply (started_booking_is_listed_active (backends := Fixtures.no_filters)
           Fixtures.no_spots req req 42 (Fixtures.bookings "confirmed")
           (Fixtures.booking "confirmed")).
  - vm_compute; reflexivity.
  - reflexivity.
  - reflexivity.
  - reflexivity.
  - reflexivity.
Defined.

Lemma cancelled_booking_moves_to_history_witness :
  let req := Fixtures.request Fixtures.driver 5 in
  exists b',
    cancel (backends := Fixtures.no_filters) Fixtures.no_spots req 42
      (Fixtures.bookings "pending")
    = (Return (Ok b'), <[42 := b']> (Fixtures.bookings "pending")) /\
    b' ∈ history Fixtures.no_spots req (<[42 := b']> (Fixtures.bookings "pending")) /\
    b' ∉ active Fixtures.no_spots req (<[42 := b']> (Fixtures.bookings "pending")).
Proof.
  intros req.
  apply (cancelled_booking_moves_to_history (backends := Fixtures.no_filters)
           Fixtures.no_spots req req 42 (Fixtures.bookings "pending")
           (Fixtures.booking "pending")).
  - vm_compute; reflexivity.
  - simpl. discriminate.
  - simpl. discriminate.
  - reflexivity.
  - reflexivity.
Defined.

End BookingExtras.

(** ** More properties of the dispute views *)

Module DisputeExtras.
Import Disputes DisputeCreation.
Local Open Scope Z_scope.
Local Open Scope string_scope.

Section Views.
Context `{FieldParsers} {backends : FilterBackends DisputeReport}.

(** X12: [resolve] succeeds exactly when the caller is staff, the
    dispute is one the caller can reach and the body carries a
    non-empty [resolution]; it then stores the dispute as [resolved],
    resolved now, with that text, and changes nothing else. *)
Theorem resolve_succeeds_iff req bookings pk db :
  (is_success (fst (resolve req bookings pk db)) = true <->
     is_staff (req_user req) = true /\
     is_Some (get_object req bookings pk db) /\
     truthy (data req !! "resolution") = true) /\
  (forall d v,
     is_staff (req_user req) = true ->
     get_object req bookings pk db = Some d ->
     data req !! "resolution" = Some v ->
     truthy (Some v) = true ->
     exists d',
       resolve req bookings pk db = (Return (Ok d'), <[pk := d']> db) /\
       status d' = "resolved" /\
       resolved_at d' = Some (now req) /\
       resolution d' = Some (text v) /\
       id d' = id d /\ booking d' = booking d /\ reason d' = reason d /\
       description d' = description d /\ photo_urls d' = photo_urls d /\
       created_at d' = created_at d).
Proof.
  split.
  - unfold resolve.
    destruct (is_staff (req_user req)); simpl.
    2:{ split; [discriminate|]. intros [? _]. discriminate. }
    destruct (get_object req bookings pk db) as [d|]; simpl.
    2:{ split; [discriminate|]. intros (_ & [x Hx] & _). discriminate. }
    destruct (truthy (data req !! "resolution")); simpl.
    + split; [|reflexivity]. intros _. split; [reflexivity|]. split; [eauto|reflexivity].
    + split; [discriminate|]. intros (_ & _ & ?). discriminate.
  - intros d v Hstaff Hget Hv Ht. unfold resolve.
    rewrite Hstaff, Hget, Hv, Ht. simpl.
    eexists. split; [reflexivity|]. simpl. repeat split; reflexivity.
Qed.

(** X13: an update of a dispute either answers without success and
    stores nothing, or stores a row with the same [id], [created_at]
    and [resolved_at]: the read-only fields of
    [DisputeReportSerializer]. *)
Theorem update_keeps_read_only_fields partial req bookings pk db d r db' :
  get_object req bookings pk db = Some d ->
  viewset_update partial req bookings pk db = (r, db') ->
  (is_success r = false /\ db' = db) \/
  (exists d', r = Return (Ok d') /\ db' = <[pk := d']> db /\
              id d' = id d /\ created_at d' = created_at d /\
              resolved_at d' = resolved_at d).
Proof.
  intros Hget. unfold viewset_update. rewrite Hget.
  destruct (update_validated_data partial bookings (data req)) as [[vd photos]|].
  - intros [= <- <-]. right. eexists. split; [reflexivity|].
    split; [reflexivity|]. simpl. repeat split; reflexivity.
  - intros [= <- <-]. left. split; reflexivity.
Qed.


Lemma dispute_create_validated_data_inv bookings (data : gmap string json) vd photos :
  create_validated_data bookings data = Some (vd, photos) ->
  exists v b r d bk,
    data !! "booking" = Some v /\ parse_uuid v = Some b /\
    bookings !! b = Some bk /\
    vd !! "booking" = Some (VUuid b) /\
    vd !! "reason" = Some (VStr r) /\
    vd !! "description" = Some (VStr d) /\
    photos = data !! "photo_urls" /\ photos <> Some JNull.
Proof.
  unfold create_validated_data. intros Hvd.
  destruct (Bookings.field "booking" _ _ _ _) as [a1|] eqn:E1; [|discriminate].
  cbn [mbind option_bind] in Hvd.
  destruct (Bookings.field "reason" _ _ _ _) as [a2|] eqn:E2; [|discriminate].
  cbn [mbind option_bind] in Hvd.
  destruct (Bookings.field "description" _ _ _ _) as [a3|] eqn:E3; [|discriminate].
  cbn [mbind option_bind] in Hvd.
  assert (Hp : a3 = vd /\ photos = data !! "photo_urls" /\ photos <> Some JNull).
  { destruct (data !! "photo_urls") as [[]|]; try discriminate;
      injection Hvd as <- <-; repeat split; discriminate. }
  destruct Hp as (<- & Hph & Hnn). clear Hvd.
  apply BookingFacts.field_required_inv in E1 as (v1 & x1 & D1 & P1 & ->).
  apply BookingFacts.field_required_inv in E2 as (v2 & x2 & D2 & P2 & ->).
  apply BookingFacts.field_required_inv in E3 as (v3 & x3 & D3 & P3 & ->).
  apply BookingFacts.fmap_field_inv in P2 as (r & _ & ->).
  apply BookingFacts.fmap_field_inv in P3 as (d & _ & ->).
  unfold booking_field in P1.
  destruct (parse_uuid v1) as [b|] eqn:Pu; [|discriminate].
  cbn [mbind option_bind] in P1.
  destruct (bool_decide (is_Some (bookings !! b))) eqn:Hb; [|discriminate].
  injection P1 as <-. apply bool_decide_eq_true in Hb as [bk Hbk].
  exists v1, b, r, d, bk.
  repeat split; try assumption; simplify_map_eq; reflexivity.
Qed.

(** X15: a dispute whose body the create serializer accepts is stored
    under the fresh identifier as [pending], created now, unresolved,
    and about a booking that exists. *)
Theorem filed_dispute_is_pending req bookings db validated :
  create_validated_data bookings (data req) = Some validated ->
  exists d bk,
    viewset_create req bookings db
      = (Return (Created d), <[fresh_uuid req := d]> db) /\
    status d = "pending" /\ resolved_at d = None /\ resolution d = None /\
    created_at d = now req /\
    bookings !! booking d = Some bk.
Proof.
  destruct validated as [vd photos]. intros Hvd.
  unfold viewset_create. rewrite Hvd.
  apply dispute_create_validated_data_inv in Hvd
    as (v & b & r & d & bk & _ & _ & Hbk & L1 & L2 & L3 & _).
  unfold objects_create. rewrite L1, L2, L3.
  eexists. exists bk. split; [reflexivity|]. simpl.
  repeat split; try reflexivity. exact Hbk.
Qed.

(** X16: the create serializer accepts any existing booking, also one
    of another user; a caller who is not staff and does not own that
    booking cannot reach the dispute that was just stored. *)
Theorem dispute_on_foreign_booking_is_lost req req' bookings db validated :
  create_validated_data bookings (data req) = Some validated ->
  is_staff (req_user req') = false ->
  (forall v b bk, data req !! "booking" = Some v -> parse_uuid v = Some b ->
                  bookings !! b = Some bk ->
                  Bookings.user bk <> user_pk (req_user req')) ->
  exists d,
    viewset_create req bookings db
      = (Return (Created d), <[fresh_uuid req := d]> db) /\
    get_object req' bookings (fresh_uuid req) (<[fresh_uuid req := d]> db) = None.
Proof.
  destruct validated as [vd photos]. intros Hvd Hstaff Hother.
  unfold viewset_create. rewrite Hvd.
  apply dispute_create_validated_data_inv in Hvd
    as (v & b & r & d & bk & D1 & P1 & Hbk & L1 & L2 & L3 & _).
  unfold objects_create. rewrite L1, L2, L3.
  eexists. split; [reflexivity|]. simpl.
  destruct (get_object req' bookings (fresh_uuid req) _) as [d0|] eqn:Hg;
    [|reflexivity].
  unfold get_object, get_queryset in Hg.
  apply map_lookup_filter_Some in Hg as [Hg _].
  apply map_lookup_filter_Some in Hg as [Hd0 Hv].
  rewrite lookup_insert_eq in Hd0. injection Hd0 as <-. simpl in Hv.
  unfold visible in Hv. rewrite Hstaff in Hv. simpl in Hv.
  rewrite Hbk in Hv. apply Z.eqb_eq in Hv.
  exfalso. exact (Hother v b bk D1 P1 Hbk Hv).
Qed.

End Views.

(** Staff resolving a [pending] dispute. *)
Lemma resolve_succeeds_iff_witness :
  exists d',
    resolve (H := Fixtures.parsers) (backends := Fixtures.no_filters)
      (Fixtures.resolve_request 7) ∅ 9 (Fixtures.disputes "pending")
    = (Return (Ok d'), <[9 := d']> (Fixtures.disputes "pending")) /\
    status d' = "resolved" /\
    resolved_at d' = Some 7 /\
    resolution d' = Some (text (H := Fixtures.parsers) (JStr "refunded")) /\
    id d' = id (Fixtures.dispute "pending") /\
    booking d' = booking (Fixtures.dispute "pending") /\
    reason d' = reason (Fixtures.dispute "pending") /\
    description d' = description (Fixtures.dispute "pending") /\
    photo_urls d' = photo_urls (Fixtures.dispute "pending") /\
    created_at d' = created_at (Fixtures.dispute "pending").
Proof.
  apply (proj2 (resolve_succeeds_iff (H := Fixtures.parsers)
                  (backends := Fixtures.no_filters)
                  (Fixtures.resolve_request 7) ∅ 9 (Fixtures.disputes "pending"))
           (Fixtures.dispute "pending") (JStr "refunded")).
  - reflexivity.
  - vm_compute; reflexivity.
  - vm_compute; reflexivity.
  - reflexivity.
Defined.

Lemma update_keeps_read_only_fields_witness :
  let req := Fixtures.dispute_patch "pending" 5 in
  let out := viewset_update (H := Fixtures.parsers)
               (backends := Fixtures.no_filters) true req
               (Fixtures.bookings "completed") 9 (Fixtures.disputes "resolved") in
  (is_success (fst out) = false /\ snd out = Fixtures.disputes "resolved") \/
  (exists d', fst out = Return (Ok d') /\
              snd out = <[9 := d']> (Fixtures.disputes "resolved") /\
              id d' = id (Fixtures.dispute "resolved") /\
              created_at d' = created_at (Fixtures.dispute "resolved") /\
              resolved_at d' = resolved_at (Fixtures.dispute "resolved")).
Proof.
  intros req out.
  apply (update_keeps_read_only_fields (H := Fixtures.parsers)
           (backends := Fixtures.no_filters) true req
           (Fixtures.bookings "completed") 9 (Fixtures.disputes "resolved")
           (Fixtures.dispute "resolved") (fst out) (snd out)).
  - vm_compute; reflexivity.
  - vm_compute; reflexivity.
Defined.


Lemma dispute_request_valid (u : User) :
  { validated | create_validated_data (H := Fixtures.parsers)
                  (Fixtures.bookings "completed")
                  (data (Scenarios.dispute_request u)) = Some validated }.
Proof. eexists. vm_compute. reflexivity. Defined.

(** The driver filing a dispute about their own booking. *)
Lemma filed_dispute_is_pending_witness :
  exists d bk,
    viewset_create (H := Fixtures.parsers)
      (Scenarios.dispute_request Fixtures.driver)
      (Fixtures.bookings "completed") ∅
    = (Return (Created d), <[9 := d]> ∅) /\
    status d = "pending" /\ resolved_at d = None /\ resolution d = None /\
    created_at d = 50 /\
    Fixtures.bookings "completed" !! booking d = Some bk.
Proof.
  apply (filed_dispute_is_pending (H := Fixtures.parsers)
           (Scenarios.dispute_request Fixtures.driver)
           (Fixtures.bookings "completed") ∅
           (proj1_sig (dispute_request_valid Fixtures.driver))).
  exact (proj2_sig (dispute_request_valid Fixtures.driver)).
Defined.

(** Someone else filing a dispute about the driver's booking, and then
    looking for it. *)
Lemma dispute_on_foreign_booking_is_lost_witness :
  exists d,
    viewset_create (H := Fixtures.parsers)
      (Scenarios.dispute_request Scenarios.stranger)
      (Fixtures.bookings "completed") ∅
    = (Return (Created d), <[9 := d]> ∅) /\
    get_object (backends := Fixtures.no_filters)
      (Scenarios.dispute_request Scenarios.stranger)
      (Fixtures.bookings "completed") 9 (<[9 := d]> ∅) = None.
Proof.
  apply (dispute_on_foreign_booking_is_lost (H := Fixtures.parsers)
           (backends := Fixtures.no_filters)
           (Scenarios.dispute_request Scenarios.stranger)
           (Scenarios.dispute_request Scenarios.stranger)
           (Fixtures.bookings "completed") ∅
           (proj1_sig (dispute_request_valid Scenarios.stranger))).
  - exact (proj2_sig (dispute_request_valid Scenarios.stranger)).
  - reflexivity.
  - intros v b bk Hv Hb Hbk. vm_compute in Hv. injection Hv as <-.
    vm_compute in Hb. injection Hb as <-.
    vm_compute in Hbk. injection Hbk as <-. simpl. lia.
Defined.

End DisputeExtras.

(** ** More properties of the parking-spot views *)

Module ParkingExtras.
Import Parking ParkingSelection.
Local Open Scope Z_scope.
Local Open Scope string_scope.

Lemma not_nan_le_infinity (d : float) :
  (d =? d)%float = true -> (d <=? infinity)%float = true.
Proof.
  rewrite FloatAxioms.eqb_spec, FloatAxioms.leb_spec. unfold SFeqb, SFleb.
  change (Prim2SF infinity) with (S754_infinity false).
  destruct (Prim2SF d) as [s|s| |s m e]; simpl; try reflexivity; try discriminate.
  destruct s; reflexivity.
Qed.

Section Views.
Context `{FieldParsers} `{Geo.Libm}.

(** The loop of lines 66-70 keeps the rows, in order, each with the
    distance computed for it. *)
Lemma with_distance_spec lat lon spots l :
  with_distance lat lon spots = Return l ->
  fst <$> l = spots /\
  Forall (fun x => Geo.calculate_distance lat lon (latitude (fst x))
                     (longitude (fst x)) = Return (distance x)) l.
Proof.
  revert l. induction spots as [|s spots IH]; simpl; intros l Hl.
  - injection Hl as <-. split; [reflexivity|constructor].
  - destruct (Geo.calculate_distance lat lon (latitude s) (longitude s))
      as [d|e] eqn:Hd; simpl in Hl; [|discriminate].
    destruct (with_distance lat lon spots) as [tail|e]; simpl in Hl; [|discriminate].
    injection Hl as <-. destruct (IH tail eq_refl) as [Hf Hall].
    split; [rewrite fmap_cons; simpl; f_equal; exact Hf|].
    constructor; [exact Hd|exact Hall].
Qed.

Lemma where_lookup keep (rows : table) k s :
  where_ keep rows !! k = Some s <-> rows !! k = Some s /\ keep s = true.
Proof. unfold where_. rewrite map_lookup_filter_Some. reflexivity. Qed.

(** The two shapes of what [get_queryset] returns. *)
Lemma get_queryset_shape req db c :
  get_queryset req db = Return c ->
  exists rows,
    selected req db rows /\
    ((truthy_str (query_params req !! "lat")
      && truthy_str (query_params req !! "lon") = false /\ c = QuerySet rows)
     \/
     (exists lat lon l,
        query_params req !! "lat" = Some lat /\
        query_params req !! "lon" = Some lon /\
        with_distance lat lon (iterate rows) = Return l /\
        c = PyList (sort_by_distance l))).
Proof.
  unfold get_queryset.
  match goal with
  | |- context [bind ?m _] => destruct m as [qs|e] eqn:Hm; cbn [bind]; [|discriminate]
  end.
  set (qs2 := if bool_decide (query_params req !! "available_only" = Some "true")
              then where_ available qs else qs).
  assert (Hsel : selected req db qs2).
  { intros k s. subst qs2.
    assert (Hqs : qs !! k = Some s <->
              db !! k = Some s /\
              (forall p bound,
                 query_params req !! "max_price" = Some p -> p <> "" ->
                 decimal_of_string p = Some bound ->
                 Qle_bool (price_per_hour s) bound = true)).
    { destruct (query_params req !! "max_price") as [p|] eqn:Hp.
      - destruct (truthy_str (Some p)) eqn:Ht.
        + destruct (decimal_of_string p) as [bound|] eqn:Hb; [|discriminate].
          injection Hm as <-. rewrite where_lookup. split.
          * intros [Hk Hle]. split; [exact Hk|].
            intros p' bound' [= <-] _ Hb'. rewrite Hb in Hb'.
            injection Hb' as <-. exact Hle.
          * intros [Hk Hle]. split; [exact Hk|].
            apply (Hle p bound eq_refl); [|exact Hb].
            intros ->. discriminate.
        + injection Hm as <-. split; [|tauto].
          intros Hk. split; [exact Hk|]. intros p' bound' [= <-] Hne.
          simpl in Ht. apply negb_false_iff, String.eqb_eq in Ht. contradiction.
      - injection Hm as <-. split; [|tauto].
        intros Hk. split; [exact Hk|]. intros p' bound' Hp'. discriminate. }
    destruct (bool_decide (query_params req !! "available_only" = Some "true"))
      eqn:Ha.
    - apply bool_decide_eq_true in Ha. rewrite where_lookup, Hqs. split.
      + intros [[Hk Hp] Hav]. split; [exact Hk|]. split; [exact Hp|].
        intros _. unfold available in Hav. apply andb_true_iff in Hav as [H1 H2].
        split; apply negb_true_iff; assumption.
      + intros (Hk & Hp & Hav). split; [tauto|].
        destruct (Hav Ha) as [H1 H2]. unfold available. rewrite H1, H2. reflexivity.
    - apply bool_decide_eq_false in Ha. rewrite Hqs. split.
      + intros [Hk Hp]. split; [exact Hk|]. split; [exact Hp|].
        intros Hc. contradiction.
      + intros (Hk & Hp & _). tauto. }
  intros Hc. exists qs2. split; [exact Hsel|].
  destruct (query_params req !! "lat") as [lat|]; [|left].
  2:{ injection Hc as <-. split; reflexivity. }
  destruct (query_params req !! "lon") as [lon|]; [|left].
  2:{ injection Hc as <-. split; [|reflexivity].
      apply andb_false_iff. right. reflexivity. }
  destruct (truthy_str (Some lat) && truthy_str (Some lon)) eqn:Ht; [right|left].
  - destruct (with_distance lat lon (iterate qs2)) as [l|e] eqn:Hw;
      cbn [bind] in Hc; [|discriminate].
    injection Hc as <-. exists lat, lon, l. auto.
  - injection Hc as <-. split; reflexivity.
Qed.

(** X17: without both [lat] and [lon] in the query string,
    [ParkingSpotViewSet.get_queryset] returns a query set holding
    exactly the spots within the price bound and, when
    [available_only=true], neither occupied nor disabled; the only
    exception it can raise is the [ValidationError] for a [max_price]
    that is no decimal. *)
Theorem get_queryset_without_location req db :
  truthy_str (query_params req !! "lat")
  && truthy_str (query_params req !! "lon") = false ->
  (forall c, get_queryset req db = Return c ->
     exists rows, c = QuerySet rows /\ selected req db rows) /\
  (forall e, get_queryset req db = Raise e ->
     e = ValidationError /\
     exists p, query_params req !! "max_price" = Some p /\ p <> "" /\
               decimal_of_string p = None).
Proof.
  intros Hloc. split.
  - intros c Hc. destruct (get_queryset_shape req db c Hc) as (rows & Hsel & Hcase).
    exists rows. split; [|exact Hsel].
    destruct Hcase as [[_ ->]|(lat & lon & l & Hlat & Hlon & _ & ->)]; [reflexivity|].
    exfalso. unfold get_queryset in Hc. rewrite Hlat, Hlon in Hloc, Hc.
    rewrite Hloc in Hc.
    match type of Hc with
    | bind ?m _ = _ => destruct m; cbn [bind] in Hc; discriminate
    end.
  - intros e. unfold get_queryset.
    destruct (query_params req !! "max_price") as [p|] eqn:Hp.
    + destruct (truthy_str (Some p)) eqn:Ht.
      * destruct (decimal_of_string p) as [bound|] eqn:Hb.
        -- cbn [bind].
           destruct (query_params req !! "lat") as [lat|]; [|discriminate].
           destruct (query_params req !! "lon") as [lon|]; [|discriminate].
           rewrite Hloc. discriminate.
        -- cbn [bind]. intros [= <-]. split; [reflexivity|].
           exists p. split; [reflexivity|]. split; [|exact Hb].
           intros ->. discriminate.
      * cbn [bind].
        destruct (query_params req !! "lat") as [lat|]; [|discriminate].
        destruct (query_params req !! "lon") as [lon|]; [|discriminate].
        rewrite Hloc. discriminate.
    + cbn [bind].
      destruct (query_params req !! "lat") as [lat|]; [|discriminate].
      destruct (query_params req !! "lon") as [lon|]; [|discriminate].
      rewrite Hloc. discriminate.
Qed.

(** X18: with [lat] and [lon] in the query string, what
    [get_queryset] returns is a list: the selected spots, each once,
    each with its distance from the caller, in non-decreasing order of
    distance whenever no distance is a NaN. *)
Theorem get_queryset_with_location req db lat lon c :
  query_params req !! "lat" = Some lat -> lat <> "" ->
  query_params req !! "lon" = Some lon -> lon <> "" ->
  get_queryset req db = Return c ->
  exists rows l,
    c = PyList l /\
    selected req db rows /\
    Permutation (fst <$> l) (iterate rows) /\
    Forall (fun x => Geo.calculate_distance lat lon (latitude (fst x))
                       (longitude (fst x)) = Return (distance x)) l /\
    (comparable l -> nondecreasing l).
Proof.
  intros Hlat Hnlat Hlon Hnlon Hc.
  destruct (get_queryset_shape req db c Hc) as (rows & Hsel & Hcase).
  destruct Hcase as [[Hloc _]|(lat' & lon' & l & Hlat' & Hlon' & Hw & ->)].
  { exfalso. rewrite Hlat, Hlon in Hloc. simpl in Hloc.
    apply andb_false_iff in Hloc as [Hf|Hf];
      apply negb_false_iff, String.eqb_eq in Hf; contradiction. }
  rewrite Hlat in Hlat'. injection Hlat' as <-.
  rewrite Hlon in Hlon'. injection Hlon' as <-.
  destruct (with_distance_spec _ _ _ _ Hw) as [Hfst Hall].
  exists rows, (sort_by_distance l). split; [reflexivity|].
  split; [exact Hsel|]. split.
  { rewrite <- Hfst. apply fmap_Permutation, ParkingFacts.sort_by_distance_perm. }
  split.
  { eapply Permutation_Forall;
      [symmetry; apply ParkingFacts.sort_by_distance_perm|exact Hall]. }
  intros Hcmp. apply (ParkingFacts.sort_by_distance_nondecreasing infinity).
  eapply Permutation_Forall; [apply ParkingFacts.sort_by_distance_perm|].
  eapply Forall_impl; [exact Hcmp|].
  intros x Hx. apply not_nan_le_infinity, Hx.
Qed.

(** X19: a request that carries [lat] and [lon] cannot reach a single
    spot: [get_object] raises, and so [toggle_occupancy] raises and
    leaves the table as it was. *)
Theorem detail_with_location_raises
    {backends : FilterBackends ParkingSpot} req pk db lat lon :
  query_params req !! "lat" = Some lat -> lat <> "" ->
  query_params req !! "lon" = Some lon -> lon <> "" ->
  exists e,
    get_object req pk db = Raise e /\
    toggle_occupancy req pk db = (Raise e, db).
Proof.
  intros Hlat Hnlat Hlon Hnlon.
  assert (Hget : exists e, get_object req pk db = Raise e).
  { unfold get_object.
    destruct (get_queryset req db) as [c|e] eqn:Hc; cbn [bind]; [|eauto].
    destruct (get_queryset_shape req db c Hc) as (rows & _ & Hcase).
    destruct Hcase as [[Hloc _]|(lat' & lon' & l & _ & _ & _ & ->)]; [|eauto].
    exfalso. rewrite Hlat, Hlon in Hloc. simpl in Hloc.
    apply andb_false_iff in Hloc as [Hf|Hf];
      apply negb_false_iff, String.eqb_eq in Hf; contradiction. }
  destruct Hget as [e He]. exists e. split; [exact He|].
  unfold toggle_occupancy. rewrite He. reflexivity.
Qed.

(** X30: [nearby] reads [radius] before it looks for the location: a
    [radius] that is no number raises [ValueError], also when [lat] or
    [lon] is missing; with a readable [radius] (or none), a request
    without both [lat] and [lon] is answered 400. *)
Theorem nearby_without_location req db :
  (forall r, query_params req !! "radius" = Some r ->
             float_of_string r = None ->
             nearby req db = Raise ValueError) /\
  ((forall r, query_params req !! "radius" = Some r ->
              is_Some (float_of_string r)) ->
   truthy_str (query_params req !! "lat")
   && truthy_str (query_params req !! "lon") = false ->
   nearby req db = Return (BadRequest "Latitude and longitude required")).
Proof.
  split.
  - intros r Hr Hbad. unfold nearby. rewrite Hr, Hbad. reflexivity.
  - intros Hok Hloc. unfold nearby.
    assert (Hrad : exists x,
              match query_params req !! "radius" with
              | Some r => match float_of_string r with
                          | Some x => Return x
                          | None => Raise ValueError
                          end
              | None => Return (float_of_Z 5000)
              end = Return x).
    { destruct (query_params req !! "radius") as [r|] eqn:Hr; [|eauto].
      destruct (Hok r eq_refl) as [x ->]. eauto. }
    destruct Hrad as [x ->]. cbn [bind].
    destruct (query_params req !! "lat") as [lat|]; [|reflexivity].
    destruct (query_params req !! "lon") as [lon|]; [|reflexivity].
    apply andb_false_iff in Hloc.
    destruct (truthy_str (Some lat)), (truthy_str (Some lon)); try reflexivity.
    destruct Hloc; discriminate.
Qed.

End Views.

Lemma get_queryset_without_location_witness :
  exists rows,
    QuerySet Fixtures.spots = QuerySet rows /\
    selected (H := Fixtures.parsers) (Fixtures.request Fixtures.driver 5)
      Fixtures.spots rows.
Proof.
  apply (proj1 (get_queryset_without_location (H := Fixtures.parsers)
                  (H0 := Fixtures.libm) (Fixtures.request Fixtures.driver 5)
                  Fixtures.spots ltac:(reflexivity))).
  reflexivity.
Defined.

Lemma nearby_request_queryset :
  { c | get_queryset (H := Fixtures.parsers) (H0 := Fixtures.libm)
          Fixtures.nearby_request Fixtures.spots = Return c }.
Proof. eexists. vm_compute. reflexivity. Defined.

Lemma get_queryset_with_location_witness :
  exists rows l,
    proj1_sig nearby_request_queryset = PyList l /\
    selected (H := Fixtures.parsers) Fixtures.nearby_request Fixtures.spots rows /\
    Permutation (fst <$> l) (iterate rows) /\
    Forall (fun x => Geo.calculate_distance (H := Fixtures.parsers)
                       (H0 := Fixtures.libm) "28.6139" "77.2090"
                       (latitude (fst x)) (longitude (fst x))
                     = Return (distance x)) l /\
    (comparable l -> nondecreasing l).
Proof.
  apply (get_queryset_with_location (H := Fixtures.parsers)
           (H0 := Fixtures.libm) Fixtures.nearby_request Fixtures.spots
           "28.6139" "77.2090" (proj1_sig nearby_request_queryset)).
  - reflexivity.
  - discriminate.
  - reflexivity.
  - discriminate.
  - exact (proj2_sig nearby_request_queryset).
Defined.

Lemma detail_with_location_raises_witness :
  exists e,
    get_object (H := Fixtures.parsers) (H0 := Fixtures.libm)
      (backends := Fixtures.no_filters) Fixtures.nearby_request 5 Fixtures.spots
    = Raise e /\
    toggle_occupancy (H := Fixtures.parsers) (H0 := Fixtures.libm)
      (backends := Fixtures.no_filters) Fixtures.nearby_request 5 Fixtures.spots
    = (Raise e, Fixtures.spots).
Proof.
  apply (detail_with_location_raises (H := Fixtures.parsers)
           (H0 := Fixtures.libm) (backends := Fixtures.no_filters)
           Fixtures.nearby_request 5 Fixtures.spots "28.6139" "77.2090").
  - reflexivity.
  - discriminate.
  - reflexivity.
  - discriminate.
Defined.

End ParkingExtras.

(** ** More properties of the distance formula *)

Module GeoExtras.
Local Open Scope R_scope.

(** The quantity under the root, as the formula writes it. *)
Lemma haversine_unfold lat1 lon1 lat2 lon2 :
  let a := sin ((lat2 * (PI / 180) - lat1 * (PI / 180)) / 2)
           * sin ((lat2 * (PI / 180) - lat1 * (PI / 180)) / 2)
           + cos (lat1 * (PI / 180)) * cos (lat2 * (PI / 180))
             * (sin ((lon2 * (PI / 180) - lon1 * (PI / 180)) / 2)
                * sin ((lon2 * (PI / 180) - lon1 * (PI / 180)) / 2)) in
  0 <= a <= 1 ->
  Geo.haversine (H := Geo.Arith_R) lat1 lon1 lat2 lon2
  = Return (6371 * (2 * asin (sqrt a)) * 1000).
Proof.
  intros a [Ha0 Ha1]. unfold Geo.haversine.
  cbn [Geo.radians Geo.sub Geo.add Geo.mul Geo.div Geo.sqr Geo.sin Geo.cos
       Geo.of_Z Geo.asin Geo.sqrt Geo.Arith_R].
  fold a.
  destruct (Rle_dec 0 a) as [_|Hn]; [|contradiction].
  cbn [bind].
  assert (Hs0 : 0 <= sqrt a) by apply sqrt_pos.
  assert (Hs1 : sqrt a <= 1).
  { rewrite <- sqrt_1. apply sqrt_le_1_alt. exact Ha1. }
  destruct (Rle_dec (-1) (sqrt a)) as [_|Hn]; [|exfalso; lra].
  destruct (Rle_dec (sqrt a) 1) as [_|Hn]; [|contradiction].
  reflexivity.
Qed.

(** X20: over the real numbers, the distance the formula of
    [calculate_distance] gives from a point to itself is zero. *)
Theorem distance_to_itself_is_zero lat lon :
  Geo.haversine (H := Geo.Arith_R) lat lon lat lon = Return 0.
Proof.
  rewrite haversine_unfold.
  - unfold Rminus. rewrite !Rplus_opp_r.
    replace (0 / 2) with 0 by field.
    rewrite sin_0, !Rmult_0_r, Rplus_0_r, sqrt_0, asin_0.
    f_equal. ring.
  - unfold Rminus. rewrite !Rplus_opp_r.
    replace (0 / 2) with 0 by field.
    rewrite sin_0. lra.
Qed.

Lemma sin_half_swap x y :
  sin ((y - x) / 2) * sin ((y - x) / 2) = sin ((x - y) / 2) * sin ((x - y) / 2).
Proof.
  replace ((y - x) / 2) with (- ((x - y) / 2)) by field.
  rewrite sin_neg. ring.
Qed.

(** X21: over the real numbers, the formula of [calculate_distance]
    is symmetric: the distance from A to B is the distance from B
    to A. *)
Theorem distance_is_symmetric lat1 lon1 lat2 lon2 :
  Geo.haversine (H := Geo.Arith_R) lat1 lon1 lat2 lon2
  = Geo.haversine (H := Geo.Arith_R) lat2 lon2 lat1 lon1.
Proof.
  unfold Geo.haversine.
  cbn [Geo.radians Geo.sub Geo.add Geo.mul Geo.div Geo.sqr Geo.sin Geo.cos
       Geo.of_Z Geo.asin Geo.sqrt Geo.Arith_R].
  rewrite (sin_half_swap (lat1 * (PI / 180)) (lat2 * (PI / 180))).
  rewrite (sin_half_swap (lon1 * (PI / 180)) (lon2 * (PI / 180))).
  rewrite (Rmult_comm (cos (lat1 * (PI / 180))) (cos (lat2 * (PI / 180)))).
  reflexivity.
Qed.

Lemma sin_sqr_half x : sin (x / 2) * sin (x / 2) = (1 - cos x) / 2.
Proof.
  pose proof (cos_2a_sin (x / 2)) as Hc.
  replace (2 * (x / 2)) with x in Hc by field. lra.
Qed.

(** X22: over the real numbers, for latitudes between -90 and 90
    degrees the formula of [calculate_distance] returns (it never
    leaves the domain of the square root or of the arc sine), and the
    distance lies between 0 and half the circumference,
    6371000 * pi metres. *)
Theorem distance_range lat1 lon1 lat2 lon2 :
  -90 <= lat1 <= 90 -> -90 <= lat2 <= 90 ->
  exists d,
    Geo.haversine (H := Geo.Arith_R) lat1 lon1 lat2 lon2 = Return d /\
    0 <= d <= 6371000 * PI.
Proof.
  intros H1 H2. pose proof PI_RGT_0 as HPI.
  set (p1 := lat1 * (PI / 180)). set (p2 := lat2 * (PI / 180)).
  assert (Hp1 : - (PI / 2) <= p1 <= PI / 2) by (unfold p1; split; nra).
  assert (Hp2 : - (PI / 2) <= p2 <= PI / 2) by (unfold p2; split; nra).
  assert (Hc1 : 0 <= cos p1) by (apply cos_ge_0; lra).
  assert (Hc2 : 0 <= cos p2) by (apply cos_ge_0; lra).
  set (t := sin ((lon2 * (PI / 180) - lon1 * (PI / 180)) / 2)).
  assert (Ht : 0 <= t * t <= 1).
  { pose proof (SIN_bound ((lon2 * (PI / 180) - lon1 * (PI / 180)) / 2)) as Hb.
    fold t in Hb. nra. }
  assert (Hs : sin ((p2 - p1) / 2) * sin ((p2 - p1) / 2)
               = (1 - (cos p2 * cos p1 + sin p2 * sin p1)) / 2).
  { rewrite sin_sqr_half, cos_minus. reflexivity. }
  assert (Hsum : -1 <= cos p1 * cos p2 - sin p1 * sin p2 <= 1).
  { rewrite <- cos_plus. apply COS_bound. }
  assert (Hdiff : -1 <= cos p2 * cos p1 + sin p2 * sin p1 <= 1).
  { rewrite <- cos_minus. apply COS_bound. }
  assert (Ha : 0 <= sin ((p2 - p1) / 2) * sin ((p2 - p1) / 2)
                    + cos p1 * cos p2 * (t * t) <= 1).
  { rewrite Hs. split; nra. }
  eexists. split; [apply haversine_unfold; exact Ha|].
  set (a := sin ((p2 - p1) / 2) * sin ((p2 - p1) / 2) + cos p1 * cos p2 * (t * t))
    in *.
  assert (Hs0 : 0 <= sqrt a) by apply sqrt_pos.
  assert (Hs1 : sqrt a <= 1).
  { rewrite <- sqrt_1. apply sqrt_le_1_alt. lra. }
  pose proof (GeoFacts.asin_lower (sqrt a) (conj Hs0 Hs1)) as Hlo.
  pose proof (asin_bound (sqrt a)) as [_ Hhi].
  cbv zeta. fold p1 p2 t. fold a. split; lra.
Qed.

(** From the equator to the pole. *)
Lemma distance_range_witness :
  exists d,
    Geo.haversine (H := Geo.Arith_R) 0 0 90 0 = Return d /\
    0 <= d <= 6371000 * PI.
Proof.
  apply (distance_range 0 0 90 0).
  - lra.
  - lra.
Defined.

End GeoExtras.

(** ** Properties of the facility and listing models and views *)

Module FacilityExtras.
Import CommercialSlots Facilities.
Local Open Scope Z_scope.
Local Open Scope string_scope.

Lemma slot_where_lookup keep (rows : CommercialSlots.table) k s :
  where_ keep rows !! k = Some s <-> rows !! k = Some s /\ keep s = true.
Proof. unfold where_. rewrite map_lookup_filter_Some. reflexivity. Qed.

Lemma count_where_le keep (rows : CommercialSlots.table) :
  0 <= count (where_ keep rows) <= count rows.
Proof.
  unfold count, where_. split; [lia|].
  apply inj_le, map_size_filter.
Qed.

(** X23: for a commercial facility, [available_slots] lies between 0
    and [total_slots], and equals it exactly when none of the
    facility's slots is occupied or disabled. *)
Theorem available_slots_bounds f sdb :
  0 <= available_slots f sdb <= total_slots f sdb /\
  (available_slots f sdb = total_slots f sdb <->
   forall k s, sdb !! k = Some s -> facility s = id f ->
               is_occupied s = false /\ is_disabled s = false).
Proof.
  split; [apply count_where_le|].
  unfold available_slots, total_slots, count.
  split.
  - intros Heq k s Hk Hf.
    assert (Hsub : where_ free (slots_of f sdb) = slots_of f sdb).
    { apply map_subseteq_size_eq; [apply map_filter_subseteq|lia]. }
    assert (Hin : slots_of f sdb !! k = Some s).
    { apply slot_where_lookup. split; [exact Hk|]. apply Z.eqb_eq, Hf. }
    rewrite <- Hsub in Hin. apply slot_where_lookup in Hin as [_ Hfree].
    unfold free in Hfree. apply andb_true_iff in Hfree as [H1 H2].
    split; apply negb_true_iff; assumption.
  - intros Hall. f_equal. f_equal.
    apply map_eq. intros k.
    destruct (slots_of f sdb !! k) as [s|] eqn:Hs.
    + apply slot_where_lookup. split; [exact Hs|].
      apply slot_where_lookup in Hs as [Hk Hf]. apply Z.eqb_eq in Hf.
      destruct (Hall k s Hk Hf) as [H1 H2]. unfold free. rewrite H1, H2. reflexivity.
    + destruct (where_ free (slots_of f sdb) !! k) as [s|] eqn:Hw; [|reflexivity].
      apply slot_where_lookup in Hw as [Hw _]. congruence.
Qed.

Section Views.
Context `{FieldParsers} `{Geo.Libm} `{IntOfString} `{BulkCreate}
        {backends : FilterBackends CommercialParkingFacility}.

Lemma elem_of_slot_iterate (rows : CommercialSlots.table) s :
  s ∈ CommercialSlots.iterate rows <-> exists k, rows !! k = Some s.
Proof.
  unfold CommercialSlots.iterate. rewrite list_elem_of_fmap. split.
  - intros ([k s0] & -> & Hin). exists k. apply elem_of_map_to_list in Hin. exact Hin.
  - intros [k Hk]. exists (k, s). split; [reflexivity|].
    apply elem_of_map_to_list. exact Hk.
Qed.

(** X24: on a facility the caller can reach, [slots] raises
    [ValueError] for a [floor] that is no integer; otherwise it lists
    exactly the slots of that facility that are on the floor asked
    for, of the slot type asked for and, when [available_only=true],
    neither occupied nor disabled. *)
Theorem slots_lists_matching_slots req pk db sdb f :
  get_object req pk db = Return (Some f) ->
  (forall fl, query_params req !! "floor" = Some fl -> fl <> "" ->
              int_of_string fl = None ->
              slots req pk db sdb = Raise ValueError) /\
  ((forall fl, query_params req !! "floor" = Some fl -> fl <> "" ->
               is_Some (int_of_string fl)) ->
   exists l,
     slots req pk db sdb = Return (Ok l) /\
     forall s, s ∈ l <->
       exists k, sdb !! k = Some s /\ facility s = id f /\
         (forall fl n, query_params req !! "floor" = Some fl -> fl <> "" ->
                       int_of_string fl = Some n -> floor s = n) /\
         (forall ty, query_params req !! "slot_type" = Some ty -> ty <> "" ->
                     slot_type s = ty) /\
         (query_params req !! "available_only" = Some "true" ->
          is_occupied s = false /\ is_disabled s = false)).
Proof.
  intros Hget. unfold slots. rewrite Hget. cbn [bind]. split.
  - intros fl Hfl Hne Hbad. rewrite Hfl.
    assert (Ht : truthy_str (Some fl) = true).
    { simpl. apply negb_true_iff, String.eqb_neq, Hne. }
    rewrite Ht, Hbad. reflexivity.
  - intros Hok.
    set (byfloor := match query_params req !! "floor" with
                    | Some fl => _ | None => _ end).
    assert (Hfloor : exists rows, byfloor = Return rows /\
              forall k s, rows !! k = Some s <->
                sdb !! k = Some s /\ facility s = id f /\
                (forall fl n, query_params req !! "floor" = Some fl -> fl <> "" ->
                              int_of_string fl = Some n -> floor s = n)).
    { subst byfloor.
      assert (Hbase : forall k s, slots_of f sdb !! k = Some s <->
                        sdb !! k = Some s /\ facility s = id f).
      { intros k s. unfold slots_of. rewrite slot_where_lookup, Z.eqb_eq.
        reflexivity. }
      destruct (query_params req !! "floor") as [fl|] eqn:Hfl.
      - destruct (truthy_str (Some fl)) eqn:Ht.
        + assert (Hne : fl <> "").
          { intros ->. discriminate. }
          destruct (Hok fl eq_refl Hne) as [n Hn]. rewrite Hn.
          eexists. split; [reflexivity|]. intros k s.
          rewrite slot_where_lookup, Hbase, Z.eqb_eq. split.
          * intros [[Hk Hf] Hfloor]. split; [exact Hk|]. split; [exact Hf|].
            intros fl' n' [= <-] _ Hn'. congruence.
          * intros (Hk & Hf & Hfloor). split; [tauto|].
            apply (Hfloor fl n eq_refl Hne Hn).
        + eexists. split; [reflexivity|]. intros k s. rewrite Hbase. split.
          * intros [Hk Hf]. split; [exact Hk|]. split; [exact Hf|].
            intros fl' n' [= <-] Hne. simpl in Ht.
            apply negb_false_iff, String.eqb_eq in Ht. contradiction.
          * tauto.
      - eexists. split; [reflexivity|]. intros k s. rewrite Hbase. split.
        + intros [Hk Hf]. split; [exact Hk|]. split; [exact Hf|]. discriminate.
        + tauto. }
    destruct Hfloor as (rows & -> & Hrows). cbn [bind].
    eexists. split; [reflexivity|]. intros s.
    rewrite elem_of_slot_iterate.
    set (bytype := match query_params req !! "slot_type" with
                   | Some ty => _ | None => _ end).
    assert (Htype : forall k s, bytype !! k = Some s <->
              rows !! k = Some s /\
              (forall ty, query_params req !! "slot_type" = Some ty -> ty <> "" ->
                          slot_type s = ty)).
    { subst bytype. intros k s0.
      destruct (query_params req !! "slot_type") as [ty|] eqn:Hty.
      - destruct (truthy_str (Some ty)) eqn:Ht.
        + rewrite slot_where_lookup, String.eqb_eq. split.
          * intros [Hk Hs]. split; [exact Hk|]. intros ty' [= <-] _. exact Hs.
          * intros [Hk Hs]. split; [exact Hk|]. apply Hs; [reflexivity|].
            intros ->. discriminate.
        + split; [|tauto]. intros Hk. split; [exact Hk|].
          intros ty' [= <-] Hne. simpl in Ht.
          apply negb_false_iff, String.eqb_eq in Ht. contradiction.
      - split; [|tauto]. intros Hk. split; [exact Hk|]. discriminate. }
    clearbody bytype.
    destruct (bool_decide (query_params req !! "available_only" = Some "true"))
      eqn:Ha.
    + apply bool_decide_eq_true in Ha. split.
      * intros [k Hk]. exists k.
        apply slot_where_lookup in Hk as [Hk Hfree].
        apply Htype in Hk as [Hk Hty]. apply Hrows in Hk as (Hk & Hf & Hfl).
        repeat (split; [assumption|]). intros _.
        unfold free in Hfree. apply andb_true_iff in Hfree as [H1' H2'].
        split; apply negb_true_iff; assumption.
      * intros (k & Hk & Hf & Hfl & Hty & Hav). exists k.
        apply slot_where_lookup. split.
        -- apply Htype. split; [|exact Hty]. apply Hrows. tauto.
        -- destruct (Hav Ha) as [H1' H2']. unfold free. rewrite H1', H2'. reflexivity.
    + apply bool_decide_eq_false in Ha. split.
      * intros [k Hk]. exists k.
        apply Htype in Hk as [Hk Hty]. apply Hrows in Hk as (Hk & Hf & Hfl).
        repeat (split; [assumption|]). intros Hc. contradiction.
      * intros (k & Hk & Hf & Hfl & Hty & _). exists k.
        apply Htype. split; [|exact Hty]. apply Hrows. tauto.
Qed.

(** X25: [create_slots] answers 400 and creates nothing when [count],
    or [floor] after a readable [count], is a string that [int]
    refuses. *)
Theorem create_slots_rejects_unparsable_numbers req pk db sdb f s :
  get_object req pk db = Return (Some f) ->
  int_of_string s = None ->
  data req !! "count" = Some (JStr s) \/
  (data req !! "floor" = Some (JStr s) /\
   exists n, int_ (default (JNum 0) (data req !! "count")) = Return n) ->
  create_slots req pk db sdb
  = (Return (BadRequest "Invalid number format"), sdb).
Proof.
  intros Hget Hbad Hcase. unfold create_slots. rewrite Hget.
  destruct Hcase as [Hc|[Hf [n Hn]]].
  - rewrite Hc. simpl. rewrite Hbad. reflexivity.
  - rewrite Hn, Hf. simpl. rewrite Hbad. reflexivity.
Qed.

(** X26: a [count] (or, after a readable [count], a [floor]) that is
    [null] is not answered with 400: the [TypeError] of [int] escapes
    the view, and nothing is created. *)
Theorem create_slots_null_number_escapes req pk db sdb f :
  get_object req pk db = Return (Some f) ->
  data req !! "count" = Some JNull \/
  (data req !! "floor" = Some JNull /\
   exists n, int_ (default (JNum 0) (data req !! "count")) = Return n) ->
  create_slots req pk db sdb = (Raise TypeError, sdb).
Proof.
  intros Hget Hcase. unfold create_slots. rewrite Hget.
  destruct Hcase as [Hc|[Hf [n Hn]]].
  - rewrite Hc. reflexivity.
  - rewrite Hn, Hf. reflexivity.
Qed.

(** X28: the new slot numbers continue after the NUMBER of slots on
    the floor, not after the highest number in use.  If a slot of the
    facility already bears one of the numbers the batch will get (as
    after a deletion on that floor), a database that enforces
    [unique_together] makes [create_slots] raise [IntegrityError], and
    nothing is created. *)
Theorem create_slots_collides_after_gap req pk db sdb f n fl k s m :
  get_object req pk db = Return (Some f) ->
  int_ (default (JNum 0) (data req !! "count")) = Return n ->
  int_ (default (JNum 1) (data req !! "floor")) = Return fl ->
  (forall batch u k' s',
     u ∈ batch -> sdb !! k' = Some s' ->
     new_facility u = facility s' -> new_slot_number u = slot_number s' ->
     bulk_create req sdb batch = Raise IntegrityError) ->
  sdb !! k = Some s -> facility s = id f ->
  slot_number s = label fl m ->
  count (where_ (fun s => (floor s =? fl)%Z) (slots_of f sdb)) < m
    <= count (where_ (fun s => (floor s =? fl)%Z) (slots_of f sdb)) + n ->
  create_slots req pk db sdb = (Raise IntegrityError, sdb).
Proof.
  intros Hget Hn Hfl Hunique Hk Hf Hs Hm.
  unfold create_slots. rewrite Hget, Hn. cbn [bind]. rewrite Hfl. cbn [bind].
  set (existing := count (where_ (fun s => (floor s =? fl)%Z) (slots_of f sdb))) in *.
  rewrite (Hunique _ {| new_facility := id f; new_floor := fl;
                        new_slot_type := default (JStr "regular")
                                           (data req !! "slot_type");
                        new_slot_number := label fl m |} k s);
    [reflexivity| |exact Hk|simpl; congruence|simpl; congruence].
  unfold new_slots. apply list_elem_of_fmap.
  exists (Z.to_nat (m - existing - 1)). split.
  - f_equal. f_equal. lia.
  - apply elem_of_seq. lia.
Qed.

End Views.

Lemma label_inj floor n m : label floor n = label floor m -> n = m.
Proof.
  unfold label. intros Heq.
  apply String.app_inj in Heq. apply String.app_inj in Heq.
  apply String.app_inj in Heq. apply pretty_Z_inj in Heq. exact Heq.
Qed.

Lemma new_slots_lookup f floor ty existing n i u :
  new_slots f floor ty existing n !! i = Some u ->
  (Z.of_nat i < n) /\
  u = {| new_facility := id f; new_floor := floor; new_slot_type := ty;
         new_slot_number := label floor (existing + Z.of_nat i + 1) |}.
Proof.
  unfold new_slots. rewrite list_lookup_fmap.
  destruct (seq 0 (Z.to_nat n) !! i) as [j|] eqn:Hj; [|discriminate].
  apply lookup_seq in Hj as [-> Hlt]. simpl. intros [= <-].
  split; [lia|reflexivity].
Qed.

(** X27: the batch [create_slots] builds has [count] slots (none when
    [count] is negative), all of that facility, floor and slot type;
    their slot numbers are pairwise different and are exactly the
    [F<floor>-<m>] with [m] from one above the number of slots the
    floor already has, up to that number plus [count]. *)
Theorem new_slots_labels f floor ty existing n :
  length (new_slots f floor ty existing n) = Z.to_nat n /\
  NoDup (new_slot_number <$> new_slots f floor ty existing n) /\
  (forall u, u ∈ new_slots f floor ty existing n ->
     new_facility u = id f /\ new_floor u = floor /\ new_slot_type u = ty /\
     exists m, existing < m <= existing + n /\
               new_slot_number u = label floor m) /\
  (forall m, existing < m <= existing + n ->
     label floor m ∈ new_slot_number <$> new_slots f floor ty existing n).
Proof.
  split; [|split; [|split]].
  - unfold new_slots. rewrite length_fmap, length_seq. reflexivity.
  - apply NoDup_alt. intros i j x Hi Hj.
    rewrite list_lookup_fmap in Hi, Hj.
    destruct (new_slots f floor ty existing n !! i) as [u|] eqn:Hu; [|discriminate].
    destruct (new_slots f floor ty existing n !! j) as [v|] eqn:Hv; [|discriminate].
    apply new_slots_lookup in Hu as [_ ->]. apply new_slots_lookup in Hv as [_ ->].
    cbn [fmap option_fmap option_map new_slot_number] in Hi, Hj.
    assert (Heq : label floor (existing + Z.of_nat i + 1)
                  = label floor (existing + Z.of_nat j + 1)) by congruence.
    apply label_inj in Heq. lia.
  - intros u Hin.
    apply list_elem_of_lookup in Hin as [i Hi].
    apply new_slots_lookup in Hi as [Hlt ->].
    cbn [new_facility new_floor new_slot_type new_slot_number].
    repeat (split; [reflexivity|]).
    exists (existing + Z.of_nat i + 1). split; [lia|reflexivity].
  - intros m Hm. apply list_elem_of_fmap.
    exists {| new_facility := id f; new_floor := floor; new_slot_type := ty;
              new_slot_number := label floor m |}.
    split; [reflexivity|].
    unfold new_slots. apply list_elem_of_fmap.
    exists (Z.to_nat (m - existing - 1)). split.
    + f_equal. f_equal. lia.
    + apply elem_of_seq. lia.
Qed.

(** The database of [Scenarios.store] enforces [unique_together]. *)
Lemma store_enforces_unique req (sdb : CommercialSlots.table) batch u k s :
  u ∈ batch -> sdb !! k = Some s ->
  new_facility u = facility s -> new_slot_number u = slot_number s ->
  bulk_create (BulkCreate := Scenarios.store) req sdb batch = Raise IntegrityError.
Proof.
  intros Hu Hk Hf Hn. simpl.
  assert (Hex : existsb (Scenarios.clashes sdb) batch = true).
  { apply existsb_exists. exists u. split; [apply list_elem_of_In, Hu|].
    unfold Scenarios.clashes. apply existsb_exists. exists s. split.
    - apply list_elem_of_In. unfold CommercialSlots.iterate.
      apply list_elem_of_fmap. exists (k, s). split; [reflexivity|].
      apply elem_of_map_to_list, Hk.
    - rewrite Hf, Hn, Z.eqb_refl, String.eqb_refl. reflexivity. }
  rewrite Hex. reflexivity.
Qed.

Lemma slots_lists_matching_slots_witness :
  exists l,
    slots (H := Fixtures.parsers) (H0 := Fixtures.libm) (H1 := Scenarios.digits)
      (backends := Fixtures.no_filters)
      Scenarios.slots_request 11 Scenarios.facilities Scenarios.slots
    = Return (Ok l) /\
    forall s, s ∈ l <->
      exists k, Scenarios.slots !! k = Some s /\
        facility s = id Scenarios.facility /\
        (forall fl n, query_params Scenarios.slots_request !! "floor" = Some fl ->
                      fl <> "" ->
                      int_of_string (IntOfString := Scenarios.digits) fl = Some n ->
                      floor s = n) /\
        (forall ty, query_params Scenarios.slots_request !! "slot_type" = Some ty ->
                    ty <> "" -> slot_type s = ty) /\
        (query_params Scenarios.slots_request !! "available_only" = Some "true" ->
         is_occupied s = false /\ is_disabled s = false).
Proof.
  apply (proj2 (slots_lists_matching_slots (H := Fixtures.parsers)
                  (H0 := Fixtures.libm) (H1 := Scenarios.digits)
                  (backends := Fixtures.no_filters)
                  Scenarios.slots_request 11 Scenarios.facilities Scenarios.slots
                  Scenarios.facility ltac:(vm_compute; reflexivity))).
  intros fl Hfl _. vm_compute in Hfl. injection Hfl as <-.
  exists 1. reflexivity.
Defined.

Lemma create_slots_rejects_unparsable_numbers_witness :
  create_slots (H := Fixtures.parsers) (H0 := Fixtures.libm)
    (H1 := Scenarios.digits) (H2 := Scenarios.store)
    (backends := Fixtures.no_filters)
    (Scenarios.create_slots_request (JStr "many") (JNum 1)) 11
    Scenarios.facilities Scenarios.slots
  = (Return (BadRequest "Invalid number format"), Scenarios.slots).
Proof.
  apply (create_slots_rejects_unparsable_numbers (H := Fixtures.parsers)
           (H0 := Fixtures.libm) (H1 := Scenarios.digits) (H2 := Scenarios.store)
           (backends := Fixtures.no_filters)
           (Scenarios.create_slots_request (JStr "many") (JNum 1)) 11
           Scenarios.facilities Scenarios.slots Scenarios.facility "many").
  - vm_compute; reflexivity.
  - reflexivity.
  - left. vm_compute; reflexivity.
Defined.

Lemma create_slots_null_number_escapes_witness :
  create_slots (H := Fixtures.parsers) (H0 := Fixtures.libm)
    (H1 := Scenarios.digits) (H2 := Scenarios.store)
    (backends := Fixtures.no_filters)
    (Scenarios.create_slots_request JNull (JNum 1)) 11
    Scenarios.facilities Scenarios.slots
  = (Raise TypeError, Scenarios.slots).
Proof.
  apply (create_slots_null_number_escapes (H := Fixtures.parsers)
           (H0 := Fixtures.libm) (H1 := Scenarios.digits) (H2 := Scenarios.store)
           (backends := Fixtures.no_filters)
           (Scenarios.create_slots_request JNull (JNum 1)) 11
           Scenarios.facilities Scenarios.slots Scenarios.facility).
  - vm_compute; reflexivity.
  - left. vm_compute; reflexivity.
Defined.

(** One more slot on floor 1, whose one slot is numbered [F1-2]. *)
Lemma create_slots_collides_after_gap_witness :
  create_slots (H := Fixtures.parsers) (H0 := Fixtures.libm)
    (H1 := Scenarios.digits) (H2 := Scenarios.store)
    (backends := Fixtures.no_filters)
    (Scenarios.create_slots_request (JNum 1) (JStr "1")) 11
    Scenarios.facilities Scenarios.slots
  = (Raise IntegrityError, Scenarios.slots).
Proof.
  apply (create_slots_collides_after_gap (H := Fixtures.parsers)
           (H0 := Fixtures.libm) (H1 := Scenarios.digits) (H2 := Scenarios.store)
           (backends := Fixtures.no_filters)
           (Scenarios.create_slots_request (JNum 1) (JStr "1")) 11
           Scenarios.facilities Scenarios.slots Scenarios.facility
           1 1 22 (Scenarios.slot 22 "F1-2" false) 2).
  - vm_compute; reflexivity.
  - vm_compute; reflexivity.
  - vm_compute; reflexivity.
  - intros batch u k' s'. apply store_enforces_unique.
  - vm_compute; reflexivity.
  - reflexivity.
  - vm_compute; reflexivity.
  - vm_compute. split; [reflexivity|discriminate].
Defined.

End FacilityExtras.


Module ListingExtras.
Import PrivateSlots Listings.
Local Open Scope Z_scope.

(** X29: for a private listing, [available_slots] never exceeds
    [total_slots] and does not look at [is_disabled]: disabling or
    enabling slots leaves it as it was. *)
Theorem available_slots_ignores_disabled l sdb v :
  available_slots l (set_is_disabled v <$> sdb) = available_slots l sdb /\
  available_slots l sdb <= total_slots l.
Proof.
  split.
  - unfold available_slots, slots_of, where_, count.
    rewrite !map_filter_fmap. rewrite !map_size_fmap. reflexivity.
  - unfold available_slots, count. lia.
Qed.

End ListingExtras.
